(** * Habit tracker: progress, achievements, storage and data integrity

    A shallow embedding of the JavaScript utilities of the habit tracker
    ([progressCalculations.js], [achievementSystem.js], [types.js],
    [storage.js], [dataSynchronizer.js]) together with the properties
    its specification states about them.

    Conventions of the embedding.
    - A JavaScript number is a [JS.number]: NaN, the two infinities or a
      finite rational.  Division and multiplication round their exact
      result to the nearest binary64 value ([JS.fl]), as IEEE 754 does.
      The sign of zero is not tracked.
    - Array lengths and loop counters are exact integers ([Z]).
    - A calendar date ['YYYY-MM-DD'] is the number of its UTC day, an
      instant is its number of milliseconds since the epoch, the time
      value of a [Date].
    - An object property that may be absent is an [option].
    - A string is the sequence of its UTF-8 bytes.
    - The store holds parsed documents: a JSON text is the value it
      parses to.  A text has [null] where the document written has NaN
      or an infinity: a property that reads back what was written asks
      that the document has no such number, or states what was
      written.
    - An operation of the store runs at one instant [now]; whether the
      store accepts a write, and the identifiers [generateUUID]
      returns, are given from outside. *)

From Stdlib Require Import ZArith QArith Qround Qpower Qabs Qreduction.
From Stdlib Require Import String Ascii Bool Lia Lqa.
From Stdlib Require Import List Permutation Sorted.
Import ListNotations.

Local Open Scope Z_scope.

(** ** JavaScript numbers *)

Module JS.

Inductive number : Type :=
| NaN
| PInf
| NInf
| Fin (q : Q).

Definition of_Z (z : Z) : number := Fin (inject_Z z).
Definition of_nat (n : nat) : number := of_Z (Z.of_nat n).

(** [ilog2 q] is the binary exponent of a positive rational:
    [2^(ilog2 q) <= q < 2^(ilog2 q + 1)]. *)
Definition ilog2 (q : Q) : Z :=
  let k := Z.log2 (Qnum q) - Z.log2 (Zpos (Qden q)) in
  if Qle_bool (2 ^ k) q then k else k - 1.

(** Nearest integer, ties to the even one. *)
Definition rne (q : Q) : Z :=
  let f := Qfloor q in
  match Qcompare (q - inject_Z f) (1 # 2) with
  | Lt => f
  | Gt => f + 1
  | Eq => if Z.even f then f else f + 1
  end.

(** Exponent of the last place of the binary64 values around a
    positive [q]: 53 significant bits, subnormals below [2^-1022]. *)
Definition ulp_exp (q : Q) : Z := Z.max (ilog2 q - 52) (-1074).

(** A positive rational rounded to 53 bits, before the range check. *)
Definition round53 (q : Q) : Q :=
  let e := ulp_exp q in
  (inject_Z (rne (q / 2 ^ e)) * 2 ^ e)%Q.

Definition fl_pos (q : Q) : number :=
  let r := round53 q in
  if Qle_bool (2 ^ 1024) r then PInf else Fin (Qred r).

Definition neg (a : number) : number :=
  match a with
  | NaN => NaN
  | PInf => NInf
  | NInf => PInf
  | Fin q => Fin (Qred (- q))
  end.

(** Round to nearest binary64, ties to even. *)
Definition fl (q : Q) : number :=
  match Qcompare q 0 with
  | Eq => Fin 0
  | Gt => fl_pos q
  | Lt => neg (fl_pos (- q))
  end.

(** A numeric literal of the source text, such as [0.4]. *)
Definition lit (q : Q) : number := fl q.

Definition sign_pos (q : Q) : bool := Qle_bool 0 q.

Definition inf_of (positive : bool) : number :=
  if positive then PInf else NInf.

(** [a / b] *)
Definition div (a b : number) : number :=
  match a, b with
  | NaN, _ | _, NaN => NaN
  | Fin x, Fin y =>
      if Qeq_bool y 0
      then (if Qeq_bool x 0 then NaN else inf_of (sign_pos x))
      else fl (x / y)
  | Fin _, (PInf | NInf) => Fin 0
  | PInf, Fin y => inf_of (sign_pos y)
  | NInf, Fin y => inf_of (negb (sign_pos y))
  | (PInf | NInf), (PInf | NInf) => NaN
  end.

(** [a * b] *)
Definition mul (a b : number) : number :=
  match a, b with
  | NaN, _ | _, NaN => NaN
  | Fin x, Fin y => fl (x * y)
  | Fin x, PInf | PInf, Fin x =>
      if Qeq_bool x 0 then NaN else inf_of (sign_pos x)
  | Fin x, NInf | NInf, Fin x =>
      if Qeq_bool x 0 then NaN else inf_of (negb (sign_pos x))
  | PInf, PInf | NInf, NInf => PInf
  | PInf, NInf | NInf, PInf => NInf
  end.

(** [a + b] *)
Definition add (a b : number) : number :=
  match a, b with
  | NaN, _ | _, NaN => NaN
  | Fin x, Fin y => fl (x + y)
  | PInf, NInf | NInf, PInf => NaN
  | PInf, _ | _, PInf => PInf
  | NInf, _ | _, NInf => NInf
  end.

(** [a - b] *)
Definition sub (a b : number) : number := add a (neg b).

(** [Math.abs] *)
Definition abs (a : number) : number :=
  match a with
  | NaN => NaN
  | PInf | NInf => PInf
  | Fin q => Fin (Qred (Qabs q))
  end.

(** [Math.round]: the nearest integer, a tie goes up. *)
Definition round (a : number) : number :=
  match a with
  | Fin q => of_Z (Qfloor (q + (1 # 2)))
  | _ => a
  end.

(** [Math.floor] *)
Definition floor (a : number) : number :=
  match a with
  | Fin q => of_Z (Qfloor q)
  | _ => a
  end.

(** [a <= b] on numbers, false as soon as one side is NaN. *)
Definition leb (a b : number) : bool :=
  match a, b with
  | NaN, _ | _, NaN => false
  | NInf, _ => true
  | _, PInf => true
  | Fin x, Fin y => Qle_bool x y
  | _, _ => false
  end.

(** [a < b] *)
Definition ltb (a b : number) : bool :=
  match a, b with
  | NaN, _ | _, NaN => false
  | _, _ => negb (leb b a)
  end.

(** [a >= b] and [a > b] *)
Definition geb (a b : number) : bool := leb b a.
Definition gtb (a b : number) : bool := ltb b a.

(** [a === b] on numbers. *)
Definition eqb (a b : number) : bool :=
  match a, b with
  | Fin x, Fin y => Qeq_bool x y
  | PInf, PInf | NInf, NInf => true
  | _, _ => false
  end.

(** [Math.min(a, b)] and [Math.max(a, b)]: NaN if one argument is. *)
Definition min (a b : number) : number :=
  match a, b with
  | NaN, _ | _, NaN => NaN
  | _, _ => if leb a b then a else b
  end.

Definition max (a b : number) : number :=
  match a, b with
  | NaN, _ | _, NaN => NaN
  | _, _ => if leb a b then b else a
  end.

(** Truthiness of a number: [0] and NaN are falsy. *)
Definition truthy (a : number) : bool :=
  match a with
  | NaN => false
  | Fin q => negb (Qeq_bool q 0)
  | _ => true
  end.

End JS.

(** ** Strings and arrays of the JavaScript runtime *)

Module Str.

(** A string is the sequence of its UTF-8 bytes.  The white space and
    the line terminators [String.prototype.trim] removes are, on one
    byte, tab, line feed, vertical tab, form feed, carriage return and
    space; on two bytes the no-break space U+00A0; on three bytes
    U+1680, U+2000 to U+200A, U+2028, U+2029, U+202F, U+205F, U+3000
    and U+FEFF. *)
Definition is_space (c : ascii) : bool :=
  let n := nat_of_ascii c in
  ((9 <=? n) && (n <=? 13))%nat || (n =? 32)%nat.

Definition is_space2 (c d : ascii) : bool :=
  ((nat_of_ascii c =? 194) && (nat_of_ascii d =? 160))%nat.

Definition is_space3 (c d e : ascii) : bool :=
  let n := nat_of_ascii c in
  let m := nat_of_ascii d in
  let k := nat_of_ascii e in
  ((n =? 225) && (m =? 154) && (k =? 128)
   || (n =? 226) && (m =? 128) &&
      ((128 <=? k) && (k <=? 138) || (k =? 168) || (k =? 169) || (k =? 175))
   || (n =? 226) && (m =? 129) && (k =? 159)
   || (n =? 227) && (m =? 128) && (k =? 128)
   || (n =? 239) && (m =? 187) && (k =? 191))%nat.

Fixpoint trim_start (s : string) : string :=
  match s with
  | EmptyString => EmptyString
  | String c r =>
      if is_space c then trim_start r
      else
        match r with
        | EmptyString => s
        | String d r1 =>
            if is_space2 c d then trim_start r1
            else
              match r1 with
              | EmptyString => s
              | String e r2 => if is_space3 c d e then trim_start r2 else s
              end
        end
  end.

(** Whether [s.trim()] is the empty string. *)
Definition blank (s : string) : bool :=
  match trim_start s with
  | EmptyString => true
  | _ => false
  end.

(** [a.includes(x)] on an array of strings. *)
Definition includes (x : string) (a : list string) : bool :=
  existsb (String.eqb x) a.

(** [a.indexOf(x)], with [None] for [-1]. *)
Fixpoint indexOf (x : string) (a : list string) : option nat :=
  match a with
  | [] => None
  | y :: r =>
      if String.eqb y x then Some O
      else match indexOf x r with
           | Some i => Some (S i)
           | None => None
           end
  end.

(** The part of [s] before the first [sep], that is [s.split(sep)[0]]
    for a separator of one character. *)
Fixpoint before (sep : ascii) (s : string) : string :=
  match s with
  | EmptyString => EmptyString
  | String c r => if Ascii.eqb c sep then EmptyString else String c (before sep r)
  end.

(** The value of [c] as a digit of the radix, if it is one. *)
Definition digit (radix : Z) (c : ascii) : option Z :=
  let n := Z.of_nat (nat_of_ascii c) in
  let value :=
    if (48 <=? n) && (n <=? 57) then Some (n - 48)
    else if (65 <=? n) && (n <=? 90) then Some (n - 55)
    else if (97 <=? n) && (n <=? 122) then Some (n - 87)
    else None in
  match value with
  | Some d => if d <? radix then Some d else None
  | None => None
  end.

Fixpoint digits (radix : Z) (s : string) (acc : option Z) : option Z :=
  match s with
  | EmptyString => acc
  | String c r =>
      match digit radix c with
      | Some d =>
          digits radix r
            (Some (radix * match acc with Some a => a | None => 0 end + d))
      | None => acc
      end
  end.

(** [parseInt(s)] without a radix: leading white space, an optional
    sign, the prefix [0x] or [0X] for radix 16, then the longest run
    of digits of the radix; NaN when there is no digit.  The integer
    read is rounded to a double. *)
Definition parseInt (s : string) : JS.number :=
  let t := trim_start s in
  let '(sg, body) :=
    match t with
    | String "-"%char r => (-1, r)
    | String "+"%char r => (1, r)
    | _ => (1, t)
    end in
  let '(radix, text) :=
    match body with
    | String "0"%char (String "x"%char r) => (16, r)
    | String "0"%char (String "X"%char r) => (16, r)
    | _ => (10, body)
    end in
  match digits radix text None with
  | Some n => JS.fl (inject_Z (sg * n))
  | None => JS.NaN
  end.

End Str.

Module Arr.

Section Sort.
Context {A : Type}.
(** The comparator of [Array.prototype.sort]: negative when the first
    argument goes first. *)
Variable cmp : A -> A -> Z.

(** [x] is put in front of the first element it does not follow, so
    that elements the comparator does not separate keep their order. *)
Fixpoint insert (x : A) (l : list A) : list A :=
  match l with
  | [] => [x]
  | y :: r => if cmp x y <=? 0 then x :: l else y :: insert x r
  end.

(** [[...l].sort(cmp)]: a stable sort. *)
Fixpoint sort (l : list A) : list A :=
  match l with
  | [] => []
  | x :: r => insert x (sort r)
  end.
End Sort.

(** [l.slice(-n)]: the last [n] elements. *)
Definition slice_last {A : Type} (n : nat) (l : list A) : list A :=
  skipn (length l - n) l.

(** [l.findIndex(p)], with [None] for [-1]. *)
Fixpoint findIndex {A : Type} (p : A -> bool) (l : list A) : option nat :=
  match l with
  | [] => None
  | x :: r =>
      if p x then Some O
      else match findIndex p r with
           | Some i => Some (S i)
           | None => None
           end
  end.

(** [l[i] = v] on a copy of [l], for an index inside the array. *)
Fixpoint set_nth {A : Type} (i : nat) (v : A) (l : list A) : list A :=
  match l, i with
  | [], _ => []
  | _ :: r, O => v :: r
  | x :: r, S j => x :: set_nth j v r
  end.

End Arr.

(** ** The data model ([types.js]) *)

Module Types.

(** A completion entry [{date, completed}]. *)
Record entry : Type := mkEntry {
  date : Z;
  completed : bool
}.

(** A habit.  [name], [frequency], [targetTime], the two counters and
    [completionHistory] may be absent from the object: [None] is a
    property that is undefined.  A string, a history or a counter
    that is null is read as [None] too, which is what the checks of
    [validateHabit] make of it; the arithmetic of the progress
    functions is modelled for a counter that is undefined (NaN as a
    number), not for one that is null.  [createdAt] is [None] when the
    property is undefined or a text that does not parse as a date, so
    that [new Date(habit.createdAt)] is an Invalid Date, and the time
    value of that [Date] otherwise.  A history that is present is an
    array of entries; another value in its place is not a habit of
    the model. *)
Record habit : Type := mkHabit {
  id : string;
  name : option string;
  frequency : option string;
  targetTime : option string;
  createdAt : option Z;
  completedDays : option JS.number;
  totalDays : option JS.number;
  completionHistory : option (list entry);
  isCompleted : bool;
  lastUpdated : option Z
}.

(** The envelope kept under the habits key. *)
Record stored_data : Type := mkStored {
  habits : option (list habit);
  envLastUpdated : option Z;
  version : option string
}.

Definition STORAGE_KEYS_HABITS : string := "@habits".
Definition STORAGE_KEYS_ACHIEVEMENTS : string := "@achievements".
Definition DEFAULT_HABITS : list habit := [].
Definition DEFAULT_VERSION : string := "1.0.0".
Definition FREQUENCY_OPTIONS : list string := ["daily"; "weekly"]%string.

(** [!s] for an optional string: absent or empty. *)
Definition falsy_str (s : option string) : bool :=
  match s with
  | None => true
  | Some EmptyString => true
  | Some _ => false
  end.

(** [typeof c !== 'number' || c < 0] *)
Definition bad_counter (c : option JS.number) : bool :=
  match c with
  | None => true
  | Some n => JS.ltb n (JS.of_Z 0)
  end.

Definition name_error (n : option string) : bool :=
  falsy_str n || match n with Some s => Str.blank s | None => true end.

Definition frequency_error (f : option string) : bool :=
  falsy_str f ||
  match f with Some s => negb (Str.includes s FREQUENCY_OPTIONS) | None => true end.

(** [validateHabit]: the error messages, in the order they are pushed.
    [targetTime] is a string whenever it is present and [isCompleted] is
    a boolean by the types of the record, so these two checks pass. *)
Definition validateHabit_errors (h : habit) : list string :=
  (if name_error (name h)
   then ["Habit name is required and must be a non-empty string"%string] else []) ++
  (if frequency_error (frequency h)
   then ["Frequency must be either daily or weekly"%string] else []) ++
  (if bad_counter (completedDays h)
   then ["Completed days must be a non-negative number"%string] else []) ++
  (if bad_counter (totalDays h)
   then ["Total days must be a non-negative number"%string] else []) ++
  (match completionHistory h with
   | None => ["Completion history must be an array"%string]
   | Some _ => []
   end).

Definition is_nil {A : Type} (l : list A) : bool :=
  match l with [] => true | _ => false end.

Definition validateHabit (h : habit) : bool := is_nil (validateHabit_errors h).

(** [validateStoredData] on an object; the errors are counted, their
    text is not kept. *)
Definition validateStoredData_errors (d : stored_data) : nat :=
  (match habits d with
   | None => 1
   | Some hs => length (filter (fun h => negb (validateHabit h)) hs)
   end +
   (if match envLastUpdated d with None => true | Some _ => false end then 1 else 0) +
   (if falsy_str (version d) then 1 else 0))%nat.

Definition validateStoredData (d : stored_data) : bool :=
  (validateStoredData_errors d =? 0)%nat.

(** What [validateHabitCreation] looks at. *)
Record habit_data : Type := mkData {
  dataName : option string;
  dataFrequency : option string;
  dataTargetTime : option string
}.

Definition validateHabitCreation (d : habit_data) : bool :=
  negb (name_error (dataName d)) && negb (frequency_error (dataFrequency d)).

(** [createDefaultHabit(name, frequency = 'daily', targetTime = null)]
    at the instant [now]; [fresh] is what [generateUUID()] returns, and
    an argument that is not passed is [None]. *)
Definition createDefaultHabit (now : Z) (fresh : string)
    (name frequency targetTime : option string) : habit :=
  mkHabit fresh name
          (match frequency with Some f => Some f | None => Some "daily"%string end)
          targetTime (Some now) (Some (JS.of_Z 0)) (Some (JS.of_Z 0)) (Some []) false None.

End Types.

(** ** Progress calculations ([progressCalculations.js]) *)

Module Progress.
Import Types.

(** The number an arithmetic operator reads from a property that may be
    absent: [undefined] converts to NaN. *)
Definition to_number (c : option JS.number) : JS.number :=
  match c with
  | Some n => n
  | None => JS.NaN
  end.

(** [c === 0] *)
Definition is_zero (c : option JS.number) : bool :=
  match c with
  | Some n => JS.eqb n (JS.of_Z 0)
  | None => false
  end.

(** [calculateCompletionPercentage(habit)]; [None] is a null or
    undefined habit. *)
Definition calculateCompletionPercentage (habit : option habit) : JS.number :=
  match habit with
  | None => JS.of_Z 0
  | Some h =>
      if is_zero (totalDays h) then JS.of_Z 0
      else
        let percentage :=
          JS.round (JS.mul (JS.div (to_number (completedDays h))
                                   (to_number (totalDays h)))
                           (JS.of_Z 100)) in
        JS.min percentage (JS.of_Z 100)
  end.

Definition MS_PER_DAY : Z := 1000 * 60 * 60 * 24.

(** [new Date(e.date)] in milliseconds. *)
Definition date_ms (e : entry) : Z := date e * MS_PER_DAY.

(** The comparator [(a, b) => new Date(b.date) - new Date(a.date)]. *)
Definition newest_first (a b : entry) : Z := date_ms b - date_ms a.

Record streak : Type := mkStreak {
  currentStreak : Z;
  longestStreak : Z
}.

(** The first loop of [calculateStreak], entered at index [i] with the
    value [cs] of [currentStreak]; a [break] returns at once. *)
Fixpoint current_loop (i : nat) (l : list entry) (cs : Z) : Z :=
  match l with
  | [] => cs
  | e :: rest =>
      if completed e then
        let cs1 := if (i =? 0)%nat then cs + 1 else cs in
        if (i =? 0)%nat then current_loop (S i) rest 1
        else if cs1 =? 0 then cs1
        else current_loop (S i) rest cs1
      else if (i =? 0)%nat then 0
      else current_loop (S i) rest cs
  end.

(** One turn of the second loop, on [(tempStreak, longestStreak)]. *)
Definition longest_step (st : Z * Z) (e : entry) : Z * Z :=
  let '(tempStreak, longest) := st in
  if completed e
  then (tempStreak + 1, Z.max longest (tempStreak + 1))
  else (0, longest).

(** [calculateStreak(completionHistory)]; [None] is a history that is
    undefined or null. *)
Definition calculateStreak (completionHistory : option (list entry)) : streak :=
  match completionHistory with
  | None | Some [] => mkStreak 0 0
  | Some l =>
      let sortedHistory := Arr.sort newest_first l in
      mkStreak (current_loop 0 sortedHistory 0)
               (snd (fold_left longest_step (rev sortedHistory) (0, 0)))
  end.

(** The time values of a [Date]: at most 8.64e15 milliseconds from the
    epoch.  A [Date] made from another number is an Invalid Date. *)
Definition valid_time (t : Z) : bool :=
  (-8640000000000000 <=? t) && (t <=? 8640000000000000).

(** [calculateWeeklyCompletionRate(completionHistory, weeksBack)] at the
    instant [now]; [None] is a history that is undefined or null.
    When [weeksAgo] is an Invalid Date no entry compares as later. *)
Definition calculateWeeklyCompletionRate
    (now : Z) (completionHistory : option (list entry)) (weeksBack : Z)
    : JS.number :=
  match completionHistory with
  | None | Some [] => JS.of_Z 0
  | Some l =>
      let weeksAgo := now - weeksBack * 7 * 24 * 60 * 60 * 1000 in
      let recentEntries :=
        if valid_time weeksAgo
        then filter (fun e => weeksAgo <=? date_ms e) l
        else [] in
      match recentEntries with
      | [] => JS.of_Z 0
      | _ =>
          let completedEntries := filter completed recentEntries in
          JS.round (JS.mul (JS.div (JS.of_nat (length completedEntries))
                                   (JS.of_nat (length recentEntries)))
                           (JS.of_Z 100))
      end
  end.

(** [getProgressColor(percentage)] *)
Definition getProgressColor (percentage : JS.number) : string :=
  if JS.geb percentage (JS.of_Z 80) then "#4ECDC4"%string
  else if JS.geb percentage (JS.of_Z 50) then "#FFE66D"%string
  else "#FF6B6B"%string.

Record consistency : Type := mkConsistency {
  score : JS.number;
  rating : string
}.

(** [calculateConsistencyScore(habit)] at the instant [now]. *)
Definition calculateConsistencyScore (now : Z) (habit : option habit) : consistency :=
  match habit with
  | None => mkConsistency (JS.of_Z 0) "No Data"
  | Some h =>
      match completionHistory h with
      | None | Some [] => mkConsistency (JS.of_Z 0) "No Data"
      | Some _ =>
          let cs := currentStreak (calculateStreak (completionHistory h)) in
          let completionRate := calculateCompletionPercentage habit in
          let weeklyRate := calculateWeeklyCompletionRate now (completionHistory h) 4 in
          let score :=
            JS.round
              (JS.add
                 (JS.add (JS.mul completionRate (JS.lit (4 # 10)))
                         (JS.mul weeklyRate (JS.lit (3 # 10))))
                 (JS.mul (JS.min (JS.mul (JS.of_Z cs) (JS.of_Z 5)) (JS.of_Z 30))
                         (JS.lit (3 # 10)))) in
          let rating :=
            if JS.geb score (JS.of_Z 90) then "Excellent"%string
            else if JS.geb score (JS.of_Z 75) then "Great"%string
            else if JS.geb score (JS.of_Z 60) then "Good"%string
            else if JS.geb score (JS.of_Z 40) then "Fair"%string
            else "Needs Improvement"%string in
          mkConsistency score rating
      end
  end.

(** A text of [getProgressInsights] that a template literal builds:
    the template, with the number it interpolates.  In the order of
    the constructors:
    ['Excellent progress! You\'ve completed ${completionRate}% of your habit.'],
    ['Good progress with ${completionRate}% completion rate.'],
    ['You have ${completionRate}% completion rate - there\'s room for improvement.'],
    ['You\'re on a ${currentStreak}-day streak!'],
    ['Your longest streak was ${longestStreak} days.']. *)
Inductive insight : Type :=
| ExcellentProgress (completionRate : JS.number)
| GoodProgress (completionRate : JS.number)
| RoomForImprovement (completionRate : JS.number)
| OnStreak (currentStreak : Z)
| LongestStreakWas (longestStreak : Z).

Record progress_insights : Type := mkInsights {
  insights : list insight;
  recommendations : list string
}.

(** [getProgressInsights(habit)] at the instant [now]. *)
Definition getProgressInsights (now : Z) (habit : option habit) : progress_insights :=
  match habit with
  | None => mkInsights [] []
  | Some h =>
      let completionRate := calculateCompletionPercentage habit in
      let streaks := calculateStreak (completionHistory h) in
      let weeklyRate := calculateWeeklyCompletionRate now (completionHistory h) 4 in
      mkInsights
        ([if JS.geb completionRate (JS.of_Z 80) then ExcellentProgress completionRate
          else if JS.geb completionRate (JS.of_Z 50) then GoodProgress completionRate
          else RoomForImprovement completionRate] ++
         (if 0 <? currentStreak streaks then [OnStreak (currentStreak streaks)]
          else []) ++
         (if (currentStreak streaks <? longestStreak streaks) &&
             (3 <? longestStreak streaks)
          then [LongestStreakWas (longestStreak streaks)] else []))
        ((if JS.ltb completionRate (JS.of_Z 50)
          then ["Try setting smaller, more achievable daily goals."%string;
                "Consider adjusting your habit frequency or target time."%string]
          else []) ++
         (if (currentStreak streaks =? 0) &&
             JS.gtb (to_number (totalDays h)) (JS.of_Z 3)
          then ["Focus on building consistency - even small steps count!"%string]
          else []) ++
         (if JS.ltb weeklyRate (JS.of_Z 60)
          then ["Try to maintain at least 4-5 completions per week."%string]
          else []))
  end.

End Progress.

(** ** The habit store ([storage.js]) *)

Module Storage.
Import Types.

(** What [JSON.parse] makes of a stored text: an object read as an
    envelope, or a value that is no such object (a number, a string,
    an array, [null]). *)
Inductive document : Type :=
| Envelope (d : stored_data)
| Other.

(** A stored item: a text that does not parse, or a parsed document. *)
Inductive item : Type :=
| Garbled
| Parsed (d : document).

(** The key-value store; [None] is a key without item. *)
Definition storage : Type := string -> option item.

Definition setItem (key : string) (v : document) (st : storage) : storage :=
  fun k => if String.eqb k key then Some (Parsed v) else st k.

(** [getStorageData(key, defaultValue)] *)
Definition getStorageData (key : string) (defaultValue : document) (st : storage)
    : document :=
  match st key with
  | Some (Parsed d) => d
  | Some Garbled | None => defaultValue
  end.

(** [setStorageData(key, value)]; [w] tells whether the store accepts
    the write.  A refused write leaves the store as it was. *)
Definition setStorageData (w : bool) (key : string) (value : document) (st : storage)
    : bool * storage :=
  if w then (true, setItem key value st) else (false, st).

(** [getHabits()] at the instant [now]. *)
Definition getHabits (now : Z) (st : storage) : list habit :=
  let storedData :=
    getStorageData STORAGE_KEYS_HABITS
      (Envelope (mkStored (Some DEFAULT_HABITS) (Some now) (Some DEFAULT_VERSION))) st in
  match storedData with
  | Envelope d =>
      if validateStoredData d
      then match habits d with Some hs => hs | None => DEFAULT_HABITS end
      else DEFAULT_HABITS
  | Other => DEFAULT_HABITS
  end.

(** [saveHabits(habits)] *)
Definition saveHabits (now : Z) (w : bool) (hs : list habit) (st : storage)
    : bool * storage :=
  let storedData := mkStored (Some hs) (Some now) (Some DEFAULT_VERSION) in
  if validateStoredData storedData
  then setStorageData w STORAGE_KEYS_HABITS (Envelope storedData) st
  else (false, st).

(** [x || null] for an optional string. *)
Definition or_null (s : option string) : option string :=
  if falsy_str s then None else s.

(** [addHabit(habitData)]; [fresh] is what [generateUUID()] returns and
    [None] a null or undefined argument, whose property access throws
    into the handler. *)
Definition addHabit (now : Z) (w : bool) (fresh : string)
    (habitData : option habit_data) (st : storage) : option habit * storage :=
  match habitData with
  | None => (None, st)
  | Some d =>
      let habits := getHabits now st in
      let newHabit :=
        mkHabit fresh (dataName d) (dataFrequency d) (or_null (dataTargetTime d))
                (Some now) (Some (JS.of_Z 0)) (Some (JS.of_Z 0)) (Some []) false None in
      let updatedHabits := habits ++ [newHabit] in
      let '(success, st') := saveHabits now w updatedHabits st in
      (if success then Some newHabit else None, st')
  end.

(** The date part of [new Date().toISOString()]. *)
Definition today (now : Z) : Z := now / Progress.MS_PER_DAY.

(** The comparator [(a, b) => new Date(a.date) - new Date(b.date)]. *)
Definition oldest_first (a b : entry) : Z := Progress.date_ms a - Progress.date_ms b.

(** [Math.floor((new Date() - createdAt) / (1000 * 60 * 60 * 24)) + 1]
    on doubles, where [createdAt] is [new Date(habit.createdAt)]: an
    Invalid Date, whose difference with now is NaN, when the property
    is absent or does not parse. *)
Definition daysSinceCreation (now : Z) (h : habit) : JS.number :=
  match createdAt h with
  | Some c =>
      JS.add (JS.floor (JS.div (JS.sub (JS.of_Z now) (JS.of_Z c))
                               (JS.of_Z Progress.MS_PER_DAY)))
             (JS.of_Z 1)
  | None => JS.NaN
  end.

Definition history_or_empty (h : habit) : list entry :=
  match completionHistory h with
  | Some l => l
  | None => []
  end.

Definition count_completed (l : list entry) : Z :=
  Z.of_nat (length (filter completed l)).

(** The history [updateHabitCompletion] writes. *)
Definition updated_history (now : Z) (isCompleted : bool) (h : habit) : list entry :=
  let history := history_or_empty h in
  let existingEntryIndex :=
    Arr.findIndex (fun e => date e =? today now) history in
  let updatedHistory :=
    match existingEntryIndex with
    | Some i => Arr.set_nth i (mkEntry (today now) isCompleted) history
    | None => history ++ [mkEntry (today now) isCompleted]
    end in
  Arr.sort oldest_first updatedHistory.

(** The habit [updateHabitCompletion] writes in place of [h]. *)
Definition updated_habit (now : Z) (isCompleted : bool) (h : habit) : habit :=
  let updatedHistory := updated_history now isCompleted h in
  let completedDays := count_completed updatedHistory in
  let totalDays := JS.of_nat (length updatedHistory) in
  let actualTotalDays := JS.max totalDays (daysSinceCreation now h) in
  mkHabit (id h) (name h) (frequency h) (targetTime h) (createdAt h)
          (Some (JS.of_Z completedDays)) (Some actualTotalDays)
          (Some updatedHistory) isCompleted (Some now).

(** [updateHabitCompletion(habitId, isCompleted)] *)
Definition updateHabitCompletion (now : Z) (w : bool) (habitId : string)
    (isCompleted : bool) (st : storage) : bool * storage :=
  let habits := getHabits now st in
  match Arr.findIndex (fun h => String.eqb (id h) habitId) habits with
  | None => (false, st)
  | Some habitIndex =>
      match nth_error habits habitIndex with
      | None => (false, st)
      | Some habit =>
          let updatedHabit := updated_habit now isCompleted habit in
          let updatedHabits := Arr.set_nth habitIndex updatedHabit habits in
          saveHabits now w updatedHabits st
      end
  end.

(** The habit [recalculateAllHabitsProgress] maps [h] to. *)
Definition recalculated (now : Z) (h : habit) : habit :=
  let history := history_or_empty h in
  let completedDays := count_completed history in
  let totalDays :=
    JS.max (JS.of_nat (length history)) (daysSinceCreation now h) in
  let todayEntry := find (fun e => date e =? today now) history in
  let isCompleted :=
    match todayEntry with
    | Some e => completed e
    | None => false
    end in
  mkHabit (id h) (name h) (frequency h) (targetTime h) (createdAt h)
          (Some (JS.of_Z completedDays)) (Some totalDays)
          (completionHistory h) isCompleted (Some now).

(** [recalculateAllHabitsProgress()] *)
Definition recalculateAllHabitsProgress (now : Z) (w : bool) (st : storage)
    : bool * storage :=
  let habits := getHabits now st in
  let updatedHabits := map (recalculated now) habits in
  saveHabits now w updatedHabits st.

(** [AsyncStorage.removeItem(key)] *)
Definition removeItem (key : string) (st : storage) : storage :=
  fun k => if String.eqb k key then None else st k.

(** [deleteStorageData(key)]; [w] tells whether the store accepts the
    removal. *)
Definition deleteStorageData (w : bool) (key : string) (st : storage)
    : bool * storage :=
  if w then (true, removeItem key st) else (false, st).

(** [updateStorageData(key, updateFunction)]; the default it reads is
    the empty object. *)
Definition updateStorageData (w : bool) (key : string)
    (updateFunction : document -> document) (st : storage) : bool * storage :=
  let currentData := getStorageData key (Envelope (mkStored None None None)) st in
  let updatedData := updateFunction currentData in
  setStorageData w key updatedData st.

(** The [updates] object of [updateHabit]: for each property of a
    habit, [None] when the object has no such key. *)
Record habit_updates : Type := mkUpdates {
  u_id : option string;
  u_name : option (option string);
  u_frequency : option (option string);
  u_targetTime : option (option string);
  u_createdAt : option (option Z);
  u_completedDays : option (option JS.number);
  u_totalDays : option (option JS.number);
  u_completionHistory : option (option (list entry));
  u_isCompleted : option bool;
  u_lastUpdated : option (option Z)
}.

Definition override {A : Type} (u : option A) (v : A) : A :=
  match u with
  | Some x => x
  | None => v
  end.

(** [{ ...habit, ...updates }] *)
Definition merged (h : habit) (u : habit_updates) : habit :=
  mkHabit (override (u_id u) (id h)) (override (u_name u) (name h))
          (override (u_frequency u) (frequency h))
          (override (u_targetTime u) (targetTime h))
          (override (u_createdAt u) (createdAt h))
          (override (u_completedDays u) (completedDays h))
          (override (u_totalDays u) (totalDays h))
          (override (u_completionHistory u) (completionHistory h))
          (override (u_isCompleted u) (isCompleted h))
          (override (u_lastUpdated u) (lastUpdated h)).

(** [updateHabit(habitId, updates)] *)
Definition updateHabit (now : Z) (w : bool) (habitId : string)
    (updates : habit_updates) (st : storage) : bool * storage :=
  let habits := getHabits now st in
  match Arr.findIndex (fun h => String.eqb (id h) habitId) habits with
  | None => (false, st)
  | Some habitIndex =>
      match nth_error habits habitIndex with
      | None => (false, st)
      | Some habit =>
          let updatedHabit := merged habit updates in
          let updatedHabits := Arr.set_nth habitIndex updatedHabit habits in
          saveHabits now w updatedHabits st
      end
  end.

(** [deleteHabit(habitId)] *)
Definition deleteHabit (now : Z) (w : bool) (habitId : string) (st : storage)
    : bool * storage :=
  let habits := getHabits now st in
  let filteredHabits := filter (fun h => negb (String.eqb (id h) habitId)) habits in
  if (length filteredHabits =? length habits)%nat
  then (false, st)
  else saveHabits now w filteredHabits st.

(** [clearAllHabits()] *)
Definition clearAllHabits (now : Z) (w : bool) (st : storage) : bool * storage :=
  saveHabits now w DEFAULT_HABITS st.

End Storage.

(** ** Achievements ([achievementSystem.js]) *)

Module Achievements.

Record user_stats : Type := mkStats {
  totalHabits : Z;
  totalCompletions : JS.number;
  longestStreak : Z;
  currentStreak : Z;
  overallCompletionRate : JS.number;
  perfectWeeks : Z;
  earlyCompletions : JS.number;
  lateCompletions : JS.number
}.

Record achievement : Type := mkAchievement {
  id : string;
  title : string;
  description : string;
  icon : string;
  category : string;
  condition : user_stats -> bool
}.

Local Open Scope string_scope.

(** [Object.values(ACHIEVEMENTS)], in the order of the definition. *)
Definition ACHIEVEMENTS : list achievement :=
  [ mkAchievement "first_steps" "First Steps" "Complete your first habit"
      "🎯" "milestone"
      (fun userStats => JS.geb (totalCompletions userStats) (JS.of_Z 1));
    mkAchievement "week_warrior" "Week Warrior" "Maintain a 7-day streak"
      "🔥" "streak"
      (fun userStats => (7 <=? longestStreak userStats)%Z);
    mkAchievement "consistency_champion" "Consistency Champion"
      "Achieve 80% completion rate" "⭐" "performance"
      (fun userStats => JS.geb (overallCompletionRate userStats) (JS.of_Z 80));
    mkAchievement "early_bird" "Early Bird" "Complete 10 habits before 9 AM"
      "🌅" "timing"
      (fun userStats => JS.geb (earlyCompletions userStats) (JS.of_Z 10));
    mkAchievement "month_master" "Month Master" "Maintain a 30-day streak"
      "👑" "streak"
      (fun userStats => (30 <=? longestStreak userStats)%Z);
    mkAchievement "perfectionist" "Perfectionist" "100% completion for 7 days"
      "💎" "performance"
      (fun userStats => (1 <=? perfectWeeks userStats)%Z);
    mkAchievement "habit_collector" "Habit Collector" "Create 5 different habits"
      "📚" "milestone"
      (fun userStats => (5 <=? totalHabits userStats)%Z);
    mkAchievement "streak_legend" "Streak Legend" "Maintain a 100-day streak"
      "🏆" "streak"
      (fun userStats => (100 <=? longestStreak userStats)%Z);
    mkAchievement "dedication_master" "Dedication Master"
      "Complete 100 total habits" "🎖️" "milestone"
      (fun userStats => JS.geb (totalCompletions userStats) (JS.of_Z 100));
    mkAchievement "night_owl" "Night Owl" "Complete 10 habits after 8 PM"
      "🦉" "timing"
      (fun userStats => JS.geb (lateCompletions userStats) (JS.of_Z 10)) ].

Local Close Scope string_scope.

(** [c || 0] *)
Definition or_zero (c : option JS.number) : JS.number :=
  match c with
  | Some n => if JS.truthy n then n else JS.of_Z 0
  | None => JS.of_Z 0
  end.

(** The variables the [forEach] of [calculateUserStats] updates. *)
Record tally : Type := mkTally {
  t_totalCompletions : JS.number;
  t_longestStreak : Z;
  t_currentStreak : Z;
  t_totalDays : JS.number;
  t_perfectWeeks : Z;
  t_earlyCompletions : JS.number;
  t_lateCompletions : JS.number
}.

(** One habit of the [forEach]. *)
Definition tally_habit (t : tally) (habit : Types.habit) : tally :=
  let totalCompletions :=
    JS.add (t_totalCompletions t) (or_zero (Types.completedDays habit)) in
  let totalDays := JS.add (t_totalDays t) (or_zero (Types.totalDays habit)) in
  let streakData :=
    Progress.calculateStreak
      (Some (Storage.history_or_empty habit)) in
  let longestStreak :=
    Z.max (t_longestStreak t) (Progress.longestStreak streakData) in
  let currentStreak :=
    Z.max (t_currentStreak t) (Progress.currentStreak streakData) in
  let perfectWeeks :=
    match Types.completionHistory habit with
    | Some l =>
        if (7 <=? length l)%nat && forallb Types.completed (Arr.slice_last 7 l)
        then t_perfectWeeks t + 1
        else t_perfectWeeks t
    | None => t_perfectWeeks t
    end in
  let '(earlyCompletions, lateCompletions) :=
    if Types.falsy_str (Types.targetTime habit)
    then (t_earlyCompletions t, t_lateCompletions t)
    else
      let hour :=
        Str.parseInt
          (Str.before ":"%char
             (match Types.targetTime habit with Some s => s | None => EmptyString end)) in
      if JS.ltb hour (JS.of_Z 9)
      then (JS.add (t_earlyCompletions t) (or_zero (Types.completedDays habit)),
            t_lateCompletions t)
      else if JS.geb hour (JS.of_Z 20)
      then (t_earlyCompletions t,
            JS.add (t_lateCompletions t) (or_zero (Types.completedDays habit)))
      else (t_earlyCompletions t, t_lateCompletions t) in
  mkTally totalCompletions longestStreak currentStreak totalDays perfectWeeks
          earlyCompletions lateCompletions.

(** [calculateUserStats(habits)] *)
Definition calculateUserStats (habits : list Types.habit) : user_stats :=
  match habits with
  | [] => mkStats 0 (JS.of_Z 0) 0 0 (JS.of_Z 0) 0 (JS.of_Z 0) (JS.of_Z 0)
  | _ =>
      let zero := JS.of_Z 0 in
      let t := fold_left tally_habit habits (mkTally zero 0 0 zero 0 zero zero) in
      let overallCompletionRate :=
        if JS.gtb (t_totalDays t) (JS.of_Z 0)
        then JS.round (JS.mul (JS.div (t_totalCompletions t) (t_totalDays t))
                              (JS.of_Z 100))
        else JS.of_Z 0 in
      mkStats (Z.of_nat (length habits)) (t_totalCompletions t)
              (t_longestStreak t) (t_currentStreak t) overallCompletionRate
              (t_perfectWeeks t) (t_earlyCompletions t) (t_lateCompletions t)
  end.

Record check_result : Type := mkCheck {
  newAchievements : list achievement;
  allUnlocked : list string;
  userStats : user_stats
}.

(** One catalog entry of the [forEach] of [checkAchievements], on the
    arrays [(allUnlocked, newAchievements)]; [push] appends. *)
Definition check_one (userStats : user_stats) (currentAchievements : list string)
    (acc : list string * list achievement) (a : achievement)
    : list string * list achievement :=
  let '(allUnlocked, newAchievements) := acc in
  if condition a userStats then
    (allUnlocked ++ [id a],
     if negb (Str.includes (id a) currentAchievements)
     then newAchievements ++ [a]
     else newAchievements)
  else acc.

(** [checkAchievements(habits, currentAchievements)] *)
Definition checkAchievements (habits : list Types.habit)
    (currentAchievements : list string) : check_result :=
  let userStats := calculateUserStats habits in
  let '(allUnlocked, newAchievements) :=
    fold_left (check_one userStats currentAchievements) ACHIEVEMENTS ([], []) in
  mkCheck newAchievements allUnlocked userStats.

(** [getAchievement(achievementId)]; [None] is [undefined]. *)
Definition getAchievement (achievementId : string) : option achievement :=
  find (fun a => String.eqb (id a) achievementId) ACHIEVEMENTS.

(** [getAchievementsByCategory(category)] *)
Definition getAchievementsByCategory (c : string) : list achievement :=
  filter (fun a => String.eqb (category a) c) ACHIEVEMENTS.

Record progress : Type := mkProgress {
  p_achievement : achievement;
  currentValue : JS.number;
  targetValue : JS.number;
  progressPercentage : JS.number
}.

Local Open Scope string_scope.

(** The [switch] of [getAchievementProgress]: current and target value
    of an achievement; both stay 0 for an identifier it does not list. *)
Definition progress_values (userStats : user_stats) (achievementId : string)
    : JS.number * JS.number :=
  if String.eqb achievementId "first_steps"
  then (totalCompletions userStats, JS.of_Z 1)
  else if String.eqb achievementId "week_warrior"
  then (JS.of_Z (longestStreak userStats), JS.of_Z 7)
  else if String.eqb achievementId "consistency_champion"
  then (overallCompletionRate userStats, JS.of_Z 80)
  else if String.eqb achievementId "early_bird"
  then (earlyCompletions userStats, JS.of_Z 10)
  else if String.eqb achievementId "month_master"
  then (JS.of_Z (longestStreak userStats), JS.of_Z 30)
  else if String.eqb achievementId "perfectionist"
  then (JS.of_Z (perfectWeeks userStats), JS.of_Z 1)
  else if String.eqb achievementId "habit_collector"
  then (JS.of_Z (totalHabits userStats), JS.of_Z 5)
  else if String.eqb achievementId "streak_legend"
  then (JS.of_Z (longestStreak userStats), JS.of_Z 100)
  else if String.eqb achievementId "dedication_master"
  then (totalCompletions userStats, JS.of_Z 100)
  else if String.eqb achievementId "night_owl"
  then (lateCompletions userStats, JS.of_Z 10)
  else (JS.of_Z 0, JS.of_Z 0).

Local Close Scope string_scope.

(** One catalog entry of the [forEach] of [getAchievementProgress]. *)
Definition progress_one (userStats : user_stats) (unlockedAchievements : list string)
    (acc : list progress) (a : achievement) : list progress :=
  if negb (Str.includes (id a) unlockedAchievements) then
    let '(currentValue, targetValue) := progress_values userStats (id a) in
    let progressPercentage :=
      JS.min (JS.round (JS.mul (JS.div currentValue targetValue) (JS.of_Z 100)))
             (JS.of_Z 100) in
    acc ++ [mkProgress a currentValue targetValue progressPercentage]
  else acc.

(** What [sort] makes of the number a comparator returns: its sign,
    with NaN read as 0. *)
Definition comparison_sign (n : JS.number) : Z :=
  match n with
  | JS.NaN => 0
  | JS.PInf => 1
  | JS.NInf => -1
  | JS.Fin q => Z.sgn (Qnum q)
  end.

(** The comparator [(a, b) => b.progressPercentage - a.progressPercentage]. *)
Definition closest_first (a b : progress) : Z :=
  comparison_sign (JS.sub (progressPercentage b) (progressPercentage a)).

(** [getAchievementProgress(habits, unlockedAchievements)] *)
Definition getAchievementProgress (habits : list Types.habit)
    (unlockedAchievements : list string) : list progress :=
  let userStats := calculateUserStats habits in
  let progress :=
    fold_left (progress_one userStats unlockedAchievements) ACHIEVEMENTS [] in
  Arr.sort closest_first progress.

End Achievements.

(** ** Data integrity ([dataSynchronizer.js]) *)

Module Synchronizer.
Import Types.

(** The [data] of an issue, one shape per kind of issue. *)
Inductive issue_data : Type :=
| DuplicateIds (ids : list string)
| MissingId (index : nat) (habit : option string)
| MissingName (index : nat) (habitId : string)
| InvalidFrequency (index : nat) (habitId : string) (freq : option string)
| InconsistentProgress (index : nat) (habitId : string)
    (completed total : option JS.number)
| HistoryMismatch (index : nat) (habitId : string)
    (historyCompletions : Z) (recordedCompletions : option JS.number).

Record issue : Type := mkIssue {
  type : string;
  severity : string;
  data : issue_data
}.

Record summary : Type := mkSummary {
  totalHabits : Z;
  criticalIssues : Z;
  highIssues : Z;
  mediumIssues : Z;
  lowIssues : Z
}.

Record validation : Type := mkValidation {
  isValid : bool;
  issues : list issue;
  validationSummary : summary
}.

(** [ids.filter((id, index) => ids.indexOf(id) !== index)], on the
    part [l] of [ids] that starts at [index]. *)
Fixpoint duplicates_from (ids : list string) (index : nat) (l : list string)
    : list string :=
  match l with
  | [] => []
  | x :: r =>
      let rest := duplicates_from ids (S index) r in
      match Str.indexOf x ids with
      | Some i => if (i =? index)%nat then rest else x :: rest
      | None => x :: rest
      end
  end.

Local Open Scope string_scope.
Local Open Scope list_scope.

(** The first [forEach]: required fields of the habit at [index]. *)
Definition required_fields (index : nat) (habit : habit) : list issue :=
  (if String.eqb (id habit) ""
   then [mkIssue "missing_id" "critical" (MissingId index (name habit))]
   else []) ++
  (if name_error (name habit)
   then [mkIssue "missing_name" "high" (MissingName index (id habit))]
   else []) ++
  (if frequency_error (frequency habit)
   then [mkIssue "invalid_frequency" "medium"
           (InvalidFrequency index (id habit) (frequency habit))]
   else []).

(** The second [forEach]: consistency of the habit at [index]. *)
Definition consistency_issues (index : nat) (habit : habit) : list issue :=
  (if JS.gtb (Progress.to_number (completedDays habit))
             (Progress.to_number (totalDays habit))
   then [mkIssue "inconsistent_progress" "medium"
           (InconsistentProgress index (id habit)
              (completedDays habit) (totalDays habit))]
   else []) ++
  (match completionHistory habit with
   | Some l =>
       let historyCompletions := Storage.count_completed l in
       if JS.gtb (JS.abs (JS.sub (JS.of_Z historyCompletions)
                                 (Progress.to_number (completedDays habit))))
                 (JS.of_Z 1)
       then [mkIssue "history_mismatch" "low"
               (HistoryMismatch index (id habit) historyCompletions
                  (completedDays habit))]
       else []
   | None => []
   end).

(** [habits.forEach((habit, index) => ...)] collecting what [f] pushes. *)
Fixpoint for_each_indexed (f : nat -> habit -> list issue) (index : nat)
    (habits : list habit) : list issue :=
  match habits with
  | [] => []
  | h :: r => f index h ++ for_each_indexed f (S index) r
  end.

Definition count_severity (s : string) (l : list issue) : Z :=
  Z.of_nat (length (filter (fun i => String.eqb (severity i) s) l)).

(** [validateDataIntegrity(habits)] *)
Definition validateDataIntegrity (habits : list habit) : validation :=
  let ids := map id habits in
  let duplicateIds := duplicates_from ids 0 ids in
  let issues :=
    (match duplicateIds with
     | [] => []
     | _ => [mkIssue "duplicate_ids" "high" (DuplicateIds duplicateIds)]
     end) ++
    for_each_indexed required_fields 0 habits ++
    for_each_indexed consistency_issues 0 habits in
  mkValidation (is_nil issues) issues
    (mkSummary (Z.of_nat (length habits))
               (count_severity "critical" issues)
               (count_severity "high" issues)
               (count_severity "medium" issues)
               (count_severity "low" issues)).

(** The index an issue points at; an array of ids has no such
    property. *)
Definition data_index (d : issue_data) : option nat :=
  match d with
  | DuplicateIds _ => None
  | MissingId i _ | MissingName i _ | InvalidFrequency i _ _
  | InconsistentProgress i _ _ _ | HistoryMismatch i _ _ _ => Some i
  end.

(** [fixedHabits[issue.data.index]] *)
Definition habit_at (d : issue_data) (fixedHabits : list habit) : option (nat * habit) :=
  match data_index d with
  | Some i =>
      match nth_error fixedHabits i with
      | Some h => Some (i, h)
      | None => None
      end
  | None => None
  end.

Definition with_id (h : habit) (newId : string) : habit :=
  mkHabit newId (name h) (frequency h) (targetTime h) (createdAt h)
          (completedDays h) (totalDays h) (completionHistory h)
          (isCompleted h) (lastUpdated h).

Definition with_frequency (h : habit) (f : string) : habit :=
  mkHabit (id h) (name h) (Some f) (targetTime h) (createdAt h)
          (completedDays h) (totalDays h) (completionHistory h)
          (isCompleted h) (lastUpdated h).

Definition with_completedDays (h : habit) (c : JS.number) : habit :=
  mkHabit (id h) (name h) (frequency h) (targetTime h) (createdAt h)
          (Some c) (totalDays h) (completionHistory h)
          (isCompleted h) (lastUpdated h).

Section Repair.
(** The identifiers [generateUUID()] returns, in the order of the
    calls; the state counts the calls made so far. *)
Variable uuid : nat -> string.

(** The [map] of the [duplicate_ids] case, from position [index] on. *)
Fixpoint regenerate (ids : list string) (index : nat) (l : list habit)
    (calls : nat) : list habit * nat :=
  match l with
  | [] => ([], calls)
  | habit :: r =>
      if Str.includes (id habit) ids && (0 <? index)%nat
      then
        let '(r', calls') := regenerate ids (S index) r (S calls) in
        (with_id habit (uuid calls) :: r', calls')
      else
        let '(r', calls') := regenerate ids (S index) r calls in
        (habit :: r', calls')
  end.

(** One issue of the loop of [fixDataIntegrity]; [None] when the case
    throws, which happens when [issue.data] of a [duplicate_ids]
    issue is not an array. *)
Definition fix_issue (st : list habit * nat) (i : issue)
    : option (list habit * nat) :=
  let '(fixedHabits, calls) := st in
  if String.eqb (type i) "duplicate_ids" then
    match data i with
    | DuplicateIds ids => Some (regenerate ids 0 fixedHabits calls)
    | _ => None
    end
  else if String.eqb (type i) "missing_id" then
    match habit_at (data i) fixedHabits with
    | Some (k, h) => Some (Arr.set_nth k (with_id h (uuid calls)) fixedHabits, S calls)
    | None => Some st
    end
  else if String.eqb (type i) "invalid_frequency" then
    match habit_at (data i) fixedHabits with
    | Some (k, h) => Some (Arr.set_nth k (with_frequency h "daily") fixedHabits, calls)
    | None => Some st
    end
  else if String.eqb (type i) "inconsistent_progress" then
    match habit_at (data i) fixedHabits with
    | Some (k, h) =>
        match completionHistory h with
        | Some l =>
            Some (Arr.set_nth k
                    (with_completedDays h (JS.of_Z (Storage.count_completed l)))
                    fixedHabits, calls)
        | None => Some st
        end
    | None => Some st
    end
  else Some st.

Fixpoint fix_loop (st : list habit * nat) (l : list issue)
    : option (list habit * nat) :=
  match l with
  | [] => Some st
  | i :: r =>
      match fix_issue st i with
      | Some st' => fix_loop st' r
      | None => None
      end
  end.

(** [fixDataIntegrity(habits, issues)]: the repaired habits, or the
    habits it was given when a case throws. *)
Definition fixDataIntegrity (habits : list habit) (issues : list issue)
    : list habit :=
  match fix_loop (habits, O) issues with
  | Some (fixedHabits, _) => fixedHabits
  | None => habits
  end.
End Repair.

(** A [modified] entry of [detectChanges]. *)
Record modification : Type := mkModification {
  m_id : string;
  m_old : habit;
  m_new : habit
}.

Record change_summary : Type := mkChangeSummary {
  addedCount : Z;
  removedCount : Z;
  modifiedCount : Z;
  totalChanges : Z
}.

Record changes : Type := mkChanges {
  added : list habit;
  removed : list habit;
  modified : list modification;
  hasChanges : bool;
  changeSummary : change_summary
}.

(** [a !== b] on a counter that may be absent: NaN differs from itself. *)
Definition counter_differs (a b : option JS.number) : bool :=
  match a, b with
  | None, None => false
  | Some x, Some y => negb (JS.eqb x y)
  | _, _ => true
  end.

(** [a !== b] on a string that may be absent. *)
Definition string_differs (a b : option string) : bool :=
  match a, b with
  | None, None => false
  | Some x, Some y => negb (String.eqb x y)
  | _, _ => true
  end.

(** The comparison of key fields of [detectChanges]. *)
Definition isModified (oldHabit newHabit : habit) : bool :=
  string_differs (name oldHabit) (name newHabit) ||
  negb (Bool.eqb (isCompleted oldHabit) (isCompleted newHabit)) ||
  counter_differs (completedDays oldHabit) (completedDays newHabit) ||
  counter_differs (totalDays oldHabit) (totalDays newHabit).

(** One habit of the [forEach] of [detectChanges]. *)
Definition modified_one (oldHabits : list habit) (acc : list modification)
    (newHabit : habit) : list modification :=
  match find (fun h => String.eqb (id h) (id newHabit)) oldHabits with
  | Some oldHabit =>
      if isModified oldHabit newHabit
      then acc ++ [mkModification (id newHabit) oldHabit newHabit]
      else acc
  | None => acc
  end.

(** [detectChanges(oldHabits, newHabits)] *)
Definition detectChanges (oldHabits newHabits : list habit) : changes :=
  let oldIds := map id oldHabits in
  let newIds := map id newHabits in
  let added := filter (fun h => negb (Str.includes (id h) oldIds)) newHabits in
  let removed := filter (fun h => negb (Str.includes (id h) newIds)) oldHabits in
  let modified := fold_left (modified_one oldHabits) newHabits [] in
  let count {A : Type} (l : list A) := Z.of_nat (length l) in
  mkChanges added removed modified
    (negb (is_nil added) || negb (is_nil removed) || negb (is_nil modified))
    (mkChangeSummary (count added) (count removed) (count modified)
                     (count added + count removed + count modified)).

(** The fields of the synchronizer that the sync reads and writes; the
    listeners only receive the events, which are returned in order. *)
Record sync_state : Type := mkSyncState {
  syncInProgress : bool;
  lastSyncTime : option Z
}.

Inductive sync_event : Type :=
| SyncStarted
| SyncProgress (step : string) (progress : Z)
| SyncCompleted (habitsCount : Z) (syncTime : Z) (found : list issue).

Record sync_data : Type := mkSyncData {
  syncedHabits : list habit;
  dataSyncTime : Z;
  dataIssues : list issue
}.

Record sync_result : Type := mkSyncResult {
  success : bool;
  message : string;
  syncData : option sync_data
}.

(** [performFullSync({force, recalculate})] at the instant [now];
    [wRecalculate] and [wSave] tell whether the store accepts the
    write of the recalculation and the write of the repair.  None of
    the steps throws, so the handler of the [try] is never entered. *)
Definition performFullSync (uuid : nat -> string) (now : Z)
    (force recalculate wRecalculate wSave : bool)
    (s : sync_state) (st : Storage.storage)
    : sync_result * sync_state * Storage.storage * list sync_event :=
  if syncInProgress s && negb force then
    (mkSyncResult false "Sync already in progress" None, s, st, [])
  else
    let st1 :=
      if recalculate
      then snd (Storage.recalculateAllHabitsProgress now wRecalculate st)
      else st in
    let habits := Storage.getHabits now st1 in
    let validationResult := validateDataIntegrity habits in
    let st2 :=
      if isValid validationResult then st1
      else
        let fixedHabits := fixDataIntegrity uuid habits (issues validationResult) in
        snd (Storage.saveHabits now wSave fixedHabits st1) in
    (mkSyncResult true "Sync completed successfully"
       (Some (mkSyncData habits now (issues validationResult))),
     mkSyncState false (Some now),
     st2,
     [SyncStarted] ++
     (if recalculate then [SyncProgress "recalculating" 25] else []) ++
     [SyncProgress "loading" 50; SyncProgress "validating" 75;
      SyncProgress "completing" 100;
      SyncCompleted (Z.of_nat (length habits)) now (issues validationResult)]).

(** What [performIncrementalRefresh] returns; [refreshChanges] is
    absent when no change was detected. *)
Record refresh_result : Type := mkRefreshResult {
  refreshSuccess : bool;
  refreshHasChanges : bool;
  refreshChanges : option change_summary;
  refreshData : list habit
}.

(** The event ['data_changed'] with its data. *)
Inductive refresh_event : Type :=
| DataChanged (summary : change_summary) (updatedHabits : list habit).

(** [performIncrementalRefresh(currentHabits)] at the instant [now],
    with the events the listeners receive.  Neither [getHabits] nor
    [detectChanges] throws, so the handler is never entered. *)
Definition performIncrementalRefresh (now : Z) (currentHabits : list habit)
    (st : Storage.storage) : refresh_result * list refresh_event :=
  let storageHabits := Storage.getHabits now st in
  let changes := detectChanges currentHabits storageHabits in
  if hasChanges changes then
    (mkRefreshResult true true (Some (changeSummary changes)) storageHabits,
     [DataChanged (changeSummary changes) storageHabits])
  else
    (mkRefreshResult true false None storageHabits, []).

End Synchronizer.

(** ** The unlocked achievements ([storage.js]) *)

Module Unlocked.

(** What [JSON.parse] makes of the text under the achievements key: an
    array of identifiers, or a value that is not an array. *)
Inductive document : Type :=
| Ids (l : list string)
| NotArray.

Inductive item : Type :=
| Garbled
| Parsed (d : document).

(** The item under [STORAGE_KEYS.ACHIEVEMENTS]; [None] when the key has
    no item.  The habit operations do not touch this key. *)
Definition cell : Type := option item.

(** [getUserAchievements()] *)
Definition getUserAchievements (st : cell) : list string :=
  match st with
  | Some (Parsed (Ids l)) => l
  | Some (Parsed NotArray) => []
  | Some Garbled | None => []
  end.

(** [saveUserAchievements(achievements)]; [None] is a null or
    undefined argument and [w] tells whether the store accepts the
    write. *)
Definition saveUserAchievements (w : bool) (achievements : option (list string))
    (st : cell) : bool * cell :=
  let value := match achievements with Some l => l | None => [] end in
  if w then (true, Some (Parsed (Ids value))) else (false, st).

(** [unlockAchievement(achievementId)] *)
Definition unlockAchievement (w : bool) (achievementId : string) (st : cell)
    : bool * cell :=
  let currentAchievements := getUserAchievements st in
  if negb (Str.includes achievementId currentAchievements) then
    let updatedAchievements := currentAchievements ++ [achievementId] in
    saveUserAchievements w (Some updatedAchievements) st
  else (true, st).

End Unlocked.

(** ** The streak of days ([aiTips.js]) *)

Module Tips.
Import Types.

(** [allDates.add(d)] on the dates of the set, in insertion order. *)
Definition set_add (d : Z) (s : list Z) : list Z :=
  if existsb (Z.eqb d) s then s else s ++ [d].

(** The dates added for one habit. *)
Definition add_completed (s : list Z) (habit : habit) : list Z :=
  match completionHistory habit with
  | Some l =>
      fold_left (fun s e => if completed e then set_add (date e) s else s) l s
  | None => s
  end.

(** The comparator [(a, b) => new Date(b) - new Date(a)]. *)
Definition latest_first (a b : Z) : Z :=
  b * Progress.MS_PER_DAY - a * Progress.MS_PER_DAY.

(** The loop that counts the days backwards, entered with the date
    [previous] at index [i - 1] and the dates from index [i] on. *)
Fixpoint count_back (previous : Z) (rest : list Z) (streak : Z) : Z :=
  match rest with
  | [] => streak
  | d :: r =>
      if (previous * Progress.MS_PER_DAY - d * Progress.MS_PER_DAY)
           / Progress.MS_PER_DAY =? 1
      then count_back d r (streak + 1)
      else streak
  end.

(** [calculateCurrentStreak(habits)] at the instant [now]. *)
Definition calculateCurrentStreak (now : Z) (habits : list habit) : Z :=
  match habits with
  | [] => 0
  | _ =>
      let allDates := fold_left add_completed habits [] in
      match allDates with
      | [] => 0
      | _ =>
          let sortedDates := Arr.sort latest_first allDates in
          if existsb (Z.eqb (Storage.today now)) sortedDates then
            match sortedDates with
            | first :: rest => count_back first rest 1
            | [] => 1
            end
          else 0
      end
  end.

End Tips.

(** * Vocabulary of the properties *)

Import Types.

Definition run_length (seg : list entry) : Z := Z.of_nat (length seg).

Definition example2 : list entry :=
  [ mkEntry 1 true; mkEntry 2 true; mkEntry 3 false; mkEntry 4 true;
    mkEntry 5 true; mkEntry 6 true; mkEntry 7 true; mkEntry 8 true;
    mkEntry 9 false; mkEntry 10 true ].

Definition created (now : Z) (fresh : string) (d : habit_data) : habit :=
  mkHabit fresh (dataName d) (dataFrequency d) (Storage.or_null (dataTargetTime d))
          (Some now) (Some (JS.of_Z 0)) (Some (JS.of_Z 0)) (Some []) false None.

Definition empty_store : Storage.storage := fun _ => None.

Definition entries_on (day : Z) (l : list entry) : list entry :=
  filter (fun e => date e =? day) l.

(** The habit of the stored collection an identifier denotes: the
    first one that carries it. *)
Definition stored_habit (now : Z) (st : Storage.storage) (habitId : string)
    : option habit :=
  find (fun h => String.eqb (id h) habitId) (Storage.getHabits now st).

Definition sample_habit : habit :=
  mkHabit "h1" (Some "Read"%string) (Some "daily"%string) (Some "07:30"%string) (Some 0)
          (Some (JS.of_Z 0)) (Some (JS.of_Z 1))
          (Some [mkEntry 0 true; mkEntry 1 false]) false None.

Definition other_habit : habit :=
  mkHabit "h2" (Some "Run"%string) (Some "weekly"%string) None (Some 0)
          (Some (JS.of_Z 5)) (Some (JS.of_Z 1)) (Some [mkEntry 1 true]) false None.

Definition sample_store : Storage.storage :=
  Storage.setItem STORAGE_KEYS_HABITS
    (Storage.Envelope
       (mkStored (Some [other_habit; sample_habit]) (Some 0) (Some DEFAULT_VERSION)))
    empty_store.

(** A habit with a creation date: [createdAt] is there and parses as
    a date. *)
Definition dated (h : habit) : Prop := createdAt h <> None.

(** The collection a store holds under the habits key, as it was
    written. *)
Definition written_habits (st : Storage.storage) : option (list habit) :=
  match st STORAGE_KEYS_HABITS with
  | Some (Storage.Parsed (Storage.Envelope d)) => habits d
  | _ => None
  end.

(** What a JSON text keeps of a counter and of a habit: NaN and the
    infinities are written as [null]. *)
Definition as_json_counter (c : option JS.number) : option JS.number :=
  match c with
  | Some (JS.Fin q) => Some (JS.Fin q)
  | _ => None
  end.

Definition as_json (h : habit) : habit :=
  mkHabit (id h) (name h) (frequency h) (targetTime h) (createdAt h)
          (as_json_counter (completedDays h)) (as_json_counter (totalDays h))
          (completionHistory h) (isCompleted h) (lastUpdated h).

(** A habit whose history has two entries for day 1, and a habit
    without creation date, each alone in a store. *)
Definition doubled_habit : habit :=
  mkHabit "h1" (Some "Read"%string) (Some "daily"%string) None (Some 0)
          (Some (JS.of_Z 1)) (Some (JS.of_Z 2))
          (Some [mkEntry 1 false; mkEntry 1 true]) false None.

Definition undated_habit : habit :=
  mkHabit "h1" (Some "Read"%string) (Some "daily"%string) None None
          (Some (JS.of_Z 1)) (Some (JS.of_Z 1)) (Some [mkEntry 0 true]) false None.

Definition store_of (hs : list habit) : Storage.storage :=
  Storage.setItem STORAGE_KEYS_HABITS
    (Storage.Envelope (mkStored (Some hs) (Some 0) (Some DEFAULT_VERSION)))
    empty_store.

Definition doubled_store : Storage.storage := store_of [doubled_habit].

Definition undated_store : Storage.storage := store_of [undated_habit].

Definition duplicate_issue (ids : list string) : Synchronizer.issue :=
  Synchronizer.mkIssue "duplicate_ids" "high" (Synchronizer.DuplicateIds ids).

(** A habit that raises no issue by itself. *)
Definition plain_habit (i : string) : habit :=
  mkHabit i (Some "Read"%string) (Some "daily"%string) None (Some 0)
          (Some (JS.of_Z 1)) (Some (JS.of_Z 2)) (Some [mkEntry 0 true]) false None.

Definition nonneg (a : JS.number) : Prop := JS.leb (JS.of_Z 0) a = true.

(** The flag of the first entry of a list of entries, [false] when
    there is none. *)
Definition first_flag (l : list entry) : bool :=
  match hd_error l with
  | Some e => completed e
  | None => false
  end.

(** A habit whose two counters are missing. *)
Definition habit_without_counters : habit :=
  mkHabit "h1" (Some "Read"%string) (Some "daily"%string) None (Some 0)
          None None (Some [mkEntry 0 true]) false None.

(** A counter that a JSON text holds as it is: a finite number, or no
    number at all.  NaN and the infinities are written as [null]. *)
Definition json_counter (c : option JS.number) : Prop :=
  match c with
  | Some (JS.Fin _) | None => True
  | Some _ => False
  end.

Definition json_habit (h : habit) : Prop :=
  json_counter (completedDays h) /\ json_counter (totalDays h).

Definition json_document (v : Storage.document) : Prop :=
  match v with
  | Storage.Envelope d =>
      match habits d with
      | Some hs => Forall json_habit hs
      | None => True
      end
  | Storage.Other => True
  end.

(** A habit whose name is empty. *)
Definition nameless_habit : habit :=
  mkHabit "h3" (Some ""%string) (Some "daily"%string) None (Some 0)
          (Some (JS.of_Z 0)) (Some (JS.of_Z 0)) (Some []) false None.

(** A stored collection in which one habit does not validate. *)
Definition poisoned_store : Storage.storage :=
  Storage.setItem STORAGE_KEYS_HABITS
    (Storage.Envelope
       (mkStored (Some [sample_habit; nameless_habit]) (Some 0) (Some DEFAULT_VERSION)))
    empty_store.

(** What [deleteHabit] keeps. *)
Definition without (habitId : string) (hs : list habit) : list habit :=
  filter (fun h => negb (String.eqb (id h) habitId)) hs.

(** The updates object [{ name: s }]. *)
Definition rename_to (s : string) : Storage.habit_updates :=
  Storage.mkUpdates None (Some (Some s)) None None None None None None None None.

(** A habit completed on its only day. *)
Definition plain_habit_done (i : string) : habit :=
  mkHabit i (Some "Read"%string) (Some "daily"%string) None (Some 0)
          (Some (JS.of_Z 1)) (Some (JS.of_Z 1)) (Some [mkEntry 0 true]) false None.

(** The streaks [calculateUserStats] computes for one habit. *)
Definition habit_streaks (h : habit) : Progress.streak :=
  Progress.calculateStreak (Some (Storage.history_or_empty h)).

(** Whether the last seven entries of a history of at least seven are
    all completed. *)
Definition perfect_week (h : habit) : bool :=
  match completionHistory h with
  | Some l => (7 <=? length l)%nat && forallb completed (Arr.slice_last 7 l)
  | None => false
  end.

(** Whether the identifier is not among the given ones. *)
Definition locked (unlocked : list string) (a : Achievements.achievement) : bool :=
  negb (Str.includes (Achievements.id a) unlocked).

(** The progress object [getAchievementProgress] pushes for [a]. *)
Definition progress_of (stats : Achievements.user_stats) (a : Achievements.achievement)
    : Achievements.progress :=
  let '(currentValue, targetValue) :=
    Achievements.progress_values stats (Achievements.id a) in
  Achievements.mkProgress a currentValue targetValue
    (JS.min (JS.round (JS.mul (JS.div currentValue targetValue) (JS.of_Z 100)))
            (JS.of_Z 100)).

(** The severities and types of the issues raised per habit. *)
Definition per_habit_issue (i : Synchronizer.issue) : Prop :=
  (Synchronizer.type i = "missing_id" /\ Synchronizer.severity i = "critical" \/
   Synchronizer.type i = "missing_name" /\ Synchronizer.severity i = "high" \/
   Synchronizer.type i = "invalid_frequency" /\ Synchronizer.severity i = "medium" \/
   Synchronizer.type i = "inconsistent_progress" /\ Synchronizer.severity i = "medium" \/
   Synchronizer.type i = "history_mismatch" /\ Synchronizer.severity i = "low")%string.

(** What a repair may change of a habit: its identifier, its
    [completedDays], and its frequency, which is kept or set to
    ['daily']. *)
Definition repaired_from (h h' : habit) : Prop :=
  name h' = name h /\ targetTime h' = targetTime h /\ createdAt h' = createdAt h /\
  totalDays h' = totalDays h /\ completionHistory h' = completionHistory h /\
  isCompleted h' = isCompleted h /\ lastUpdated h' = lastUpdated h /\
  (frequency h' = frequency h \/ frequency h' = Some "daily"%string).

(** A habit whose frequency is ['weekly'] in capitals. *)
Definition shouting_habit : habit :=
  mkHabit "h4" (Some "Swim"%string) (Some "WEEKLY"%string) None (Some 0)
          (Some (JS.of_Z 0)) (Some (JS.of_Z 1)) (Some []) false None.

(** The [modified] entry [detectChanges] pushes for a new habit, if
    any. *)
Definition modification_of (oldHabits : list habit) (newHabit : habit)
    : list Synchronizer.modification :=
  match find (fun h => String.eqb (id h) (id newHabit)) oldHabits with
  | Some oldHabit =>
      if Synchronizer.isModified oldHabit newHabit
      then [Synchronizer.mkModification (id newHabit) oldHabit newHabit]
      else []
  | None => []
  end.

(** Both counters of a habit are numbers equal to themselves. *)
Definition counters_comparable (h : habit) : Prop :=
  completedDays h <> Some JS.NaN /\ totalDays h <> Some JS.NaN.

(** The percentages of the progress events, in the order of the
    events. *)
Definition progress_steps (events : list Synchronizer.sync_event) : list Z :=
  flat_map (fun e => match e with
                     | Synchronizer.SyncProgress _ p => [p]
                     | _ => []
                     end) events.

(** The parts of what [performFullSync] returns. *)
Definition sync_outcome : Type :=
  (Synchronizer.sync_result * Synchronizer.sync_state * Storage.storage *
   list Synchronizer.sync_event)%type.

Definition outcome_result (o : sync_outcome) : Synchronizer.sync_result :=
  fst (fst (fst o)).
Definition outcome_state (o : sync_outcome) : Synchronizer.sync_state :=
  snd (fst (fst o)).
Definition outcome_store (o : sync_outcome) : Storage.storage := snd (fst o).
Definition outcome_events (o : sync_outcome) : list Synchronizer.sync_event := snd o.

(** Some habit has a completed entry dated [d]. *)
Definition completed_on (habits : list habit) (d : Z) : Prop :=
  exists h l e,
    In h habits /\ completionHistory h = Some l /\ In e l /\
    completed e = true /\ date e = d.

(** A habit completed on the days 3, 4 and 5. *)
Definition three_days_habit : habit :=
  mkHabit "h5" (Some "Walk"%string) (Some "daily"%string) None (Some 0)
          (Some (JS.of_Z 3)) (Some (JS.of_Z 5))
          (Some [mkEntry 1 true; mkEntry 3 true; mkEntry 4 true; mkEntry 5 true])
          true None.

(** The empty object [{}], read as an envelope without properties. *)
Definition empty_object : Storage.document :=
  Storage.Envelope (mkStored None None None).

(** * Properties *)

(** ** Rounding to binary64 *)

Local Open Scope Q_scope.

Lemma two_pos (e : Z) : 0 < 2 ^ e.
Proof. apply Qpower_0_lt. reflexivity. Qed.

Lemma two_nonzero : ~ 2 == 0.
Proof. discriminate. Qed.

Lemma two_le (n m : Z) : (n <= m)%Z -> 2 ^ n <= 2 ^ m.
Proof. intros H. apply Qpower_le_compat_l; [exact H | discriminate]. Qed.

Lemma two_lt_inv (n m : Z) : 2 ^ n < 2 ^ m -> (n < m)%Z.
Proof. intros H. eapply Qpower_lt_compat_l_inv; [exact H | reflexivity]. Qed.

Lemma two_add (n m : Z) : 2 ^ (n + m) == 2 ^ n * 2 ^ m.
Proof. apply Qpower_plus, two_nonzero. Qed.

Lemma two_inject (n : Z) : (0 <= n)%Z -> inject_Z (2 ^ n) == 2 ^ n.
Proof. intros H. apply (Zpower_Qpower 2 n H). Qed.

(** The binary exponent brackets a positive rational. *)
Lemma ilog2_spec (q : Q) :
  0 < q -> 2 ^ JS.ilog2 q <= q /\ q < 2 ^ (JS.ilog2 q + 1).
Proof.
  intros Hq. unfold JS.ilog2.
  destruct q as [n d]. cbn [Qnum Qden].
  assert (Hn : (0 < n)%Z) by (unfold Qlt in Hq; simpl in Hq; lia).
  set (a := Z.log2 n). set (b := Z.log2 (Zpos d)).
  destruct (Z.log2_spec n Hn) as [Ha1 Ha2]. fold a in Ha1, Ha2.
  destruct (Z.log2_spec (Zpos d) eq_refl) as [Hb1 Hb2]. fold b in Hb1, Hb2.
  assert (Ha0 : (0 <= a)%Z) by apply Z.log2_nonneg.
  assert (Hb0 : (0 <= b)%Z) by apply Z.log2_nonneg.
  rewrite Zle_Qle, two_inject in Ha1, Hb1 by lia.
  rewrite Zlt_Qlt, two_inject in Ha2, Hb2 by lia.
  assert (Hd : 0 < inject_Z (Zpos d)) by reflexivity.
  assert (Hupper : n # d < 2 ^ (a - b + 1)).
  { rewrite (Qmake_Qdiv n d). apply Qlt_shift_div_r; [exact Hd|].
    eapply Qlt_le_trans; [exact Ha2|].
    replace (Z.succ a) with ((a - b + 1) + b)%Z by lia.
    rewrite two_add. apply Qmult_le_l; [apply two_pos | exact Hb1]. }
  assert (Hlower : 2 ^ (a - b - 1) < n # d).
  { rewrite (Qmake_Qdiv n d). apply Qlt_shift_div_l; [exact Hd|].
    eapply Qlt_le_trans; [|exact Ha1].
    replace a with ((a - b - 1) + Z.succ b)%Z at 2 by lia.
    rewrite two_add. apply Qmult_lt_l; [apply two_pos | exact Hb2]. }
  destruct (Qle_bool (2 ^ (a - b)) (n # d)) eqn:Hk.
  - apply Qle_bool_iff in Hk. split; assumption.
  - split; [apply Qlt_le_weak, Hlower|].
    replace (a - b - 1 + 1)%Z with (a - b)%Z by lia.
    apply Qnot_le_lt. intros Hle. apply Qle_bool_iff in Hle. congruence.
Qed.

Lemma ilog2_mono (x y : Q) : 0 < x -> x <= y -> (JS.ilog2 x <= JS.ilog2 y)%Z.
Proof.
  intros Hx Hxy.
  destruct (ilog2_spec x Hx) as [Hx1 _].
  destruct (ilog2_spec y (Qlt_le_trans _ _ _ Hx Hxy)) as [_ Hy2].
  assert (H : 2 ^ JS.ilog2 x < 2 ^ (JS.ilog2 y + 1)).
  { eapply Qle_lt_trans; [exact Hx1|]. eapply Qle_lt_trans; eassumption. }
  apply two_lt_inv in H. lia.
Qed.

(** *** Nearest integer *)

Lemma rne_floor (x : Q) : (Qfloor x <= JS.rne x <= Qfloor x + 1)%Z.
Proof.
  unfold JS.rne.
  destruct (x - inject_Z (Qfloor x) ?= 1 # 2); [destruct (Z.even (Qfloor x))| |]; lia.
Qed.

Lemma rne_lower (x : Q) (n : Z) : inject_Z n <= x -> (n <= JS.rne x)%Z.
Proof.
  intros H. apply Qfloor_resp_le in H. rewrite Qfloor_Z in H.
  pose proof (rne_floor x). lia.
Qed.

Lemma rne_upper (x : Q) (n : Z) : x <= inject_Z n -> (JS.rne x <= n)%Z.
Proof.
  intros H. pose proof (Qfloor_resp_le _ _ H) as Hf. rewrite Qfloor_Z in Hf.
  destruct (Z.eq_dec (Qfloor x) n) as [Heq|Hne].
  - unfold JS.rne. rewrite Heq.
    assert (Hlt : x - inject_Z n < 1 # 2).
    { apply Qle_lt_trans with 0; [|reflexivity].
      apply (Qplus_le_l _ _ (inject_Z n)). ring_simplify. exact H. }
    rewrite (proj1 (Qlt_alt _ _) Hlt). lia.
  - pose proof (rne_floor x). lia.
Qed.

Lemma rne_mono (x y : Q) : x <= y -> (JS.rne x <= JS.rne y)%Z.
Proof.
  intros H. pose proof (Qfloor_resp_le _ _ H) as Hf.
  pose proof (rne_floor x) as Hx. pose proof (rne_floor y) as Hy.
  destruct (Z.eq_dec (Qfloor x) (Qfloor y)) as [Heq|Hne]; [|lia].
  unfold JS.rne in *. rewrite Heq in *.
  assert (Hr : x - inject_Z (Qfloor y) <= y - inject_Z (Qfloor y)).
  { apply Qplus_le_l. exact H. }
  destruct (Qcompare_spec (x - inject_Z (Qfloor y)) (1 # 2)) as [Hx'|Hx'|Hx'];
  destruct (Qcompare_spec (y - inject_Z (Qfloor y)) (1 # 2)) as [Hy'|Hy'|Hy'];
    try (destruct (Z.even (Qfloor y))); try lia; exfalso; lra.
Qed.

(** *** Rounding to 53 bits *)

Lemma ulp_exp_bounds (q : Q) :
  (JS.ilog2 q - 52 <= JS.ulp_exp q)%Z /\ (-1074 <= JS.ulp_exp q)%Z /\
  (JS.ulp_exp q = JS.ilog2 q - 52 \/ JS.ulp_exp q = -1074)%Z.
Proof. unfold JS.ulp_exp. lia. Qed.

Lemma round53_nonneg (x : Q) : 0 < x -> 0 <= JS.round53 x.
Proof.
  intros Hx. unfold JS.round53. cbv zeta.
  apply Qmult_le_0_compat; [|apply Qlt_le_weak, two_pos].
  rewrite <- (Zle_Qle 0). apply rne_lower.
  apply Qle_shift_div_l; [apply two_pos|].
  change (inject_Z 0) with 0. lra.
Qed.

(** Below the next power of two the significand has at most 53 bits. *)
Lemma round53_upper (x : Q) :
  0 < x -> JS.round53 x <= 2 ^ (53 + JS.ulp_exp x).
Proof.
  intros Hx. unfold JS.round53. cbv zeta.
  destruct (ilog2_spec x Hx) as [_ Hlt].
  destruct (ulp_exp_bounds x) as [He _].
  rewrite two_add. apply Qmult_le_compat_r; [|apply Qlt_le_weak, two_pos].
  rewrite <- (two_inject 53) by lia. rewrite <- Zle_Qle.
  apply rne_upper. apply Qle_shift_div_r; [apply two_pos|].
  rewrite (two_inject 53), <- two_add by lia.
  apply Qlt_le_weak. eapply Qlt_le_trans; [exact Hlt|]. apply two_le. lia.
Qed.

(** A normal number has a significand of at least 52 bits and one. *)
Lemma round53_lower (y : Q) :
  0 < y -> JS.ulp_exp y = (JS.ilog2 y - 52)%Z ->
  2 ^ (52 + JS.ulp_exp y) <= JS.round53 y.
Proof.
  intros Hy He. unfold JS.round53. cbv zeta.
  destruct (ilog2_spec y Hy) as [Hle _].
  rewrite two_add. apply Qmult_le_compat_r; [|apply Qlt_le_weak, two_pos].
  rewrite <- (two_inject 52) by lia. rewrite <- Zle_Qle.
  apply rne_lower. apply Qle_shift_div_l; [apply two_pos|].
  rewrite (two_inject 52), <- two_add by lia.
  eapply Qle_trans; [|exact Hle]. apply two_le. lia.
Qed.

Lemma round53_mono (x y : Q) :
  0 < x -> x <= y -> JS.round53 x <= JS.round53 y.
Proof.
  intros Hx Hxy.
  assert (Hy : 0 < y) by lra.
  pose proof (ilog2_mono x y Hx Hxy) as Hlog.
  destruct (ulp_exp_bounds x) as (Hx1 & Hx2 & Hx3).
  destruct (ulp_exp_bounds y) as (Hy1 & Hy2 & Hy3).
  destruct (Z.eq_dec (JS.ulp_exp x) (JS.ulp_exp y)) as [Heq|Hne].
  - unfold JS.round53. cbv zeta. rewrite Heq.
    apply Qmult_le_compat_r; [|apply Qlt_le_weak, two_pos].
    rewrite <- Zle_Qle. apply rne_mono.
    apply Qmult_le_compat_r; [exact Hxy|].
    apply Qlt_le_weak, Qinv_lt_0_compat, two_pos.
  - assert (Hlt : (JS.ulp_exp x < JS.ulp_exp y)%Z) by (unfold JS.ulp_exp in *; lia).
    eapply Qle_trans; [apply round53_upper, Hx|].
    eapply Qle_trans; [|apply round53_lower; [exact Hy | lia]].
    apply two_le. lia.
Qed.

(** *** The order of numbers *)

Lemma nonneg_cases (a : JS.number) :
  nonneg a <-> a = JS.PInf \/ exists q, a = JS.Fin q /\ 0 <= q.
Proof.
  unfold nonneg, JS.leb, JS.of_Z. destruct a as [| | |q]; split; intros H.
  - discriminate.
  - destruct H as [H|(q & H & _)]; discriminate.
  - left; reflexivity.
  - reflexivity.
  - discriminate.
  - destruct H as [H|(q & H & _)]; discriminate.
  - right. exists q. split; [reflexivity | apply Qle_bool_iff, H].
  - destruct H as [H|(q' & [= <-] & H)]; [discriminate | apply Qle_bool_iff, H].
Qed.

Lemma fl_pos_cases (q : Q) :
  0 < q ->
  (JS.fl_pos q = JS.PInf /\ 2 ^ 1024 <= JS.round53 q) \/
  (JS.fl_pos q = JS.Fin (Qred (JS.round53 q)) /\ JS.round53 q < 2 ^ 1024).
Proof.
  intros Hq. unfold JS.fl_pos. cbv zeta.
  destruct (Qle_bool (2 ^ 1024) (JS.round53 q)) eqn:Hb.
  - left. split; [reflexivity | apply Qle_bool_iff, Hb].
  - right. split; [reflexivity|]. apply Qnot_le_lt. intros H.
    apply Qle_bool_iff in H. congruence.
Qed.

Lemma fl_nonneg (q : Q) : 0 <= q -> nonneg (JS.fl q).
Proof.
  intros Hq. unfold JS.fl. apply nonneg_cases.
  destruct (Qcompare_spec q 0) as [H|H|H].
  - right. exists 0. split; [reflexivity | lra].
  - lra.
  - destruct (fl_pos_cases q H) as [[-> _]|[-> _]]; [left; reflexivity|].
    right. eexists. split; [reflexivity|]. rewrite Qred_correct.
    apply round53_nonneg, H.
Qed.

Lemma fl_mono (x y : Q) : 0 <= x -> x <= y -> JS.leb (JS.fl x) (JS.fl y) = true.
Proof.
  intros Hx Hxy. unfold JS.fl.
  destruct (Qcompare_spec x 0) as [Hx0|Hx0|Hx0]; [|lra|].
  - destruct (Qcompare_spec y 0) as [Hy0|Hy0|Hy0]; [reflexivity | lra |].
    destruct (fl_pos_cases y Hy0) as [[-> _]|[-> _]]; [reflexivity|].
    apply Qle_bool_iff. rewrite Qred_correct. apply round53_nonneg, Hy0.
  - destruct (Qcompare_spec y 0) as [Hy0|Hy0|Hy0]; [lra | lra |].
    pose proof (round53_mono x y Hx0 Hxy) as Hm.
    destruct (fl_pos_cases x Hx0) as [[-> Hx1]|[-> Hx1]];
    destruct (fl_pos_cases y Hy0) as [[-> Hy1]|[-> Hy1]]; try reflexivity.
    + lra.
    + apply Qle_bool_iff. rewrite !Qred_correct. exact Hm.
Qed.

Lemma leb_of_Z (a b : Z) : JS.leb (JS.of_Z a) (JS.of_Z b) = (a <=? b)%Z.
Proof.
  unfold JS.leb, JS.of_Z. apply eq_true_iff_eq.
  rewrite Qle_bool_iff, Z.leb_le, Zle_Qle. reflexivity.
Qed.

Lemma min_of_Z (a b : Z) : JS.min (JS.of_Z a) (JS.of_Z b) = JS.of_Z (Z.min a b).
Proof.
  unfold JS.min. rewrite leb_of_Z. unfold JS.of_Z.
  destruct (Z.leb_spec a b); [rewrite Z.min_l | rewrite Z.min_r]; auto; lia.
Qed.

Lemma div_counts (c t : Z) :
  (0 < t)%Z -> JS.div (JS.of_Z c) (JS.of_Z t) = JS.fl (inject_Z c / inject_Z t).
Proof.
  intros Ht. unfold JS.div, JS.of_Z.
  destruct (Qeq_bool (inject_Z t) 0) eqn:H0; [|reflexivity].
  apply Qeq_bool_iff in H0. unfold Qeq in H0. simpl in H0. lia.
Qed.

Lemma quotient_nonneg (c t : Z) :
  (0 <= c)%Z -> (0 < t)%Z -> 0 <= inject_Z c / inject_Z t.
Proof.
  intros Hc Ht. apply Qle_shift_div_l.
  - rewrite <- (Zlt_Qlt 0). exact Ht.
  - rewrite Qmult_0_l, <- (Zle_Qle 0). exact Hc.
Qed.

Lemma quotient_mono (c c' t : Z) :
  (c <= c')%Z -> (0 < t)%Z -> inject_Z c / inject_Z t <= inject_Z c' / inject_Z t.
Proof.
  intros Hc Ht. apply Qmult_le_compat_r; [rewrite <- Zle_Qle; exact Hc|].
  apply Qlt_le_weak, Qinv_lt_0_compat. rewrite <- (Zlt_Qlt 0). exact Ht.
Qed.

(** Scaling by 100, rounding and capping keep the order of the
    numbers that are not negative. *)
Lemma times100_nonneg (a : JS.number) :
  nonneg a -> nonneg (JS.mul a (JS.of_Z 100)).
Proof.
  intros Ha. apply nonneg_cases in Ha as [->|(q & -> & Hq)]; [reflexivity|].
  unfold JS.mul, JS.of_Z. apply fl_nonneg.
  apply Qmult_le_0_compat; [exact Hq | discriminate].
Qed.

Lemma times100_mono (a b : JS.number) :
  nonneg a -> JS.leb a b = true ->
  JS.leb (JS.mul a (JS.of_Z 100)) (JS.mul b (JS.of_Z 100)) = true.
Proof.
  intros Ha Hab. pose proof (times100_nonneg a Ha) as Hn.
  apply nonneg_cases in Ha as [->|(q & -> & Hq)].
  - destruct b; try discriminate. reflexivity.
  - destruct b as [| | |q']; try discriminate.
    + apply nonneg_cases in Hn as [->|(r & -> & _)]; reflexivity.
    + unfold JS.mul, JS.of_Z. apply Qle_bool_iff in Hab. apply fl_mono.
      * apply Qmult_le_0_compat; [exact Hq | discriminate].
      * apply Qmult_le_compat_r; [exact Hab | discriminate].
Qed.

Lemma percentage_shape (a : JS.number) :
  nonneg a ->
  exists p, JS.min (JS.round a) (JS.of_Z 100) = JS.of_Z p /\ (0 <= p <= 100)%Z.
Proof.
  intros Ha. apply nonneg_cases in Ha as [->|(q & -> & Hq)].
  - exists 100%Z. split; [reflexivity | lia].
  - unfold JS.round. rewrite min_of_Z. eexists. split; [reflexivity|].
    assert (H : (0 <= Qfloor (q + (1 # 2)))%Z).
    { rewrite <- (Qfloor_Z 0). apply Qfloor_resp_le. change (inject_Z 0) with 0. lra. }
    lia.
Qed.

Lemma percentage_mono (a b : JS.number) :
  nonneg a -> JS.leb a b = true ->
  JS.leb (JS.min (JS.round a) (JS.of_Z 100)) (JS.min (JS.round b) (JS.of_Z 100)) = true.
Proof.
  intros Ha Hab. apply nonneg_cases in Ha as [->|(q & -> & Hq)].
  - destruct b; try discriminate. reflexivity.
  - destruct b as [| | |q']; try discriminate.
    + unfold JS.round. rewrite min_of_Z.
      change (JS.min JS.PInf (JS.of_Z 100)) with (JS.of_Z 100).
      rewrite leb_of_Z. apply Z.leb_le. lia.
    + unfold JS.round. rewrite !min_of_Z, leb_of_Z. apply Z.leb_le.
      apply Qle_bool_iff in Hab.
      assert (H : (Qfloor (q + (1 # 2)) <= Qfloor (q' + (1 # 2)))%Z).
      { apply Qfloor_resp_le. lra. }
      lia.
Qed.

(** *** Values a double holds exactly *)

Lemma rne_integer (x : Q) (n : Z) : x == inject_Z n -> JS.rne x = n.
Proof.
  intros H. apply Z.le_antisymm; [apply rne_upper | apply rne_lower]; lra.
Qed.

(** A significand below [2^53] at an exponent in range is not changed
    by the rounding. *)
Lemma round53_exact (x : Q) (j e : Z) :
  x == inject_Z j * 2 ^ e -> (0 < j < 2 ^ 53)%Z -> (-1074 <= e)%Z ->
  JS.round53 x == x.
Proof.
  intros Hx Hj He.
  assert (Hjq : 0 < inject_Z j) by (rewrite <- (Zlt_Qlt 0); lia).
  assert (Hpos : 0 < x).
  { rewrite Hx. apply Qmult_lt_0_compat; [exact Hjq | apply two_pos]. }
  destruct (ilog2_spec x Hpos) as [Hlow _].
  assert (Hlog : (JS.ilog2 x < 53 + e)%Z).
  { apply two_lt_inv. eapply Qle_lt_trans; [exact Hlow|].
    rewrite Hx, two_add. apply Qmult_lt_compat_r; [apply two_pos|].
    rewrite <- (two_inject 53) by lia. rewrite <- Zlt_Qlt. lia. }
  unfold JS.round53. cbv zeta.
  set (e' := JS.ulp_exp x).
  assert (He' : (e' <= e)%Z) by (unfold e', JS.ulp_exp; lia).
  assert (Hint : x / 2 ^ e' == inject_Z (j * 2 ^ (e - e'))).
  { rewrite inject_Z_mult, two_inject by lia. rewrite Hx.
    replace e with ((e - e') + e')%Z at 1 by lia. rewrite two_add.
    field. apply Qnot_eq_sym, Qlt_not_eq, two_pos. }
  rewrite (rne_integer _ _ Hint), <- Hint.
  field. apply Qnot_eq_sym, Qlt_not_eq, two_pos.
Qed.

Lemma fl_exact (x : Q) (j e : Z) :
  x == inject_Z j * 2 ^ e -> (0 < j < 2 ^ 53)%Z -> (-1074 <= e)%Z ->
  (53 + e <= 1024)%Z ->
  JS.fl x = JS.Fin (Qred x).
Proof.
  intros Hx Hj He Hmax.
  pose proof (round53_exact x j e Hx Hj He) as Hr.
  assert (Hjq : 0 < inject_Z j) by (rewrite <- (Zlt_Qlt 0); lia).
  assert (Hpos : 0 < x).
  { rewrite Hx. apply Qmult_lt_0_compat; [exact Hjq | apply two_pos]. }
  assert (Hlt : x < 2 ^ 1024).
  { eapply Qlt_le_trans; [|apply (two_le (53 + e) 1024 Hmax)].
    rewrite Hx, two_add. apply Qmult_lt_compat_r; [apply two_pos|].
    rewrite <- (two_inject 53) by lia. rewrite <- Zlt_Qlt. lia. }
  unfold JS.fl. rewrite (proj1 (Qgt_alt _ _) Hpos).
  destruct (fl_pos_cases x Hpos) as [[_ Hbig]|[-> _]].
  - exfalso. rewrite Hr in Hbig. lra.
  - f_equal. apply Qred_complete, Hr.
Qed.

Lemma Qred_inject_Z (n : Z) : Qred (inject_Z n) = inject_Z n.
Proof.
  unfold Qred, inject_Z.
  pose proof (Z.ggcd_gcd n 1) as Hg.
  pose proof (Z.ggcd_correct_divisors n 1) as Hd.
  destruct (Z.ggcd n 1) as [g [aa bb]]. simpl in Hg, Hd.
  rewrite Z.gcd_1_r in Hg. subst g. destruct Hd as [Ha Hb].
  rewrite Z.mul_1_l in Ha, Hb. subst aa bb. reflexivity.
Qed.

Lemma fl_integer (n : Z) : (0 <= n < 2 ^ 53)%Z -> JS.fl (inject_Z n) = JS.of_Z n.
Proof.
  intros Hn. destruct (Z.eq_dec n 0) as [->|Hne]; [reflexivity|].
  rewrite (fl_exact (inject_Z n) n 0); try lia.
  - unfold JS.of_Z. f_equal. apply Qred_inject_Z.
  - change (2 ^ 0) with 1. ring.
Qed.

Lemma add_of_Z (a b : Z) :
  (0 <= a + b < 2 ^ 53)%Z -> JS.add (JS.of_Z a) (JS.of_Z b) = JS.of_Z (a + b).
Proof.
  intros H. unfold JS.add, JS.of_Z. rewrite <- inject_Z_plus. apply fl_integer, H.
Qed.

Lemma max_of_Z (a b : Z) : JS.max (JS.of_Z a) (JS.of_Z b) = JS.of_Z (Z.max a b).
Proof.
  unfold JS.max. rewrite leb_of_Z. unfold JS.of_Z.
  destruct (Z.leb_spec a b); [rewrite Z.max_r | rewrite Z.max_l]; auto; lia.
Qed.

(** The quotient of a span of milliseconds by the length of a day is
    not rounded across a whole number of days, for spans of less than
    [2^26] days: on such spans the division on doubles followed by
    [Math.floor] is the integer division. *)
Lemma floor_div_days (a : Z) :
  (0 <= a < 2 ^ 26 * 86400000)%Z ->
  JS.floor (JS.div (JS.of_Z a) (JS.of_Z 86400000)) = JS.of_Z (a / 86400000).
Proof.
  intros Ha. rewrite div_counts by lia.
  change (2 ^ 26)%Z with 67108864%Z in Ha.
  pose proof (Z.div_mod a 86400000 ltac:(lia)) as Hdm.
  pose proof (Z.mod_pos_bound a 86400000 ltac:(lia)) as Hmod.
  set (k := (a / 86400000)%Z) in *. set (m := (a mod 86400000)%Z) in *.
  clearbody k m.
  assert (Hk : (0 <= k < 67108864)%Z) by lia.
  assert (H27 : (2 ^ 27 = 134217728)%Z) by reflexivity.
  assert (H53 : (2 ^ 53 = 9007199254740992)%Z) by reflexivity.
  set (q := inject_Z a / inject_Z 86400000).
  set (r := inject_Z ((k + 1) * 2 ^ 27 - 1) * 2 ^ (-27)).
  assert (Hq0 : 0 <= q) by (apply quotient_nonneg; lia).
  assert (Hkq : inject_Z k <= q).
  { unfold q. apply Qle_shift_div_l; [reflexivity|].
    rewrite <- inject_Z_mult, <- Zle_Qle. lia. }
  assert (Hqr : q <= r).
  { unfold q, r. apply Qle_shift_div_r; [reflexivity|].
    change (2 ^ (-27)) with (1 # 134217728).
    unfold Qle. simpl. lia. }
  assert (Hr1 : r < inject_Z (k + 1)).
  { unfold r. change (2 ^ (-27)) with (1 # 134217728).
    unfold Qlt. simpl. lia. }
  pose proof (fl_mono (inject_Z k) q ltac:(rewrite <- (Zle_Qle 0); lia) Hkq) as Hlow.
  pose proof (fl_mono q r Hq0 Hqr) as Hup.
  rewrite (fl_integer k) in Hlow by lia.
  rewrite (fl_exact r ((k + 1) * 2 ^ 27 - 1) (-27)) in Hup;
    [|reflexivity | lia | lia | lia].
  destruct (JS.fl q) as [| | |x]; try discriminate.
  unfold JS.floor. f_equal.
  unfold JS.leb, JS.of_Z in *. apply Qle_bool_iff in Hlow, Hup.
  rewrite Qred_correct in Hup.
  apply Z.le_antisymm.
  - assert (H : inject_Z (Qfloor x) < inject_Z (k + 1)).
    { eapply Qle_lt_trans; [apply Qfloor_le|]. lra. }
    rewrite <- Zlt_Qlt in H. lia.
  - rewrite <- (Qfloor_Z k). apply Qfloor_resp_le, Hlow.
Qed.

Local Close Scope Q_scope.

(** A rational that is a whole number below [2^53] is a double. *)
Lemma fl_whole (x : Q) (n : Z) :
  (x == inject_Z n)%Q -> 0 <= n < 2 ^ 53 -> JS.fl x = JS.of_Z n.
Proof.
  intros Hx Hn. destruct (Z.eq_dec n 0) as [->|Hne].
  - change (inject_Z 0) with 0%Q in Hx.
    unfold JS.fl. rewrite (proj1 (Qeq_alt _ _) Hx). reflexivity.
  - rewrite (fl_exact x n 0); try lia.
    + unfold JS.of_Z. f_equal. rewrite (Qred_complete _ _ Hx). apply Qred_inject_Z.
    + rewrite Hx. change (2 ^ 0)%Q with 1%Q. ring.
Qed.

Lemma sub_of_Z (a b : Z) :
  0 <= a - b < 2 ^ 53 -> JS.sub (JS.of_Z a) (JS.of_Z b) = JS.of_Z (a - b).
Proof.
  intros H. unfold JS.sub, JS.neg, JS.of_Z, JS.add. apply fl_whole; [|exact H].
  rewrite Qred_correct. replace (a - b) with (a + - b) by lia.
  rewrite inject_Z_plus, inject_Z_opp. reflexivity.
Qed.

Lemma fl_number (q : Q) : JS.fl q <> JS.NaN.
Proof.
  unfold JS.fl, JS.fl_pos. destruct (Qcompare q 0); [discriminate| |].
  - destruct (Qle_bool _ _); discriminate.
  - destruct (Qle_bool _ _); discriminate.
Qed.

(** With a creation date, the days since creation are a number. *)
Lemma daysSinceCreation_number (now c : Z) (h : habit) :
  createdAt h = Some c -> Storage.daysSinceCreation now h <> JS.NaN.
Proof.
  intros Hc. unfold Storage.daysSinceCreation. rewrite Hc.
  unfold JS.sub, JS.neg, JS.of_Z, JS.add at 2.
  pose proof (fl_number (inject_Z now + Qred (- inject_Z c))) as Hsub.
  destruct (JS.fl (inject_Z now + Qred (- inject_Z c))) as [| | |d];
    [contradiction | discriminate | discriminate|].
  unfold JS.div. change (Qeq_bool (inject_Z Progress.MS_PER_DAY) 0) with false.
  pose proof (fl_number (d / inject_Z Progress.MS_PER_DAY)) as Hdiv.
  destruct (JS.fl (d / inject_Z Progress.MS_PER_DAY)) as [| | |q];
    [contradiction | discriminate | discriminate|].
  unfold JS.floor, JS.of_Z, JS.add. apply fl_number.
Qed.

(** On spans of less than [2^26] days, what the source computes on
    doubles for the days since creation and for [totalDays] is what
    the division and the maximum give on integers. *)
Lemma daysSinceCreation_on_doubles (now c : Z) (h : habit) :
  createdAt h = Some c -> 0 <= now - c < 2 ^ 26 * 86400000 ->
  Storage.daysSinceCreation now h = JS.of_Z ((now - c) / 86400000 + 1).
Proof.
  intros Hc Hspan. unfold Storage.daysSinceCreation. rewrite Hc.
  change Progress.MS_PER_DAY with 86400000.
  change (2 ^ 26) with 67108864 in Hspan.
  assert (H53 : 2 ^ 53 = 9007199254740992) by reflexivity.
  rewrite sub_of_Z by lia.
  rewrite floor_div_days by (change (2 ^ 26) with 67108864; lia).
  assert (Hk : 0 <= (now - c) / 86400000 < 67108864).
  { split; [apply Z.div_pos | apply Z.div_lt_upper_bound]; lia. }
  apply add_of_Z. lia.
Qed.

Lemma totalDays_on_doubles (now c len : Z) (h : habit) :
  createdAt h = Some c -> 0 <= now - c < 2 ^ 26 * 86400000 ->
  JS.max (JS.of_Z len) (Storage.daysSinceCreation now h) =
  JS.of_Z (Z.max len ((now - c) / 86400000 + 1)).
Proof.
  intros Hc Hspan. rewrite (daysSinceCreation_on_doubles now c h Hc Hspan).
  apply max_of_Z.
Qed.

(** [Math.max] of a count and a number is not negative, and not below
    a smaller count. *)
Lemma max_count_counter (len : Z) (x : JS.number) :
  0 <= len -> bad_counter (Some (JS.max (JS.of_Z len) x)) = false.
Proof.
  intros Hlen. unfold bad_counter, JS.max, JS.of_Z.
  assert (H0 : JS.ltb (JS.Fin (inject_Z len)) (JS.Fin (inject_Z 0)) = false).
  { unfold JS.ltb, JS.leb. apply negb_false_iff, Qle_bool_iff.
    rewrite <- Zle_Qle. exact Hlen. }
  destruct x as [| | |q]; try reflexivity; [exact H0|].
  unfold JS.leb. destruct (Qle_bool (inject_Z len) q) eqn:Hq; [|exact H0].
  unfold JS.ltb, JS.leb. apply negb_false_iff, Qle_bool_iff.
  apply Qle_bool_iff in Hq. eapply Qle_trans; [|exact Hq].
  rewrite <- Zle_Qle. exact Hlen.
Qed.

Lemma leb_max_count (count len : Z) (x : JS.number) :
  count <= len -> x <> JS.NaN ->
  JS.leb (JS.of_Z count) (JS.max (JS.of_Z len) x) = true.
Proof.
  intros Hle Hx. unfold JS.max, JS.of_Z.
  assert (H0 : JS.leb (JS.Fin (inject_Z count)) (JS.Fin (inject_Z len)) = true).
  { unfold JS.leb. apply Qle_bool_iff. rewrite <- Zle_Qle. exact Hle. }
  destruct x as [| | |q]; try reflexivity; [contradiction | exact H0|].
  destruct (JS.leb (JS.Fin (inject_Z len)) (JS.Fin q)) eqn:Hq; [|exact H0].
  unfold JS.leb in *. apply Qle_bool_iff. apply Qle_bool_iff in Hq, H0.
  eapply Qle_trans; eassumption.
Qed.

(** *** Finite results *)

Local Open Scope Q_scope.

Lemma fl_below (x B b : Q) :
  0 <= x -> x <= B -> JS.fl B = JS.Fin b ->
  exists r, JS.fl x = JS.Fin r /\ 0 <= r /\ r <= b.
Proof.
  intros Hx HB Hb. pose proof (fl_mono x B Hx HB) as Hm. rewrite Hb in Hm.
  pose proof (fl_nonneg x Hx) as Hn.
  apply nonneg_cases in Hn as [Hn|(r & Hn & Hr)]; rewrite Hn in Hm; [discriminate|].
  exists r. split; [exact Hn|]. split; [exact Hr | apply Qle_bool_iff, Hm].
Qed.

Lemma mul_below (x k X b : Q) :
  0 <= x -> x <= X -> 0 <= k -> JS.fl (X * k) = JS.Fin b ->
  exists r, JS.mul (JS.Fin x) (JS.Fin k) = JS.Fin r /\ 0 <= r /\ r <= b.
Proof.
  intros Hx HX Hk Hb. unfold JS.mul. apply (fl_below _ (X * k)); [| |exact Hb].
  - apply Qmult_le_0_compat; assumption.
  - apply Qmult_le_compat_r; assumption.
Qed.

Lemma add_below (x y X Y b : Q) :
  0 <= x -> x <= X -> 0 <= y -> y <= Y -> JS.fl (X + Y) = JS.Fin b ->
  exists r, JS.add (JS.Fin x) (JS.Fin y) = JS.Fin r /\ 0 <= r /\ r <= b.
Proof.
  intros Hx HX Hy HY Hb. unfold JS.add. apply (fl_below _ (X + Y)); [| |exact Hb]; lra.
Qed.

Lemma round_below (x : Q) (n : Z) :
  0 <= x -> x <= inject_Z n ->
  exists z, JS.round (JS.Fin x) = JS.of_Z z /\ (0 <= z <= n)%Z.
Proof.
  intros Hx Hn. unfold JS.round. eexists. split; [reflexivity|]. split.
  - rewrite <- (Qfloor_Z 0). apply Qfloor_resp_le. change (inject_Z 0) with 0. lra.
  - assert (H : inject_Z (Qfloor (x + (1 # 2))) < inject_Z (n + 1)).
    { eapply Qle_lt_trans; [apply Qfloor_le|]. rewrite inject_Z_plus.
      change (inject_Z 1) with 1. lra. }
    rewrite <- Zlt_Qlt in H. lia.
Qed.

(** A ratio of counts, as a percentage. *)
Lemma ratio_percentage (n m : nat) :
  (n <= m)%nat -> (0 < m)%nat ->
  exists w,
    JS.round (JS.mul (JS.div (JS.of_nat n) (JS.of_nat m)) (JS.of_Z 100)) = JS.of_Z w /\
    (0 <= w <= 100)%Z.
Proof.
  intros Hnm Hm. unfold JS.of_nat. rewrite div_counts by lia.
  destruct (fl_below (inject_Z (Z.of_nat n) / inject_Z (Z.of_nat m)) 1 1)
    as (r & -> & Hr0 & Hr1); [| |reflexivity|].
  - apply quotient_nonneg; lia.
  - apply Qle_shift_div_r; [rewrite <- (Zlt_Qlt 0); lia|].
    rewrite Qmult_1_l, <- Zle_Qle. lia.
  - destruct (mul_below r (inject_Z 100) 1 100 Hr0 Hr1) as (r' & Hr' & Hr'0 & Hr'1);
      [discriminate | reflexivity|].
    unfold JS.of_Z at 1. rewrite Hr'. apply round_below; assumption.
Qed.

Local Close Scope Q_scope.

(** ** Streaks *)

Lemma current_loop_after_first (l : list entry) (i : nat) :
  Progress.current_loop (S i) l 1 = 1.
Proof.
  revert i; induction l as [|e rest IH]; intros i; simpl; [reflexivity|].
  destruct (completed e); apply IH.
Qed.

Lemma current_loop_newest (l : list entry) :
  Progress.current_loop 0 l 0 =
  match l with
  | e :: _ => if completed e then 1 else 0
  | [] => 0
  end.
Proof.
  destruct l as [|e rest]; simpl; [reflexivity|].
  destruct (completed e); [apply current_loop_after_first | reflexivity].
Qed.

(** C2.  The loop that computes [currentStreak] only ever assigns at
    index 0: the result is 1 when the newest entry is completed and 0
    otherwise, whatever follows.  A newest entry that is not completed
    gives 0, as specified; but a history whose two newest entries are
    both completed gives 1, where the specification counts 2. *)
Theorem calculateStreak_current_at_most_one :
  (forall l : list entry,
     Progress.currentStreak (Progress.calculateStreak (Some l)) =
     match Arr.sort Progress.newest_first l with
     | newest :: _ => if completed newest then 1 else 0
     | [] => 0
     end) /\
  Progress.currentStreak
    (Progress.calculateStreak (Some [mkEntry 1 true; mkEntry 2 true])) = 1.
Proof.
  split; [|reflexivity].
  intros l. unfold Progress.calculateStreak.
  destruct l as [|e r]; [reflexivity|].
  cbv zeta. unfold Progress.currentStreak.
  apply current_loop_newest.
Qed.

(** *** Sorting *)

Section SortFacts.
Context {A : Type}.
Variable cmp : A -> A -> Z.

Lemma insert_perm (x : A) (l : list A) :
  Permutation (Arr.insert cmp x l) (x :: l).
Proof.
  induction l as [|y r IH]; simpl; [apply Permutation_refl|].
  destruct (cmp x y <=? 0); [apply Permutation_refl|].
  eapply perm_trans; [apply perm_skip, IH | apply perm_swap].
Qed.

Lemma sort_perm (l : list A) : Permutation (Arr.sort cmp l) l.
Proof.
  induction l as [|x r IH]; simpl; [constructor|].
  eapply perm_trans; [apply insert_perm | apply perm_skip, IH].
Qed.

(** An order the comparator decides: [x] may stand before [y]. *)
Variable before : A -> A -> Prop.
Hypothesis cmp_before : forall x y, cmp x y <= 0 -> before x y.
Hypothesis cmp_after : forall x y, 0 < cmp x y -> before y x.
Hypothesis before_trans : forall x y z, before x y -> before y z -> before x z.

Lemma insert_sorted (x : A) (l : list A) :
  StronglySorted before l -> StronglySorted before (Arr.insert cmp x l).
Proof.
  induction 1 as [|y r Hr IH Hall]; simpl.
  - constructor; constructor.
  - destruct (Z.leb_spec (cmp x y) 0) as [Hle|Hgt].
    + constructor; [constructor; assumption|].
      constructor; [apply cmp_before, Hle|].
      eapply Forall_impl; [|exact Hall].
      intros z Hz. eapply before_trans; [apply cmp_before, Hle | exact Hz].
    + constructor; [exact IH|].
      eapply Permutation_Forall; [apply Permutation_sym, insert_perm|].
      constructor; [apply cmp_after, Hgt | exact Hall].
Qed.

Lemma sort_sorted (l : list A) : StronglySorted before (Arr.sort cmp l).
Proof.
  induction l as [|x r IH]; simpl; [constructor | apply insert_sorted, IH].
Qed.

(** A list that is already in order is left as it is, provided the
    comparator puts no later element strictly first. *)
Lemma insert_head (x : A) (l : list A) :
  Forall (fun y => cmp x y <= 0) l -> Arr.insert cmp x l = x :: l.
Proof.
  destruct 1 as [|y r Hy _]; simpl; [reflexivity|].
  destruct (Z.leb_spec (cmp x y) 0); [reflexivity | lia].
Qed.

Lemma sort_fixpoint (l : list A) :
  StronglySorted (fun x y => cmp x y <= 0) l -> Arr.sort cmp l = l.
Proof.
  induction 1 as [|x r Hr IH Hall]; simpl; [reflexivity|].
  rewrite IH. apply insert_head, Hall.
Qed.
End SortFacts.

(** The sort is stable: elements the comparator does not separate keep
    their order, so a filter that selects only such elements commutes
    with it. *)
Lemma insert_filter_stable {A : Type} (cmp : A -> A -> Z) (p : A -> bool)
    (x : A) (l : list A) :
  (forall y, p x = true -> p y = true -> cmp x y <= 0) ->
  filter p (Arr.insert cmp x l) = filter p (x :: l).
Proof.
  intros Htie. induction l as [|y r IH]; simpl; [reflexivity|].
  destruct (Z.leb_spec (cmp x y) 0) as [Hle|Hgt]; [reflexivity|].
  simpl. rewrite IH. simpl.
  destruct (p x) eqn:Hx, (p y) eqn:Hy; try reflexivity.
  specialize (Htie y eq_refl Hy). lia.
Qed.

Lemma sort_filter_stable {A : Type} (cmp : A -> A -> Z) (p : A -> bool)
    (l : list A) :
  (forall x y, p x = true -> p y = true -> cmp x y <= 0) ->
  filter p (Arr.sort cmp l) = filter p l.
Proof.
  intros Htie. induction l as [|x r IH]; simpl; [reflexivity|].
  rewrite insert_filter_stable by (intros y; apply Htie).
  simpl. rewrite IH. reflexivity.
Qed.

Lemma StronglySorted_app {A : Type} (R : A -> A -> Prop) (l1 l2 : list A) :
  StronglySorted R l1 -> StronglySorted R l2 ->
  (forall x y, In x l1 -> In y l2 -> R x y) ->
  StronglySorted R (l1 ++ l2).
Proof.
  induction 1 as [|x r Hr IH Hall]; intros H2 Hx; simpl; [exact H2|].
  constructor.
  - apply IH; [exact H2|]. intros a b Ha Hb. apply Hx; [right; exact Ha | exact Hb].
  - apply Forall_app; split; [exact Hall|].
    apply Forall_forall. intros y Hy. apply Hx; [left; reflexivity | exact Hy].
Qed.

Lemma StronglySorted_rev {A : Type} (R : A -> A -> Prop) (l : list A) :
  StronglySorted R l -> StronglySorted (fun x y => R y x) (rev l).
Proof.
  induction 1 as [|x r Hr IH Hall]; simpl; [constructor|].
  apply StronglySorted_app; [exact IH | repeat constructor |].
  intros a b Ha [Hb|[]]; subst b.
  rewrite Forall_forall in Hall. apply Hall, in_rev, Ha.
Qed.

Lemma newest_first_sorted (l : list entry) :
  StronglySorted (fun a b => date b <= date a) (Arr.sort Progress.newest_first l).
Proof.
  apply sort_sorted; cbv beta;
    unfold Progress.newest_first, Progress.date_ms, Progress.MS_PER_DAY; intros; lia.
Qed.

(** *** The longest run *)

Lemma longest_fold_bounds (l : list entry) :
  forall t m, 0 <= t <= m ->
  m <= snd (fold_left Progress.longest_step l (t, m)) /\
  forall l1 seg l2, l = l1 ++ seg ++ l2 -> forallb completed seg = true ->
    (l1 = [] -> t + run_length seg <= snd (fold_left Progress.longest_step l (t, m))) /\
    run_length seg <= snd (fold_left Progress.longest_step l (t, m)).
Proof.
  unfold run_length.
  induction l as [|e r IH]; intros t m Htm; simpl.
  - split; [lia|]. intros l1 seg l2 Heq _.
    destruct l1; [|discriminate]. destruct seg; [|discriminate]. simpl. lia.
  - destruct (completed e) eqn:He.
    + destruct (IH (t + 1) (Z.max m (t + 1)) ltac:(lia)) as [Hm Hseg].
      split; [lia|]. intros l1 seg l2 Heq Hall.
      destruct l1 as [|a l1].
      * destruct seg as [|b seg]; simpl in *; [lia|].
        injection Heq as <- Hr. apply andb_prop in Hall as [_ Hall].
        destruct (Hseg [] seg l2 Hr Hall) as [H1 _]. specialize (H1 eq_refl).
        rewrite Zpos_P_of_succ_nat. lia.
      * injection Heq as <- Hr. destruct (Hseg l1 seg l2 Hr Hall) as [_ H2].
        split; [discriminate | exact H2].
    + destruct (IH 0 m ltac:(lia)) as [Hm Hseg].
      split; [lia|]. intros l1 seg l2 Heq Hall.
      destruct l1 as [|a l1].
      * destruct seg as [|b seg]; simpl in *; [lia|].
        injection Heq as <- Hr. rewrite He in Hall. discriminate.
      * injection Heq as <- Hr. destruct (Hseg l1 seg l2 Hr Hall) as [_ H2].
        split; [discriminate | exact H2].
Qed.

Lemma longest_fold_attained (l : list entry) :
  forall t m,
  snd (fold_left Progress.longest_step l (t, m)) = m \/
  exists l1 seg l2, l = l1 ++ seg ++ l2 /\ forallb completed seg = true /\
    (snd (fold_left Progress.longest_step l (t, m)) = run_length seg \/
     (l1 = [] /\ snd (fold_left Progress.longest_step l (t, m)) = t + run_length seg)).
Proof.
  unfold run_length.
  induction l as [|e r IH]; intros t m; simpl; [left; reflexivity|].
  destruct (completed e) eqn:He.
  - destruct (IH (t + 1) (Z.max m (t + 1))) as [Hm|(l1 & seg & l2 & Heq & Hall & Hlen)].
    + destruct (Z.max_spec m (t + 1)) as [[_ Hx]|[_ Hx]].
      * right. exists [], [e], r. simpl. rewrite He.
        repeat split; try reflexivity. right. split; [reflexivity | lia].
      * left. lia.
    + right. destruct Hlen as [Hlen|[-> Hlen]].
      * exists (e :: l1), seg, l2. subst r. repeat split; auto.
      * exists [], (e :: seg), l2. subst r. simpl. rewrite He.
        repeat split; auto. right. split; [reflexivity|].
        rewrite Zpos_P_of_succ_nat. simpl in Hlen. lia.
  - destruct (IH 0 m) as [Hm|(l1 & seg & l2 & Heq & Hall & Hlen)].
    + left. exact Hm.
    + right. exists (e :: l1), seg, l2. subst r. repeat split; auto.
      left. destruct Hlen as [Hlen|[_ Hlen]]; lia.
Qed.

(** C6.  For every completion history, [longestStreak] is the length of
    a longest block of adjacent completed entries of the history put in
    chronological order: the order is a rearrangement of the history
    with dates going up, some block of adjacent completed entries has
    that length and none is longer.  Only adjacency counts, so entries
    three days apart still form one block.  The ten-day history of
    Example 2 has [longestStreak = 5] and [currentStreak = 1]. *)
Theorem calculateStreak_longest_is_max_run :
  (forall l : list entry,
     let chronological := rev (Arr.sort Progress.newest_first l) in
     let longest := Progress.longestStreak (Progress.calculateStreak (Some l)) in
     Permutation chronological l /\
     StronglySorted (fun a b => date a <= date b) chronological /\
     (exists l1 seg l2,
        chronological = l1 ++ seg ++ l2 /\ forallb completed seg = true /\
        longest = run_length seg) /\
     (forall l1 seg l2,
        chronological = l1 ++ seg ++ l2 -> forallb completed seg = true ->
        run_length seg <= longest)) /\
  Progress.calculateStreak (Some [mkEntry 1 true; mkEntry 4 true]) =
    Progress.mkStreak 1 2 /\
  Progress.calculateStreak (Some example2) = Progress.mkStreak 1 5.
Proof.
  split; [|split; reflexivity].
  intros l chronological longest.
  assert (Hlongest :
    longest = snd (fold_left Progress.longest_step chronological (0, 0))).
  { subst longest chronological. destruct l as [|e r]; reflexivity. }
  split; [|split; [|split]].
  - subst chronological. eapply perm_trans; [apply Permutation_sym, Permutation_rev|].
    apply sort_perm.
  - subst chronological.
    apply (StronglySorted_rev (fun a b => date b <= date a)), newest_first_sorted.
  - rewrite Hlongest.
    destruct (longest_fold_attained chronological 0 0)
      as [H0|(l1 & seg & l2 & Heq & Hall & Hlen)].
    + exists [], [], chronological. rewrite H0. repeat split; reflexivity.
    + exists l1, seg, l2. repeat split; auto.
      destruct Hlen as [Hlen|[_ Hlen]]; lia.
  - intros l1 seg l2 Heq Hall. rewrite Hlongest.
    destruct (longest_fold_bounds chronological 0 0 ltac:(lia)) as [_ Hseg].
    apply (Hseg l1 seg l2 Heq Hall).
Qed.

Lemma calculateStreak_longest_is_max_run_witness :
  rev (Arr.sort Progress.newest_first example2) =
    firstn 3 example2 ++ firstn 5 (skipn 3 example2) ++ skipn 8 example2 /\
  forallb completed (firstn 5 (skipn 3 example2)) = true /\
  run_length (firstn 5 (skipn 3 example2)) <=
    Progress.longestStreak (Progress.calculateStreak (Some example2)).
Proof.
  split; [reflexivity|]. split; [reflexivity|].
  exact (proj2 (proj2 (proj2 (proj1 calculateStreak_longest_is_max_run example2)))
           (firstn 3 example2) (firstn 5 (skipn 3 example2)) (skipn 8 example2)
           eq_refl eq_refl).
Defined.

(** ** Completion percentage *)

Lemma completion_percentage_counts (h : habit) (c t : Z) :
  completedDays h = Some (JS.of_Z c) -> totalDays h = Some (JS.of_Z t) ->
  Progress.calculateCompletionPercentage (Some h) =
    if t =? 0 then JS.of_Z 0
    else JS.min (JS.round (JS.mul (JS.div (JS.of_Z c) (JS.of_Z t)) (JS.of_Z 100)))
                (JS.of_Z 100).
Proof.
  intros Hc Ht. unfold Progress.calculateCompletionPercentage.
  rewrite Hc, Ht. cbn [Progress.is_zero Progress.to_number].
  replace (JS.eqb (JS.of_Z t) (JS.of_Z 0)) with (t =? 0); [reflexivity|].
  unfold JS.eqb, JS.of_Z. apply eq_true_iff_eq.
  rewrite Z.eqb_eq, Qeq_bool_iff. unfold Qeq. simpl. lia.
Qed.

Lemma scaled_quotient_nonneg (c t : Z) :
  0 <= c -> 0 < t ->
  nonneg (JS.mul (JS.div (JS.of_Z c) (JS.of_Z t)) (JS.of_Z 100)).
Proof.
  intros Hc Ht. apply times100_nonneg. rewrite div_counts by exact Ht.
  apply fl_nonneg, quotient_nonneg; assumption.
Qed.

Lemma completion_percentage_range (h : habit) (c t : Z) :
  0 <= c -> 0 <= t ->
  completedDays h = Some (JS.of_Z c) -> totalDays h = Some (JS.of_Z t) ->
  exists p, Progress.calculateCompletionPercentage (Some h) = JS.of_Z p /\
            0 <= p <= 100.
Proof.
  intros Hc0 Ht0 Hc Ht. rewrite (completion_percentage_counts h c t Hc Ht).
  destruct (Z.eqb_spec t 0) as [->|Hne]; [exists 0; split; [reflexivity | lia]|].
  apply percentage_shape, scaled_quotient_nonneg; lia.
Qed.

(** C9.  For a habit whose counters are integers that are not
    negative, [calculateCompletionPercentage] returns the quotient
    times 100, rounded and capped at 100, computed on doubles; it
    returns 0 for an absent habit and for a [totalDays] of 0.  The
    result is an integer between 0 and 100, also when [completedDays]
    exceeds [totalDays], and for a fixed [totalDays] it does not
    decrease when [completedDays] grows.  Seven completed days out of
    ten give 70. *)
Theorem calculateCompletionPercentage_bounded_monotone :
  Progress.calculateCompletionPercentage None = JS.of_Z 0 /\
  (forall h c t,
     0 <= c -> 0 <= t ->
     completedDays h = Some (JS.of_Z c) -> totalDays h = Some (JS.of_Z t) ->
     Progress.calculateCompletionPercentage (Some h) =
       (if t =? 0 then JS.of_Z 0
        else JS.min (JS.round (JS.mul (JS.div (JS.of_Z c) (JS.of_Z t)) (JS.of_Z 100)))
                    (JS.of_Z 100)) /\
     (exists p, Progress.calculateCompletionPercentage (Some h) = JS.of_Z p /\
                0 <= p <= 100) /\
     (forall h' c',
        c <= c' ->
        completedDays h' = Some (JS.of_Z c') -> totalDays h' = Some (JS.of_Z t) ->
        JS.leb (Progress.calculateCompletionPercentage (Some h))
               (Progress.calculateCompletionPercentage (Some h')) = true)) /\
  (forall h,
     completedDays h = Some (JS.of_Z 7) -> totalDays h = Some (JS.of_Z 10) ->
     Progress.calculateCompletionPercentage (Some h) = JS.of_Z 70).
Proof.
  split; [reflexivity|]. split.
  - intros h c t Hc0 Ht0 Hc Ht.
    split; [apply completion_percentage_counts; assumption|].
    split; [apply (completion_percentage_range h c t); assumption|].
    intros h' c' Hcc Hc' Ht'.
    rewrite (completion_percentage_counts h c t Hc Ht),
            (completion_percentage_counts h' c' t Hc' Ht').
    destruct (Z.eqb_spec t 0) as [->|Hne]; [reflexivity|].
    assert (Hpos : 0 < t) by lia.
    apply percentage_mono; [apply scaled_quotient_nonneg; assumption|].
    apply times100_mono.
    + rewrite div_counts by exact Hpos. apply fl_nonneg, quotient_nonneg; assumption.
    + rewrite !div_counts by exact Hpos.
      apply fl_mono; [apply quotient_nonneg | apply quotient_mono]; assumption.
  - intros h Hc Ht. rewrite (completion_percentage_counts h 7 10 Hc Ht).
    vm_compute. reflexivity.
Qed.

Lemma calculateCompletionPercentage_bounded_monotone_witness :
  0 <= 29 /\ 0 <= 200 /\
  Progress.calculateCompletionPercentage
    (Some (mkHabit "h" None None None (Some 0) (Some (JS.of_Z 29)) (Some (JS.of_Z 200))
                   None false None)) = JS.of_Z 14.
Proof.
  split; [lia|]. split; [lia|].
  rewrite (proj1 (proj1 (proj2 calculateCompletionPercentage_bounded_monotone)
                    (mkHabit "h" None None None (Some 0) (Some (JS.of_Z 29))
                             (Some (JS.of_Z 200)) None false None)
                    29 200 ltac:(lia) ltac:(lia) eq_refl eq_refl)).
  vm_compute. reflexivity.
Defined.

(** ** Defaults and ranges of the progress functions *)

Lemma weekly_rate_range (now : Z) (l : option (list entry)) (weeksBack : Z) :
  exists w, Progress.calculateWeeklyCompletionRate now l weeksBack = JS.of_Z w /\
            0 <= w <= 100.
Proof.
  unfold Progress.calculateWeeklyCompletionRate.
  destruct l as [[|e l]|]; try (exists 0; split; [reflexivity | lia]).
  cbv zeta.
  set (recent := if Progress.valid_time _ then _ else _).
  destruct recent as [|e' r'] eqn:Hrecent; [exists 0; split; [reflexivity | lia]|].
  apply ratio_percentage; [apply filter_length_le | simpl; lia].
Qed.

Lemma current_streak_flag (l : option (list entry)) :
  Progress.currentStreak (Progress.calculateStreak l) = 0 \/
  Progress.currentStreak (Progress.calculateStreak l) = 1.
Proof.
  destruct l as [[|e r]|]; try (left; reflexivity).
  unfold Progress.calculateStreak. cbv zeta. cbn [Progress.currentStreak].
  rewrite current_loop_newest.
  destruct (Arr.sort Progress.newest_first (e :: r)) as [|x s]; [left; reflexivity|].
  destruct (completed x); [right | left]; reflexivity.
Qed.

Local Open Scope Q_scope.

(** The weighted sum of [calculateConsistencyScore] on two rates
    between 0 and 100 and a streak of 0 or 1. *)
Lemma weighted_score_range (p w cs : Z) :
  (0 <= p <= 100)%Z -> (0 <= w <= 100)%Z -> (cs = 0 \/ cs = 1)%Z ->
  exists s,
    JS.round
      (JS.add
         (JS.add (JS.mul (JS.of_Z p) (JS.lit (4 # 10)))
                 (JS.mul (JS.of_Z w) (JS.lit (3 # 10))))
         (JS.mul (JS.min (JS.mul (JS.of_Z cs) (JS.of_Z 5)) (JS.of_Z 30))
                 (JS.lit (3 # 10)))) = JS.of_Z s /\
    (0 <= s <= 100)%Z.
Proof.
  intros Hp Hw Hcs.
  assert (L4 : JS.lit (4 # 10) = JS.Fin (3602879701896397 # 9007199254740992))
    by (vm_compute; reflexivity).
  assert (L3 : JS.lit (3 # 10) = JS.Fin (5404319552844595 # 18014398509481984))
    by (vm_compute; reflexivity).
  rewrite L4, L3.
  destruct (mul_below (inject_Z p) (3602879701896397 # 9007199254740992)
              (inject_Z 100) 40) as (r1 & H1 & H10 & H11);
    [rewrite <- (Zle_Qle 0); lia | rewrite <- Zle_Qle; lia | discriminate
     | vm_compute; reflexivity |].
  destruct (mul_below (inject_Z w) (5404319552844595 # 18014398509481984)
              (inject_Z 100) 30) as (r2 & H2 & H20 & H21);
    [rewrite <- (Zle_Qle 0); lia | rewrite <- Zle_Qle; lia | discriminate
     | vm_compute; reflexivity |].
  assert (H3 : exists r3,
    JS.mul (JS.min (JS.mul (JS.of_Z cs) (JS.of_Z 5)) (JS.of_Z 30))
           (JS.Fin (5404319552844595 # 18014398509481984)) = JS.Fin r3 /\
    0 <= r3 /\ r3 <= 9).
  { destruct Hcs as [->| ->]; eexists; (split; [vm_compute; reflexivity|]);
      split; discriminate. }
  destruct H3 as (r3 & H3 & H30 & H31).
  unfold JS.of_Z at 1 2. rewrite H1, H2, H3.
  destruct (add_below r1 r2 40 30 70 H10 H11 H20 H21) as (r12 & H12 & H120 & H121);
    [vm_compute; reflexivity|].
  rewrite H12.
  destruct (add_below r12 r3 70 9 79 H120 H121 H30 H31) as (r & Hr & Hr0 & Hr1);
    [vm_compute; reflexivity|].
  rewrite Hr.
  destruct (round_below r 79 Hr0 Hr1) as (s & Hs & Hs0).
  exists s. split; [exact Hs | lia].
Qed.

Local Close Scope Q_scope.

(** Without [totalDays], or without [completedDays], the division
    yields NaN; no guard of the progress functions looks at it. *)
Lemma missing_counter_gives_NaN :
  (forall i n f t c cd hist ic lu,
     Progress.calculateCompletionPercentage
       (Some (mkHabit i n f t c cd None hist ic lu)) = JS.NaN) /\
  (forall i n f t c hist ic lu,
     Progress.calculateCompletionPercentage
       (Some (mkHabit i n f t c None (Some (JS.of_Z 10)) hist ic lu)) = JS.NaN) /\
  (forall now i n f t c cd e l ic lu,
     Progress.calculateConsistencyScore now
       (Some (mkHabit i n f t c cd None (Some (e :: l)) ic lu)) =
     Progress.mkConsistency JS.NaN "Needs Improvement").
Proof.
  assert (Hp : forall i n f t c cd hist ic lu,
    Progress.calculateCompletionPercentage
      (Some (mkHabit i n f t c cd None hist ic lu)) = JS.NaN).
  { intros. unfold Progress.calculateCompletionPercentage. simpl.
    destruct cd as [[| | |q]|]; reflexivity. }
  split; [exact Hp|]. split.
  - intros. reflexivity.
  - intros. unfold Progress.calculateConsistencyScore.
    cbn [completionHistory]. rewrite Hp. reflexivity.
Qed.

(** A counter that is missing, where no guard returns before the
    division, makes the percentage NaN. *)
Lemma missing_counter_NaN (h : habit) :
  totalDays h = None \/
  (completedDays h = None /\ Progress.is_zero (totalDays h) = false) ->
  Progress.calculateCompletionPercentage (Some h) = JS.NaN.
Proof.
  unfold Progress.calculateCompletionPercentage. intros [Ht|[Hc Hz]].
  - rewrite Ht. simpl. destruct (completedDays h) as [[| | |q]|]; reflexivity.
  - rewrite Hz, Hc. simpl. destruct (totalDays h) as [[| | |q]|]; reflexivity.
Qed.

(** C4, as stated, fails: for a habit whose counters are missing and
    whose history has one entry, [calculateCompletionPercentage] does
    not return 0 and [calculateConsistencyScore] does not return a
    score of 0 rated ['No Data']. *)
Lemma progress_defaults_counterexample :
  Progress.calculateCompletionPercentage (Some habit_without_counters) <> JS.of_Z 0 /\
  Progress.calculateConsistencyScore 0 (Some habit_without_counters) <>
    Progress.mkConsistency (JS.of_Z 0) "No Data".
Proof.
  unfold habit_without_counters. split.
  - rewrite (proj1 missing_counter_gives_NaN). discriminate.
  - rewrite (proj2 (proj2 missing_counter_gives_NaN)). discriminate.
Qed.

(** C4, amended.  On a habit that is absent, or whose history is absent
    or an array of entries, no step of a progress function throws: the
    six functions are total, and each returns its zero or empty
    default on the input it guards.  These are 0 from
    [calculateCompletionPercentage] for an absent habit or a
    [totalDays] of 0; no streak and a rate of 0 from [calculateStreak]
    and [calculateWeeklyCompletionRate] for an absent or empty
    history; a score of 0 rated ['No Data'] from
    [calculateConsistencyScore] for an absent habit or an absent or
    empty history; no insight and no recommendation from
    [getProgressInsights] for an absent habit, which otherwise returns
    one to three insights and at most four recommendations; and the
    colour of the lowest tier from [getProgressColor], which always
    returns one of its three colours, for NaN.  A counter that is
    missing is not guarded: without [totalDays], or without
    [completedDays] when [totalDays] is not 0,
    [calculateCompletionPercentage] returns NaN, and
    [calculateConsistencyScore] then returns, on a history with
    entries, a score of NaN rated ['Needs Improvement'].  For a habit
    whose counters are integers that are not negative,
    [calculateCompletionPercentage] returns an integer between 0 and
    100 and [calculateConsistencyScore] a score that is an integer
    between 0 and 100, never NaN, rated ['No Data'] exactly when the
    history is absent or empty. *)
Theorem progress_defaults_and_ranges :
  Progress.calculateCompletionPercentage None = JS.of_Z 0 /\
  (forall h, totalDays h = Some (JS.of_Z 0) ->
     Progress.calculateCompletionPercentage (Some h) = JS.of_Z 0) /\
  Progress.calculateStreak None = Progress.mkStreak 0 0 /\
  Progress.calculateStreak (Some []) = Progress.mkStreak 0 0 /\
  (forall now weeksBack,
     Progress.calculateWeeklyCompletionRate now None weeksBack = JS.of_Z 0 /\
     Progress.calculateWeeklyCompletionRate now (Some []) weeksBack = JS.of_Z 0) /\
  (forall now,
     Progress.calculateConsistencyScore now None =
     Progress.mkConsistency (JS.of_Z 0) "No Data") /\
  (forall now h,
     completionHistory h = None \/ completionHistory h = Some [] ->
     Progress.calculateConsistencyScore now (Some h) =
     Progress.mkConsistency (JS.of_Z 0) "No Data") /\
  (forall now,
     Progress.getProgressInsights now None = Progress.mkInsights [] []) /\
  (forall now h,
     (1 <= length (Progress.insights (Progress.getProgressInsights now (Some h))) <= 3)%nat /\
     (length (Progress.recommendations (Progress.getProgressInsights now (Some h))) <= 4)%nat) /\
  Progress.getProgressColor JS.NaN = "#FF6B6B"%string /\
  (forall percentage,
     In (Progress.getProgressColor percentage)
        ["#4ECDC4"; "#FFE66D"; "#FF6B6B"]%string) /\
  (forall h,
     totalDays h = None \/
     (completedDays h = None /\ Progress.is_zero (totalDays h) = false) ->
     Progress.calculateCompletionPercentage (Some h) = JS.NaN /\
     forall now e l,
       completionHistory h = Some (e :: l) ->
       Progress.calculateConsistencyScore now (Some h) =
       Progress.mkConsistency JS.NaN "Needs Improvement") /\
  (forall now h c t,
     0 <= c -> 0 <= t ->
     completedDays h = Some (JS.of_Z c) -> totalDays h = Some (JS.of_Z t) ->
     (exists p, Progress.calculateCompletionPercentage (Some h) = JS.of_Z p /\
                0 <= p <= 100) /\
     (exists s, Progress.score (Progress.calculateConsistencyScore now (Some h)) =
                  JS.of_Z s /\ 0 <= s <= 100) /\
     (Progress.rating (Progress.calculateConsistencyScore now (Some h)) =
        "No Data"%string <->
      completionHistory h = None \/ completionHistory h = Some [])).
Proof.
  split; [reflexivity|]. split.
  { intros h Ht. unfold Progress.calculateCompletionPercentage. rewrite Ht. reflexivity. }
  split; [reflexivity|]. split; [reflexivity|]. split; [split; reflexivity|].
  split; [reflexivity|]. split.
  { intros now h [Hh|Hh]; unfold Progress.calculateConsistencyScore; rewrite Hh;
      reflexivity. }
  split; [reflexivity|]. split.
  { intros now h. unfold Progress.getProgressInsights. cbv zeta.
    cbn [Progress.insights Progress.recommendations].
    rewrite !length_app. cbn [length].
    repeat match goal with |- context [if ?b then _ else _] => destruct b end;
      cbn [length]; lia. }
  split; [reflexivity|]. split.
  { intros percentage. unfold Progress.getProgressColor.
    destruct (JS.geb percentage (JS.of_Z 80)); [left; reflexivity|].
    destruct (JS.geb percentage (JS.of_Z 50)); [right; left; reflexivity|].
    right; right; left; reflexivity. }
  split.
  { intros h Hmissing.
    assert (Hp : Progress.calculateCompletionPercentage (Some h) = JS.NaN)
      by (apply missing_counter_NaN, Hmissing).
    split; [exact Hp|].
    intros now e l Hh. unfold Progress.calculateConsistencyScore.
    rewrite Hh, Hp. reflexivity. }
  intros now h c t Hc0 Ht0 Hc Ht.
  pose proof (completion_percentage_range h c t Hc0 Ht0 Hc Ht) as Hrange.
  split; [exact Hrange|].
  unfold Progress.calculateConsistencyScore.
  destruct (completionHistory h) as [[|e l]|] eqn:Hh.
  - split; [exists 0; split; [reflexivity | lia]|].
    split; [intros _; right; reflexivity | reflexivity].
  - cbv zeta. cbn [Progress.score Progress.rating].
    destruct Hrange as (p & -> & Hp).
    destruct (weekly_rate_range now (Some (e :: l)) 4) as (w & -> & Hw).
    destruct (weighted_score_range p w _ Hp Hw (current_streak_flag (Some (e :: l))))
      as (s & -> & Hs).
    split; [exists s; split; [reflexivity | exact Hs]|].
    split; [|intros [H|H]; discriminate].
    repeat match goal with |- context [if ?b then _ else _] => destruct b end;
      discriminate.
  - split; [exists 0; split; [reflexivity | lia]|].
    split; [intros _; left; reflexivity | reflexivity].
Qed.

Lemma progress_defaults_and_ranges_witness :
  0 <= 7 /\ 0 <= 10 /\
  exists p,
    Progress.calculateCompletionPercentage
      (Some (mkHabit "h" None None None (Some 0) (Some (JS.of_Z 7)) (Some (JS.of_Z 10))
                     (Some example2) false None)) = JS.of_Z p /\
    0 <= p <= 100.
Proof.
  split; [lia|]. split; [lia|].
  destruct progress_defaults_and_ranges
    as (_ & _ & _ & _ & _ & _ & _ & _ & _ & _ & _ & _ & H).
  exact (proj1 (H 0 (mkHabit "h" None None None (Some 0) (Some (JS.of_Z 7))
                            (Some (JS.of_Z 10)) (Some example2) false None)
                  7 10 ltac:(lia) ltac:(lia) eq_refl eq_refl)).
Defined.

(** ** The habit store *)

Lemma validateStoredData_envelope (hs : list habit) (now : Z) :
  validateStoredData (mkStored (Some hs) (Some now) (Some DEFAULT_VERSION)) =
  forallb validateHabit hs.
Proof.
  unfold validateStoredData, validateStoredData_errors. simpl.
  rewrite !Nat.add_0_r.
  induction hs as [|h r IH]; simpl; [reflexivity|].
  destruct (validateHabit h); simpl; [exact IH | reflexivity].
Qed.

Lemma validateStoredData_habits (d : stored_data) (hs : list habit) :
  validateStoredData d = true -> habits d = Some hs ->
  forallb validateHabit hs = true.
Proof.
  unfold validateStoredData, validateStoredData_errors. intros Hv Hh.
  rewrite Hh in Hv. apply Nat.eqb_eq in Hv.
  assert (Hf : length (filter (fun h => negb (validateHabit h)) hs) = O) by lia.
  clear Hv Hh. induction hs as [|h r IH]; simpl in *; [reflexivity|].
  destruct (validateHabit h); simpl in *; [auto | discriminate].
Qed.

Lemma getHabits_valid (now : Z) (st : Storage.storage) :
  forallb validateHabit (Storage.getHabits now st) = true.
Proof.
  unfold Storage.getHabits, Storage.getStorageData.
  destruct (st STORAGE_KEYS_HABITS) as [[|[d|]]|]; try reflexivity.
  destruct (validateStoredData d) eqn:Hv; [|reflexivity].
  destruct (habits d) as [hs|] eqn:Hh; [|reflexivity].
  eapply validateStoredData_habits; eassumption.
Qed.

Lemma saveHabits_result (now : Z) (w : bool) (hs : list habit) (st : Storage.storage) :
  Storage.saveHabits now w hs st =
  if forallb validateHabit hs && w
  then (true,
        Storage.setItem STORAGE_KEYS_HABITS
          (Storage.Envelope (mkStored (Some hs) (Some now) (Some DEFAULT_VERSION))) st)
  else (false, st).
Proof.
  unfold Storage.saveHabits. cbv zeta. rewrite validateStoredData_envelope.
  destruct (forallb validateHabit hs); [|reflexivity].
  destruct w; reflexivity.
Qed.

Lemma getHabits_setItem (now now' : Z) (hs : list habit) (st : Storage.storage) :
  forallb validateHabit hs = true ->
  Storage.getHabits now'
    (Storage.setItem STORAGE_KEYS_HABITS
       (Storage.Envelope (mkStored (Some hs) (Some now) (Some DEFAULT_VERSION))) st) = hs.
Proof.
  intros Hv. unfold Storage.getHabits, Storage.getStorageData, Storage.setItem.
  rewrite String.eqb_refl. rewrite validateStoredData_envelope, Hv. reflexivity.
Qed.

Lemma created_valid (now : Z) (fresh : string) (d : habit_data) :
  validateHabit (created now fresh d) = validateHabitCreation d.
Proof.
  unfold validateHabit, validateHabit_errors, validateHabitCreation, created. simpl.
  destruct (name_error (dataName d)); simpl; [reflexivity|].
  destruct (frequency_error (dataFrequency d)); reflexivity.
Qed.

(** C5.  With an empty name [addHabit] returns [null] and the store is
    left as it was, whatever it held: the name is refused when the
    collection is validated for the write.  In general [addHabit]
    returns either [null], with the store untouched, or the habit it
    created, which is then the last of the persisted collection; it
    returns [null] whenever the store refuses the write, and the
    created habit whenever name and frequency are well formed and the
    store accepts the write. *)
Theorem addHabit_created_or_null :
  (forall now w fresh targetTime st,
     Storage.addHabit now w fresh
       (Some (mkData (Some ""%string) (Some "daily"%string) targetTime)) st =
     (None, st)) /\
  (forall now w fresh habitData st,
     Storage.addHabit now w fresh habitData st = (None, st) \/
     exists d,
       habitData = Some d /\ w = true /\
       fst (Storage.addHabit now w fresh habitData st) = Some (created now fresh d) /\
       forall now',
         Storage.getHabits now' (snd (Storage.addHabit now w fresh habitData st)) =
         Storage.getHabits now st ++ [created now fresh d]) /\
  (forall now fresh habitData st,
     Storage.addHabit now false fresh habitData st = (None, st)) /\
  (forall now fresh d st,
     validateHabitCreation d = true ->
     fst (Storage.addHabit now true fresh (Some d) st) = Some (created now fresh d)).
Proof.
  assert (Hgen : forall now w fresh d st,
    Storage.addHabit now w fresh (Some d) st =
    if validateHabitCreation d && w
    then (Some (created now fresh d),
          Storage.setItem STORAGE_KEYS_HABITS
            (Storage.Envelope
               (mkStored (Some (Storage.getHabits now st ++ [created now fresh d]))
                         (Some now) (Some DEFAULT_VERSION))) st)
    else (None, st)).
  { intros. unfold Storage.addHabit. cbv zeta. fold (created now fresh d).
    rewrite saveHabits_result, forallb_app, getHabits_valid. simpl forallb.
    rewrite andb_true_r, created_valid. cbn [andb].
    destruct (validateHabitCreation d && w); reflexivity. }
  split; [|split; [|split]].
  - intros. rewrite Hgen. reflexivity.
  - intros now w fresh [d|] st; [|left; reflexivity].
    rewrite Hgen. destruct (validateHabitCreation d) eqn:Hd; [|left; reflexivity].
    destruct w; [|left; reflexivity].
    right. exists d. simpl. repeat split.
    intros now'. apply getHabits_setItem.
    rewrite forallb_app, getHabits_valid. simpl. rewrite created_valid, Hd. reflexivity.
  - intros now fresh [d|] st; [|reflexivity].
    rewrite Hgen, andb_false_r. reflexivity.
  - intros now fresh d st Hd. rewrite Hgen, Hd. reflexivity.
Qed.

Lemma addHabit_created_or_null_witness :
  validateHabitCreation (mkData (Some "Read"%string) (Some "daily"%string) None) = true /\
  fst (Storage.addHabit 1000 true "u1"
         (Some (mkData (Some "Read"%string) (Some "daily"%string) None)) empty_store) =
  Some (created 1000 "u1" (mkData (Some "Read"%string) (Some "daily"%string) None)).
Proof.
  split; [reflexivity|].
  apply (proj2 (proj2 (proj2 addHabit_created_or_null))). reflexivity.
Defined.

(** *** Array helpers *)

Lemma findIndex_Some {A : Type} (p : A -> bool) (l : list A) (i : nat) :
  Arr.findIndex p l = Some i ->
  exists l1 x l2,
    l = l1 ++ x :: l2 /\ length l1 = i /\ p x = true /\ filter p l1 = [] /\
    forall v, Arr.set_nth i v l = l1 ++ v :: l2.
Proof.
  revert i; induction l as [|y r IH]; intros i; simpl; [discriminate|].
  destruct (p y) eqn:Hy.
  - intros [= <-]. exists [], y, r. repeat split; auto.
  - destruct (Arr.findIndex p r) as [j|]; [|discriminate].
    intros [= <-]. destruct (IH j eq_refl) as (l1 & x & l2 & -> & Hlen & Hx & Hf & Hset).
    exists (y :: l1), x, l2. simpl. rewrite Hy, Hlen.
    repeat split; auto. intros v. rewrite Hset. reflexivity.
Qed.

Lemma findIndex_None {A : Type} (p : A -> bool) (l : list A) :
  Arr.findIndex p l = None -> filter p l = [].
Proof.
  induction l as [|y r IH]; simpl; [reflexivity|].
  destruct (p y); [discriminate|].
  destruct (Arr.findIndex p r); [discriminate | exact IH].
Qed.

Lemma find_middle {A : Type} (p : A -> bool) (l1 l2 : list A) (x : A) :
  filter p l1 = [] -> p x = true -> find p (l1 ++ x :: l2) = Some x.
Proof.
  induction l1 as [|a r IH]; simpl; intros Hf Hx; [rewrite Hx; reflexivity|].
  destruct (p a); [discriminate | apply IH; assumption].
Qed.

Lemma forallb_middle {A : Type} (p : A -> bool) (l1 l2 : list A) (x v : A) :
  forallb p (l1 ++ x :: l2) = true -> p v = true ->
  forallb p (l1 ++ v :: l2) = true.
Proof.
  rewrite !forallb_app. simpl. intros H Hv.
  apply andb_prop in H as [H1 H2]. apply andb_prop in H2 as [_ H2].
  rewrite H1, Hv, H2. reflexivity.
Qed.

(** *** Today's entry *)

Lemma entries_on_stable (day : Z) (l : list entry) :
  entries_on day (Arr.sort Storage.oldest_first l) = entries_on day l.
Proof.
  unfold entries_on. apply sort_filter_stable.
  intros x y Hx Hy. apply Z.eqb_eq in Hx, Hy.
  unfold Storage.oldest_first, Progress.date_ms. rewrite Hx, Hy. lia.
Qed.

(** Today's entries after the update: the target, followed by the
    entries for today the history had beyond its first one. *)
Lemma updated_history_today (now : Z) (target : bool) (h : habit) :
  entries_on (Storage.today now) (Storage.updated_history now target h) =
  mkEntry (Storage.today now) target ::
  tl (entries_on (Storage.today now) (Storage.history_or_empty h)).
Proof.
  unfold Storage.updated_history. cbv zeta. rewrite entries_on_stable.
  set (day := Storage.today now). set (hist := Storage.history_or_empty h).
  unfold entries_on.
  destruct (Arr.findIndex (fun e => date e =? day) hist) as [i|] eqn:Hi.
  - destruct (findIndex_Some _ _ _ Hi) as (l1 & x & l2 & Heq & _ & Hx & Hf & Hset).
    rewrite Hset, Heq, !filter_app. simpl. rewrite Hx, Hf, Z.eqb_refl. reflexivity.
  - rewrite filter_app, (findIndex_None _ _ Hi). simpl. rewrite Z.eqb_refl. reflexivity.
Qed.

Lemma updated_history_today_unique (now : Z) (target : bool) (h : habit) :
  (length (entries_on (Storage.today now) (Storage.history_or_empty h)) <= 1)%nat ->
  entries_on (Storage.today now) (Storage.updated_history now target h) =
  [mkEntry (Storage.today now) target].
Proof.
  intros Hone. rewrite updated_history_today. f_equal.
  destruct (entries_on (Storage.today now) (Storage.history_or_empty h)) as [|a [|b r]];
    simpl in *; try reflexivity; lia.
Qed.

Lemma updated_history_again (now now2 : Z) (target : bool) (h h' : habit) :
  Storage.today now2 = Storage.today now ->
  completionHistory h' = Some (Storage.updated_history now target h) ->
  Storage.updated_history now2 target h' = Storage.updated_history now target h.
Proof.
  intros Hday Hh'.
  pose proof (updated_history_today now target h) as Htoday.
  set (hist' := Storage.updated_history now target h) in *.
  assert (Hsorted : StronglySorted (fun a b => Storage.oldest_first a b <= 0) hist').
  { apply sort_sorted; cbv beta;
      unfold Storage.oldest_first, Progress.date_ms, Progress.MS_PER_DAY; intros; lia. }
  unfold Storage.updated_history at 1. cbv zeta.
  unfold Storage.history_or_empty. rewrite Hh', Hday.
  destruct (Arr.findIndex (fun e => date e =? Storage.today now) hist') as [i|] eqn:Hi.
  - destruct (findIndex_Some _ _ _ Hi) as (l1 & x & l2 & Heq & _ & Hx & Hf & Hset).
    rewrite Hset.
    assert (Hxe : x = mkEntry (Storage.today now) target).
    { unfold entries_on in Htoday. rewrite Heq, filter_app in Htoday.
      simpl in Htoday. rewrite Hx, Hf in Htoday. simpl in Htoday.
      injection Htoday as Hxe _. exact Hxe. }
    rewrite <- Hxe, <- Heq. apply sort_fixpoint, Hsorted.
  - apply findIndex_None in Hi. unfold entries_on in Htoday.
    rewrite Hi in Htoday. discriminate.
Qed.

(** *** Validity of what is written *)

Lemma counter_nonneg (z : Z) : 0 <= z -> bad_counter (Some (JS.of_Z z)) = false.
Proof.
  intros Hz. unfold bad_counter, JS.ltb, JS.of_Z, JS.leb.
  apply negb_false_iff, Qle_bool_iff.
  rewrite (Zle_Qle 0 z) in Hz. exact Hz.
Qed.

Lemma validateHabit_fields (h : habit) :
  validateHabit h =
  negb (name_error (name h)) && negb (frequency_error (frequency h)) &&
  negb (bad_counter (completedDays h)) && negb (bad_counter (totalDays h)) &&
  match completionHistory h with Some _ => true | None => false end.
Proof.
  unfold validateHabit, validateHabit_errors.
  destruct (name_error (name h)), (frequency_error (frequency h)),
    (bad_counter (completedDays h)), (bad_counter (totalDays h)),
    (completionHistory h); reflexivity.
Qed.

Lemma count_completed_nonneg (l : list entry) : 0 <= Storage.count_completed l.
Proof. unfold Storage.count_completed. lia. Qed.

Lemma updated_habit_valid (now : Z) (target : bool) (h : habit) :
  validateHabit h = true -> validateHabit (Storage.updated_habit now target h) = true.
Proof.
  rewrite !validateHabit_fields. unfold Storage.updated_habit. cbv zeta.
  cbn [name frequency completedDays totalDays completionHistory].
  rewrite !andb_true_iff. intros [[[[Hn Hf] _] _] _].
  rewrite Hn, Hf. unfold JS.of_nat.
  rewrite counter_nonneg by apply count_completed_nonneg.
  rewrite max_count_counter by lia. auto.
Qed.

Lemma recalculated_valid (now : Z) (h : habit) :
  validateHabit h = true -> validateHabit (Storage.recalculated now h) = true.
Proof.
  rewrite !validateHabit_fields. unfold Storage.recalculated. cbv zeta.
  cbn [name frequency completedDays totalDays completionHistory].
  rewrite !andb_true_iff. intros [[[[Hn Hf] _] _] Hh].
  rewrite Hn, Hf. unfold JS.of_nat.
  rewrite counter_nonneg by apply count_completed_nonneg.
  rewrite max_count_counter by lia. auto.
Qed.

(** [updateHabitCompletion] writes the collection with the first habit
    of that identifier replaced, and succeeds exactly when there is
    such a habit and the store accepts the write. *)
Lemma updateHabitCompletion_result (now : Z) (w : bool) (habitId : string)
    (target : bool) (st : Storage.storage) :
  (stored_habit now st habitId = None /\
   Storage.updateHabitCompletion now w habitId target st = (false, st)) \/
  (exists l1 h l2,
     Storage.getHabits now st = l1 ++ h :: l2 /\
     stored_habit now st habitId = Some h /\
     String.eqb (id h) habitId = true /\
     filter (fun x => String.eqb (id x) habitId) l1 = [] /\
     forallb validateHabit (l1 ++ Storage.updated_habit now target h :: l2) = true /\
     Storage.updateHabitCompletion now w habitId target st =
     if w
     then (true,
           Storage.setItem STORAGE_KEYS_HABITS
             (Storage.Envelope
                (mkStored (Some (l1 ++ Storage.updated_habit now target h :: l2))
                          (Some now) (Some DEFAULT_VERSION))) st)
     else (false, st)).
Proof.
  unfold Storage.updateHabitCompletion, stored_habit. cbv zeta.
  pose proof (getHabits_valid now st) as Hvalid.
  set (hs := Storage.getHabits now st) in *.
  destruct (Arr.findIndex (fun h => String.eqb (id h) habitId) hs) as [i|] eqn:Hi.
  - right. destruct (findIndex_Some _ _ _ Hi) as (l1 & h & l2 & Heq & Hlen & Hh & Hf & Hset).
    exists l1, h, l2.
    assert (Hv' : forallb validateHabit
                    (l1 ++ Storage.updated_habit now target h :: l2) = true).
    { rewrite Heq in Hvalid. eapply forallb_middle; [exact Hvalid|].
      apply updated_habit_valid. rewrite forallb_app in Hvalid. simpl in Hvalid.
      apply andb_prop in Hvalid as [_ Hvalid]. apply andb_prop in Hvalid as [Hvalid _].
      exact Hvalid. }
    repeat split; auto.
    + rewrite Heq. apply find_middle; assumption.
    + rewrite Heq at 1. rewrite <- Hlen.
      replace (nth_error (l1 ++ h :: l2) (length l1)) with (Some h).
      * rewrite Hlen, Hset, saveHabits_result, Hv'. destruct w; reflexivity.
      * clear. induction l1; simpl; auto.
  - left. split; [|reflexivity].
    apply findIndex_None in Hi. clear Hvalid.
    induction hs as [|y r IH]; simpl in *; [reflexivity|].
    destruct (String.eqb (id y) habitId); [discriminate | auto].
Qed.

Lemma sample_store_dated (now : Z) : Forall dated (Storage.getHabits now sample_store).
Proof.
  assert (Hg : Storage.getHabits now sample_store = [other_habit; sample_habit])
    by reflexivity.
  rewrite Hg. repeat constructor; discriminate.
Qed.

(** C1 fails as it stands.  A history that holds two entries for today
    still holds two after the update.  A habit without creation date,
    which [validateHabit] accepts, gets NaN as its [totalDays]: the
    text written holds [null] in its place, and the habit read from
    it does not pass [validateHabit], so that no habit is stored
    under the identifier afterwards. *)
Lemma updateHabitCompletion_sets_today_counterexample :
  (exists h' history',
     stored_habit 90000000 doubled_store "h1" = Some doubled_habit /\
     written_habits
       (snd (Storage.updateHabitCompletion 90000000 true "h1" true doubled_store)) =
       Some [h'] /\
     completionHistory h' = Some history' /\
     entries_on (Storage.today 90000000) history' =
       [mkEntry 1 true; mkEntry 1 true] /\
     length (entries_on (Storage.today 90000000) history') <> 1%nat) /\
  (exists h',
     stored_habit 90000000 undated_store "h1" = Some undated_habit /\
     Storage.updateHabitCompletion 90000000 true "h1" true undated_store =
       (true,
        snd (Storage.updateHabitCompletion 90000000 true "h1" true undated_store)) /\
     written_habits
       (snd (Storage.updateHabitCompletion 90000000 true "h1" true undated_store)) =
       Some [h'] /\
     totalDays h' = Some JS.NaN /\
     validateHabit (as_json h') = false).
Proof.
  split.
  - exists (Storage.updated_habit 90000000 true doubled_habit),
           [mkEntry 1 true; mkEntry 1 true].
    vm_compute. repeat split; try reflexivity. discriminate.
  - exists (Storage.updated_habit 90000000 true undated_habit).
    split; [reflexivity|]. split; [reflexivity|].
    vm_compute. repeat split; reflexivity.
Qed.

(** C1.  When the stored collection has a habit with the given
    identifier, this habit has a creation date and at most one entry
    for today in its history, and the store accepts the write,
    [updateHabitCompletion] succeeds, and the habit then stored under
    that identifier has exactly one entry for today, with the target
    flag.  Its [completedDays] is the number of completed entries of
    the new history, its [totalDays] is the larger of the length of
    the new history and the days since creation (on spans of less than
    [2^26] days the integer quotient of the elapsed milliseconds by
    the milliseconds of a day, plus one, and the text written then
    holds the habit as it is), and its [isCompleted] is the target.  A second call on the same day with the same target leaves
    the history as it is. *)
Theorem updateHabitCompletion_sets_today :
  forall now habitId target st h c,
    stored_habit now st habitId = Some h ->
    createdAt h = Some c ->
    (length (entries_on (Storage.today now) (Storage.history_or_empty h)) <= 1)%nat ->
    let st' := snd (Storage.updateHabitCompletion now true habitId target st) in
    fst (Storage.updateHabitCompletion now true habitId target st) = true /\
    exists h' history',
      (forall now', stored_habit now' st' habitId = Some h') /\
      completionHistory h' = Some history' /\
      entries_on (Storage.today now) history' = [mkEntry (Storage.today now) target] /\
      completedDays h' =
        Some (JS.of_Z (Z.of_nat (length (filter completed history')))) /\
      totalDays h' =
        Some (JS.max (JS.of_nat (length history')) (Storage.daysSinceCreation now h)) /\
      (0 <= now - c < 2 ^ 26 * 86400000 ->
       totalDays h' =
         Some (JS.of_Z (Z.max (Z.of_nat (length history'))
                              ((now - c) / 86400000 + 1))) /\
       as_json h' = h') /\
      isCompleted h' = target /\
      forall now2 w2 h2,
        Storage.today now2 = Storage.today now ->
        stored_habit now2
          (snd (Storage.updateHabitCompletion now2 w2 habitId target st')) habitId =
          Some h2 ->
        completionHistory h2 = Some history'.
Proof.
  intros now habitId target st h c Hh Hc Hone st'.
  destruct (updateHabitCompletion_result now true habitId target st)
    as [[Hnone _]|(l1 & h0 & l2 & Heq & Hsome & Hid & Hf & Hv & Hres)].
  { rewrite Hnone in Hh. discriminate. }
  rewrite Hsome in Hh. injection Hh as ->.
  subst st'. rewrite Hres. simpl fst. simpl snd. split; [reflexivity|].
  set (h' := Storage.updated_habit now target h) in *.
  set (st' := Storage.setItem _ _ st).
  assert (Hget : forall now', Storage.getHabits now' st' = l1 ++ h' :: l2).
  { intros now'. apply getHabits_setItem, Hv. }
  assert (Hstored : forall now', stored_habit now' st' habitId = Some h').
  { intros now'. unfold stored_habit. rewrite Hget. apply find_middle; [exact Hf|].
    exact Hid. }
  exists h', (Storage.updated_history now target h).
  split; [exact Hstored|].
  split; [reflexivity|].
  split; [apply updated_history_today_unique, Hone|].
  split; [reflexivity|].
  split; [reflexivity|].
  split.
  { intros Hspan. subst h'. unfold Storage.updated_habit, as_json. cbv zeta.
    cbn [id name frequency targetTime createdAt completedDays totalDays
         completionHistory isCompleted lastUpdated].
    unfold JS.of_nat.
    rewrite (totalDays_on_doubles now c _ h Hc Hspan). split; reflexivity. }
  split; [reflexivity|].
  intros now2 w2 h2 Hday Hh2.
  destruct (updateHabitCompletion_result now2 w2 habitId target st')
    as [[Hnone _]|(k1 & g & k2 & Heq2 & Hsome2 & Hid2 & Hf2 & Hv2 & Hres2)].
  { rewrite Hstored in Hnone. discriminate. }
  rewrite Hstored in Hsome2. injection Hsome2 as <-.
  rewrite Hres2 in Hh2. destruct w2; simpl snd in Hh2.
  - unfold stored_habit in Hh2. rewrite getHabits_setItem in Hh2 by exact Hv2.
    rewrite find_middle in Hh2 by assumption. injection Hh2 as <-.
    simpl. f_equal. apply (updated_history_again now now2 target h h'); auto.
  - rewrite Hstored in Hh2. injection Hh2 as <-. reflexivity.
Qed.

Lemma updateHabitCompletion_sets_today_witness :
  stored_habit 90000000 sample_store "h1" = Some sample_habit /\
  createdAt sample_habit = Some 0 /\
  (length (entries_on (Storage.today 90000000)
             (Storage.history_or_empty sample_habit)) <= 1)%nat /\
  fst (Storage.updateHabitCompletion 90000000 true "h1" true sample_store) = true.
Proof.
  assert (H1 : stored_habit 90000000 sample_store "h1" = Some sample_habit)
    by reflexivity.
  assert (H2 : createdAt sample_habit = Some 0) by reflexivity.
  assert (H3 : (length (entries_on (Storage.today 90000000)
                          (Storage.history_or_empty sample_habit)) <= 1)%nat)
    by (vm_compute; lia).
  split; [exact H1|]. split; [exact H2|]. split; [exact H3|].
  exact (proj1 (updateHabitCompletion_sets_today
                  90000000 "h1" true sample_store sample_habit 0 H1 H2 H3)).
Defined.

(** C10.  When [updateHabitCompletion] succeeds, the collection it
    writes has the length and the order of the stored one: position by
    position, a habit with another identifier is the habit stored
    before, and every habit, the targeted one included, keeps its
    [id], [name], [frequency], [targetTime] and [createdAt].  When the
    targeted habit has a creation date, this collection is what
    [getHabits] returns afterwards. *)
Theorem updateHabitCompletion_frame :
  forall now w habitId target st st',
    Storage.updateHabitCompletion now w habitId target st = (true, st') ->
    exists written,
      written_habits st' = Some written /\
      length written = length (Storage.getHabits now st) /\
      Forall2
        (fun h h' =>
           (id h <> habitId -> h' = h) /\
           id h' = id h /\ name h' = name h /\ frequency h' = frequency h /\
           targetTime h' = targetTime h /\ createdAt h' = createdAt h)
        (Storage.getHabits now st) written /\
      ((forall h, stored_habit now st habitId = Some h -> createdAt h <> None) ->
       forall now', Storage.getHabits now' st' = written).
Proof.
  intros now w habitId target st st' Hupd.
  destruct (updateHabitCompletion_result now w habitId target st)
    as [[_ Hres]|(l1 & h & l2 & Heq & _ & Hid & _ & Hv & Hres)];
    rewrite Hres in Hupd; [discriminate|].
  destruct w; [|discriminate]. injection Hupd as <-.
  exists (l1 ++ Storage.updated_habit now target h :: l2).
  split; [reflexivity|].
  rewrite Heq.
  split; [rewrite !length_app; reflexivity|].
  split.
  - assert (Hrefl : forall l : list habit,
      Forall2 (fun h h' =>
                 (id h <> habitId -> h' = h) /\
                 id h' = id h /\ name h' = name h /\ frequency h' = frequency h /\
                 targetTime h' = targetTime h /\ createdAt h' = createdAt h) l l).
    { induction l; constructor; auto. repeat split; reflexivity. }
    apply Forall2_app; [apply Hrefl|].
    constructor; [|apply Hrefl].
    apply String.eqb_eq in Hid.
    split; [intros Hne; contradiction|]. repeat split; reflexivity.
  - intros _ now'. apply getHabits_setItem, Hv.
Qed.

Lemma updateHabitCompletion_frame_witness :
  exists st',
    Storage.updateHabitCompletion 90000000 true "h1" true sample_store = (true, st') /\
    exists written,
      written_habits st' = Some written /\
      length written = length (Storage.getHabits 90000000 sample_store).
Proof.
  set (st' := snd (Storage.updateHabitCompletion 90000000 true "h1" true sample_store)).
  assert (H : Storage.updateHabitCompletion 90000000 true "h1" true sample_store =
              (true, st')) by reflexivity.
  exists st'. split; [exact H|].
  destruct (updateHabitCompletion_frame 90000000 true "h1" true sample_store st' H)
    as (written & Hw & Hlen & _).
  exists written. split; [exact Hw | exact Hlen].
Defined.

(** *** Recalculation *)

Lemma find_today_unique (day : Z) (l : list entry) :
  (length (entries_on day l) <= 1)%nat ->
  (match find (fun e => date e =? day) l with
   | Some e => completed e
   | None => false
   end = true <->
   In (mkEntry day true) l).
Proof.
  unfold entries_on. induction l as [|e r IH]; simpl; intros Hone.
  - split; [discriminate | intros []].
  - destruct (date e =? day) eqn:Hd.
    + apply Z.eqb_eq in Hd. simpl in Hone.
      assert (Hnil : filter (fun e0 => date e0 =? day) r = []).
      { destruct (filter (fun e0 => date e0 =? day) r); [reflexivity | simpl in Hone; lia]. }
      split.
      * intros Hc. left. destruct e as [d c]; simpl in *. subst. reflexivity.
      * intros [Heq|Hin]; [subst e; reflexivity|].
        assert (Hin' : In (mkEntry day true) (filter (fun e0 => date e0 =? day) r)).
        { apply filter_In. split; [exact Hin | apply Z.eqb_refl]. }
        rewrite Hnil in Hin'. destruct Hin'.
    + rewrite (IH Hone). split; [intros H; right; exact H|].
      intros [Heq|Hin]; [|exact Hin].
      subst e. simpl in Hd. rewrite Z.eqb_refl in Hd. discriminate.
Qed.

Lemma find_first_entry (day : Z) (l : list entry) :
  find (fun e => date e =? day) l = hd_error (entries_on day l).
Proof.
  unfold entries_on. induction l as [|e r IH]; simpl; [reflexivity|].
  destruct (date e =? day); [reflexivity | exact IH].
Qed.

(** C3 fails as it stands.  With two entries for today of which only
    the second is completed, the recalculated [isCompleted] is [false]
    although the history has a completed entry for today.  For a habit
    without creation date, which [validateHabit] accepts, the
    recalculated [totalDays] is NaN, which [completedDays] is not
    below. *)
Lemma recalculateAllHabitsProgress_in_sync_counterexample :
  (exists h',
     Storage.getHabits 90000000 doubled_store = [doubled_habit] /\
     written_habits
       (snd (Storage.recalculateAllHabitsProgress 90000000 true doubled_store)) =
       Some [h'] /\
     isCompleted h' = false /\
     In (mkEntry (Storage.today 90000000) true) (Storage.history_or_empty h') /\
     ~ (isCompleted h' = true <->
        In (mkEntry (Storage.today 90000000) true) (Storage.history_or_empty h'))) /\
  (exists h' count,
     Storage.getHabits 90000000 undated_store = [undated_habit] /\
     written_habits
       (snd (Storage.recalculateAllHabitsProgress 90000000 true undated_store)) =
       Some [h'] /\
     completedDays h' = Some count /\
     totalDays h' = Some JS.NaN /\
     JS.leb count JS.NaN = false).
Proof.
  split.
  - exists (Storage.recalculated 90000000 doubled_habit).
    assert (Hin : In (mkEntry (Storage.today 90000000) true)
                    (Storage.history_or_empty
                       (Storage.recalculated 90000000 doubled_habit)))
      by (right; left; reflexivity).
    split; [reflexivity|]. split; [reflexivity|]. split; [reflexivity|].
    split; [exact Hin|].
    intros [_ H]. specialize (H Hin). discriminate H.
  - exists (Storage.recalculated 90000000 undated_habit), (JS.of_Z 1).
    vm_compute. repeat split; reflexivity.
Qed.

(** C3.  When every habit of the validated collection the store holds
    has a creation date, [recalculateAllHabitsProgress] succeeds when
    the store accepts the write, and every habit it persists then has
    [completedDays] equal to the number of completed entries of its
    history and not above its [totalDays], which is the larger of the
    length of the history and the days since creation (on spans of
    less than [2^26] days the text written holds the habit as it is).
    Its [isCompleted] is the flag of the first entry for today, [false]
    when there is none: when the history has at most one entry for
    today, [isCompleted] is true exactly when the history has a
    completed entry for today. *)
Theorem recalculateAllHabitsProgress_in_sync :
  forall now st,
    Forall dated (Storage.getHabits now st) ->
    let st' := snd (Storage.recalculateAllHabitsProgress now true st) in
    fst (Storage.recalculateAllHabitsProgress now true st) = true /\
    forall now',
      length (Storage.getHabits now' st') = length (Storage.getHabits now st) /\
      Forall
        (fun h' =>
           exists history count total,
             completionHistory h' = Some history /\
             count = Z.of_nat (length (filter completed history)) /\
             completedDays h' = Some (JS.of_Z count) /\
             totalDays h' = Some total /\
             total = JS.max (JS.of_nat (length history))
                            (Storage.daysSinceCreation now h') /\
             (forall c,
                createdAt h' = Some c -> 0 <= now - c < 2 ^ 26 * 86400000 ->
                total = JS.of_Z (Z.max (Z.of_nat (length history))
                                       ((now - c) / 86400000 + 1)) /\
                as_json h' = h') /\
             JS.leb (JS.of_Z count) total = true /\
             isCompleted h' = first_flag (entries_on (Storage.today now) history) /\
             ((length (entries_on (Storage.today now) history) <= 1)%nat ->
              (isCompleted h' = true <->
               In (mkEntry (Storage.today now) true) history)))
        (Storage.getHabits now' st').
Proof.
  intros now st Hdated st'. subst st'.
  pose proof (getHabits_valid now st) as Hvalid.
  unfold Storage.recalculateAllHabitsProgress. cbv zeta.
  set (hs := Storage.getHabits now st) in *.
  assert (Hv' : forallb validateHabit (map (Storage.recalculated now) hs) = true).
  { rewrite forallb_forall in *. intros h' Hin.
    apply in_map_iff in Hin as (h & <- & Hin). apply recalculated_valid, Hvalid, Hin. }
  rewrite saveHabits_result, Hv'. simpl. split; [reflexivity|].
  intros now'. rewrite getHabits_setItem by exact Hv'.
  split; [apply length_map|].
  apply Forall_forall. intros h' Hin.
  apply in_map_iff in Hin as (h & <- & Hin).
  rewrite forallb_forall in Hvalid. specialize (Hvalid h Hin).
  rewrite Forall_forall in Hdated. specialize (Hdated h Hin). unfold dated in Hdated.
  rewrite validateHabit_fields, !andb_true_iff in Hvalid.
  destruct Hvalid as [_ Hh].
  destruct (createdAt h) as [c0|] eqn:Hc0; [clear Hdated | contradiction].
  assert (Hdays : Storage.daysSinceCreation now (Storage.recalculated now h) =
                  Storage.daysSinceCreation now h) by reflexivity.
  rewrite Hdays.
  unfold Storage.recalculated, as_json. cbv zeta.
  cbn [id name frequency targetTime createdAt completedDays totalDays
       completionHistory isCompleted lastUpdated].
  unfold Storage.history_or_empty, Storage.count_completed.
  destruct (completionHistory h) as [history|]; [|discriminate].
  exists history. do 2 eexists.
  split; [reflexivity|]. split; [reflexivity|]. split; [reflexivity|].
  split; [reflexivity|]. split; [reflexivity|].
  pose proof (filter_length_le completed history) as Hle.
  split.
  { intros c Hc Hspan. rewrite Hc0 in Hc. injection Hc as ->. unfold JS.of_nat.
    rewrite (totalDays_on_doubles now c _ h Hc0 Hspan). split; reflexivity. }
  split.
  { unfold JS.of_nat. apply leb_max_count; [lia|].
    apply (daysSinceCreation_number now c0 h Hc0). }
  split; [unfold first_flag; rewrite find_first_entry; reflexivity|].
  apply find_today_unique.
Qed.

Lemma recalculateAllHabitsProgress_in_sync_witness :
  Forall dated (Storage.getHabits 90000000 sample_store) /\
  fst (Storage.recalculateAllHabitsProgress 90000000 true sample_store) = true /\
  length (Storage.getHabits 0
            (snd (Storage.recalculateAllHabitsProgress 90000000 true sample_store))) =
  2%nat.
Proof.
  assert (Hd : Forall dated (Storage.getHabits 90000000 sample_store))
    by apply sample_store_dated.
  split; [exact Hd|]. split.
  - exact (proj1 (recalculateAllHabitsProgress_in_sync 90000000 sample_store Hd)).
  - exact (proj1 (proj2 (recalculateAllHabitsProgress_in_sync 90000000 sample_store Hd) 0)).
Defined.

(** ** Achievements *)

Lemma check_fold (stats : Achievements.user_stats) (cur : list string)
    (l : list Achievements.achievement) :
  forall unlocked fresh,
    fold_left (Achievements.check_one stats cur) l (unlocked, fresh) =
    (unlocked ++
       map Achievements.id (filter (fun a => Achievements.condition a stats) l),
     fresh ++
       filter (fun a => Achievements.condition a stats &&
                        negb (Str.includes (Achievements.id a) cur)) l).
Proof.
  induction l as [|a r IH]; intros unlocked fresh; simpl.
  - rewrite !app_nil_r. reflexivity.
  - destruct (Achievements.condition a stats); simpl.
    + rewrite IH.
      destruct (Str.includes (Achievements.id a) cur); simpl;
        rewrite <- !app_assoc; reflexivity.
    + apply IH.
Qed.

Lemma checkAchievements_filter (habits : list habit) (cur : list string) :
  Achievements.checkAchievements habits cur =
  let stats := Achievements.calculateUserStats habits in
  Achievements.mkCheck
    (filter (fun a => Achievements.condition a stats &&
                      negb (Str.includes (Achievements.id a) cur))
            Achievements.ACHIEVEMENTS)
    (map Achievements.id
         (filter (fun a => Achievements.condition a stats) Achievements.ACHIEVEMENTS))
    stats.
Proof.
  unfold Achievements.checkAchievements. cbv zeta. rewrite check_fold. reflexivity.
Qed.

Lemma includes_In (x : string) (l : list string) :
  In x l -> Str.includes x l = true.
Proof.
  intros Hin. unfold Str.includes. apply existsb_exists.
  exists x. split; [exact Hin | apply String.eqb_refl].
Qed.

(** C7.  For every habit list, checking again with the achievements
    the first check found unlocked reports no new achievement.  What
    is unlocked does not depend on the achievements passed in, and the
    check is a function of its two arguments: two evaluations on the
    same arguments give the same result. *)
Theorem checkAchievements_idempotent :
  forall (habits : list habit) (cur : list string),
    Achievements.newAchievements
      (Achievements.checkAchievements habits
         (Achievements.allUnlocked (Achievements.checkAchievements habits []))) = [] /\
    Achievements.allUnlocked (Achievements.checkAchievements habits cur) =
      Achievements.allUnlocked (Achievements.checkAchievements habits []) /\
    Achievements.userStats (Achievements.checkAchievements habits cur) =
      Achievements.calculateUserStats habits /\
    Achievements.checkAchievements habits cur = Achievements.checkAchievements habits cur.
Proof.
  intros habits cur. rewrite !checkAchievements_filter. cbv zeta.
  cbn [Achievements.newAchievements Achievements.allUnlocked Achievements.userStats].
  split; [|repeat split].
  set (stats := Achievements.calculateUserStats habits).
  generalize Achievements.ACHIEVEMENTS. intros catalog.
  assert (H : forall l,
    (forall a, In a l -> In a catalog) ->
    filter (fun a => Achievements.condition a stats &&
              negb (Str.includes (Achievements.id a)
                      (map Achievements.id
                         (filter (fun a0 => Achievements.condition a0 stats) catalog))))
           l = []).
  { induction l as [|a r IH]; intros Hsub; simpl; [reflexivity|].
    destruct (Achievements.condition a stats) eqn:Hc; simpl.
    - rewrite includes_In.
      + simpl. apply IH. intros b Hb. apply Hsub. right. exact Hb.
      + apply in_map, filter_In. split; [apply Hsub; left; reflexivity | exact Hc].
    - apply IH. intros b Hb. apply Hsub. right. exact Hb. }
  apply H. auto.
Qed.

(** ** Repair of duplicate identifiers *)

(** C8.  On three habits with the identifiers a, a, b that are valid
    otherwise, [validateDataIntegrity] reports one issue, the
    duplicate a with severity high, and [fixDataIntegrity] gives the
    second habit a new identifier and leaves the two others alone.
    The repair keeps a habit only at index 0, though: on the
    identifiers b, a, a the same issue is reported and both habits
    named a get a new identifier, the first occurrence included. *)
Theorem fixDataIntegrity_duplicates :
  (Synchronizer.issues
     (Synchronizer.validateDataIntegrity
        [plain_habit "a"; plain_habit "a"; plain_habit "b"]) =
     [duplicate_issue ["a"%string]] /\
   forall uuid h1 h2 h3,
     Synchronizer.fixDataIntegrity uuid
       [Synchronizer.with_id h1 "a"; Synchronizer.with_id h2 "a";
        Synchronizer.with_id h3 "b"]
       [duplicate_issue ["a"%string]] =
     [Synchronizer.with_id h1 "a"; Synchronizer.with_id h2 (uuid O);
      Synchronizer.with_id h3 "b"]) /\
  (Synchronizer.issues
     (Synchronizer.validateDataIntegrity
        [plain_habit "b"; plain_habit "a"; plain_habit "a"]) =
     [duplicate_issue ["a"%string]] /\
   forall uuid h1 h2 h3,
     Synchronizer.fixDataIntegrity uuid
       [Synchronizer.with_id h1 "b"; Synchronizer.with_id h2 "a";
        Synchronizer.with_id h3 "a"]
       [duplicate_issue ["a"%string]] =
     [Synchronizer.with_id h1 "b"; Synchronizer.with_id h2 (uuid O);
      Synchronizer.with_id h3 (uuid 1%nat)]).
Proof.
  repeat split; try (vm_compute; reflexivity); intros; reflexivity.
Qed.

(** * Further properties of the store *)

Lemma saveHabits_other_keys (now : Z) (w : bool) (hs : list habit)
    (st : Storage.storage) (key : string) :
  key <> STORAGE_KEYS_HABITS ->
  snd (Storage.saveHabits now w hs st) key = st key.
Proof.
  intros Hk. rewrite saveHabits_result.
  destruct (forallb validateHabit hs && w); [|reflexivity].
  simpl. unfold Storage.setItem.
  destruct (String.eqb_spec key STORAGE_KEYS_HABITS); [contradiction | reflexivity].
Qed.

(** X1.  [saveHabits] succeeds exactly when every habit passes
    [validateHabit] and the store accepts the write.  After a success
    [getHabits] returns the habits that were saved, provided their
    counters are finite, so that the JSON text holds them as they
    are; after a failure the store is as it was; the items under
    other keys are never touched. *)
Theorem saveHabits_getHabits_roundtrip :
  forall now w hs st,
    fst (Storage.saveHabits now w hs st) = (forallb validateHabit hs && w) /\
    (fst (Storage.saveHabits now w hs st) = true -> Forall json_habit hs ->
     forall now', Storage.getHabits now' (snd (Storage.saveHabits now w hs st)) = hs) /\
    (fst (Storage.saveHabits now w hs st) = false ->
     snd (Storage.saveHabits now w hs st) = st) /\
    (forall key, key <> STORAGE_KEYS_HABITS ->
     snd (Storage.saveHabits now w hs st) key = st key).
Proof.
  intros now w hs st.
  split; [|split; [|split]].
  - rewrite saveHabits_result. destruct (forallb validateHabit hs && w); reflexivity.
  - rewrite saveHabits_result.
    destruct (forallb validateHabit hs) eqn:Hv; [|discriminate].
    destruct w; [|discriminate]. intros _ _ now'. simpl.
    apply getHabits_setItem, Hv.
  - rewrite saveHabits_result.
    destruct (forallb validateHabit hs && w); [discriminate | reflexivity].
  - intros key Hk. apply saveHabits_other_keys, Hk.
Qed.

Lemma saveHabits_getHabits_roundtrip_witness :
  fst (Storage.saveHabits 5 true [sample_habit] empty_store) = true /\
  Storage.getHabits 9 (snd (Storage.saveHabits 5 true [sample_habit] empty_store)) =
  [sample_habit].
Proof.
  assert (H : fst (Storage.saveHabits 5 true [sample_habit] empty_store) = true)
    by reflexivity.
  assert (Hj : Forall json_habit [sample_habit])
    by (constructor; [split; exact I | constructor]).
  split; [exact H|].
  exact (proj1 (proj2 (saveHabits_getHabits_roundtrip 5 true [sample_habit] empty_store))
           H Hj 9).
Defined.

(** X2.  [getHabits] only returns habits that pass [validateHabit]: a
    stored envelope with one habit that fails it is read as the empty
    collection, and so is a key that is absent, a text that does not
    parse and a document that is no envelope. *)
Theorem getHabits_all_or_nothing :
  forall now st,
    forallb validateHabit (Storage.getHabits now st) = true /\
    (forall d hs h,
       st STORAGE_KEYS_HABITS = Some (Storage.Parsed (Storage.Envelope d)) ->
       habits d = Some hs -> In h hs -> validateHabit h = false ->
       Storage.getHabits now st = []) /\
    (forall d hs,
       st STORAGE_KEYS_HABITS = Some (Storage.Parsed (Storage.Envelope d)) ->
       habits d = Some hs -> forallb validateHabit hs = true ->
       envLastUpdated d <> None -> falsy_str (version d) = false ->
       Storage.getHabits now st = hs) /\
    (st STORAGE_KEYS_HABITS = None \/
     st STORAGE_KEYS_HABITS = Some Storage.Garbled \/
     st STORAGE_KEYS_HABITS = Some (Storage.Parsed Storage.Other) ->
     Storage.getHabits now st = []).
Proof.
  intros now st. split; [apply getHabits_valid|]. split; [|split].
  - intros d hs h Hst Hh Hin Hbad.
    unfold Storage.getHabits, Storage.getStorageData. rewrite Hst.
    destruct (validateStoredData d) eqn:Hv; [|reflexivity].
    pose proof (validateStoredData_habits d hs Hv Hh) as Hall.
    rewrite forallb_forall in Hall. rewrite (Hall h Hin) in Hbad. discriminate.
  - intros d hs Hst Hh Hall Hlast Hver.
    unfold Storage.getHabits, Storage.getStorageData. rewrite Hst.
    assert (Hv : validateStoredData d = true).
    { unfold validateStoredData, validateStoredData_errors. rewrite Hh, Hver.
      destruct (envLastUpdated d); [|contradiction].
      apply Nat.eqb_eq. rewrite !Nat.add_0_r.
      clear - Hall. induction hs as [|a r IH]; simpl in *; [reflexivity|].
      apply andb_prop in Hall as [Ha Hr]. rewrite Ha. simpl. apply IH, Hr. }
    rewrite Hv, Hh. reflexivity.
  - intros [H|[H|H]]; unfold Storage.getHabits, Storage.getStorageData; rewrite H;
      reflexivity.
Qed.

Lemma getHabits_all_or_nothing_witness :
  In nameless_habit [sample_habit; nameless_habit] /\
  validateHabit nameless_habit = false /\
  Storage.getHabits 0 poisoned_store = [].
Proof.
  assert (Hin : In nameless_habit [sample_habit; nameless_habit])
    by (right; left; reflexivity).
  split; [exact Hin|]. split; [reflexivity|].
  exact (proj1 (proj2 (getHabits_all_or_nothing 0 poisoned_store))
           _ _ nameless_habit eq_refl eq_refl Hin eq_refl).
Defined.

Lemma filter_all {A : Type} (q : A -> bool) (l : list A) :
  length (filter q l) = length l -> filter q l = l.
Proof.
  induction l as [|a r IH]; simpl; [reflexivity|].
  destruct (q a); simpl; intros H.
  - f_equal. apply IH. lia.
  - pose proof (filter_length_le q r). lia.
Qed.

Lemma filter_none_found {A : Type} (q : A -> bool) (l : list A) :
  find q (filter (fun x => negb (q x)) l) = None.
Proof.
  induction l as [|a r IH]; simpl; [reflexivity|].
  destruct (q a) eqn:Ha; simpl; [exact IH|]. rewrite Ha. exact IH.
Qed.

Lemma forallb_filter {A : Type} (p q : A -> bool) (l : list A) :
  forallb p l = true -> forallb p (filter q l) = true.
Proof.
  induction l as [|a r IH]; simpl; [reflexivity|].
  intros H. apply andb_prop in H as [Ha Hr].
  destruct (q a); simpl; [rewrite Ha|]; auto.
Qed.

Lemma deleteHabit_result (now : Z) (w : bool) (habitId : string)
    (st : Storage.storage) :
  Storage.deleteHabit now w habitId st =
  match stored_habit now st habitId with
  | None => (false, st)
  | Some _ =>
      if w
      then (true,
            Storage.setItem STORAGE_KEYS_HABITS
              (Storage.Envelope
                 (mkStored (Some (without habitId (Storage.getHabits now st)))
                           (Some now) (Some DEFAULT_VERSION))) st)
      else (false, st)
  end.
Proof.
  unfold Storage.deleteHabit, stored_habit. cbv zeta.
  fold (without habitId (Storage.getHabits now st)).
  pose proof (getHabits_valid now st) as Hv.
  set (hs := Storage.getHabits now st) in *.
  destruct (Nat.eqb_spec (length (without habitId hs)) (length hs)) as [Heq|Hne].
  - apply filter_all in Heq.
    assert (Hnone : find (fun h => String.eqb (id h) habitId) (without habitId hs) = None)
      by apply (filter_none_found (fun h => String.eqb (id h) habitId)).
    unfold without in *. rewrite Heq in Hnone. rewrite Hnone. reflexivity.
  - destruct (find (fun h => String.eqb (id h) habitId) hs) as [h|] eqn:Hf.
    + rewrite saveHabits_result. unfold without at 1.
      rewrite forallb_filter by exact Hv. destruct w; reflexivity.
    + exfalso. apply Hne. unfold without. f_equal.
      clear - Hf. induction hs as [|a r IH]; simpl in *; [reflexivity|].
      destruct (String.eqb (id a) habitId); [discriminate|]. simpl. f_equal. auto.
Qed.

(** X3.  [deleteHabit] fails, leaving the store as it was, when no
    stored habit has the identifier or the store refuses the write.
    When it succeeds the persisted collection is the former one, in
    its order, without every habit of that identifier: the identifier
    is no longer found and deleting it again fails. *)
Theorem deleteHabit_removes :
  forall now w habitId st,
    (stored_habit now st habitId = None ->
     Storage.deleteHabit now w habitId st = (false, st)) /\
    (fst (Storage.deleteHabit now w habitId st) = false ->
     snd (Storage.deleteHabit now w habitId st) = st) /\
    (fst (Storage.deleteHabit now w habitId st) = true ->
     w = true /\ stored_habit now st habitId <> None /\
     forall now',
       Storage.getHabits now' (snd (Storage.deleteHabit now w habitId st)) =
         without habitId (Storage.getHabits now st) /\
       stored_habit now' (snd (Storage.deleteHabit now w habitId st)) habitId = None /\
       forall w',
         Storage.deleteHabit now' w' habitId
           (snd (Storage.deleteHabit now w habitId st)) =
         (false, snd (Storage.deleteHabit now w habitId st))).
Proof.
  intros now w habitId st. rewrite deleteHabit_result.
  split; [intros ->; reflexivity|].
  destruct (stored_habit now st habitId) as [h|] eqn:Hs;
    [|split; [reflexivity | discriminate]].
  destruct w; [|split; [reflexivity | discriminate]].
  split; [discriminate|]. intros _. split; [reflexivity|]. split; [discriminate|].
  intros now'. simpl snd.
  assert (Hv : forallb validateHabit (without habitId (Storage.getHabits now st)) = true).
  { apply forallb_filter, getHabits_valid. }
  assert (Hget : forall t, Storage.getHabits t
                   (Storage.setItem STORAGE_KEYS_HABITS
                      (Storage.Envelope
                         (mkStored (Some (without habitId (Storage.getHabits now st)))
                                   (Some now) (Some DEFAULT_VERSION))) st) =
                 without habitId (Storage.getHabits now st)).
  { intros t. apply getHabits_setItem, Hv. }
  assert (Hnone : forall t, stored_habit t
                   (Storage.setItem STORAGE_KEYS_HABITS
                      (Storage.Envelope
                         (mkStored (Some (without habitId (Storage.getHabits now st)))
                                   (Some now) (Some DEFAULT_VERSION))) st) habitId = None).
  { intros t. unfold stored_habit. rewrite Hget.
    apply (filter_none_found (fun h => String.eqb (id h) habitId)). }
  split; [apply Hget|]. split; [apply Hnone|].
  intros w'. rewrite deleteHabit_result, Hnone. reflexivity.
Qed.

Lemma deleteHabit_removes_witness :
  fst (Storage.deleteHabit 7 true "h1" sample_store) = true /\
  Storage.getHabits 8 (snd (Storage.deleteHabit 7 true "h1" sample_store)) =
  [other_habit].
Proof.
  assert (H : fst (Storage.deleteHabit 7 true "h1" sample_store) = true) by reflexivity.
  split; [exact H|].
  destruct (proj2 (proj2 (deleteHabit_removes 7 true "h1" sample_store)) H)
    as (_ & _ & Hafter).
  rewrite (proj1 (Hafter 8)). reflexivity.
Defined.

(** *** Merging updates *)

Lemma updateHabit_result (now : Z) (w : bool) (habitId : string)
    (u : Storage.habit_updates) (st : Storage.storage) :
  (stored_habit now st habitId = None /\
   Storage.updateHabit now w habitId u st = (false, st)) \/
  (exists l1 h l2,
     Storage.getHabits now st = l1 ++ h :: l2 /\
     stored_habit now st habitId = Some h /\
     filter (fun x => String.eqb (id x) habitId) l1 = [] /\
     Storage.updateHabit now w habitId u st =
     if validateHabit (Storage.merged h u) && w
     then (true,
           Storage.setItem STORAGE_KEYS_HABITS
             (Storage.Envelope
                (mkStored (Some (l1 ++ Storage.merged h u :: l2))
                          (Some now) (Some DEFAULT_VERSION))) st)
     else (false, st)).
Proof.
  unfold Storage.updateHabit, stored_habit. cbv zeta.
  pose proof (getHabits_valid now st) as Hvalid.
  set (hs := Storage.getHabits now st) in *.
  destruct (Arr.findIndex (fun h => String.eqb (id h) habitId) hs) as [i|] eqn:Hi.
  - right. destruct (findIndex_Some _ _ _ Hi) as (l1 & h & l2 & Heq & Hlen & Hh & Hf & Hset).
    exists l1, h, l2. split; [exact Heq|].
    split; [rewrite Heq; apply find_middle; assumption|].
    split; [exact Hf|].
    rewrite Heq at 1. rewrite <- Hlen.
    replace (nth_error (l1 ++ h :: l2) (length l1)) with (Some h)
      by (clear; induction l1; simpl; auto).
    rewrite Hlen, Hset, saveHabits_result.
    rewrite Heq, forallb_app in Hvalid. simpl in Hvalid.
    apply andb_prop in Hvalid as [H1 H2]. apply andb_prop in H2 as [_ H2].
    rewrite forallb_app. simpl. rewrite H1, H2, andb_true_r. reflexivity.
  - left. split; [|reflexivity].
    apply findIndex_None in Hi. clear Hvalid.
    induction hs as [|y r IH]; simpl in *; [reflexivity|].
    destruct (String.eqb (id y) habitId); [discriminate | auto].
Qed.

(** X4.  [updateHabit] fails, leaving the store as it was, when no
    stored habit has the identifier, when the merged habit does not
    pass [validateHabit] or when the store refuses the write.  When it
    succeeds, the first habit of that identifier is replaced by the
    merge, in which every property the updates do not name is kept,
    and all other habits stay as they were, at their positions; the
    merge is read back as it is when its counters are finite. *)
Theorem updateHabit_merges :
  forall now w habitId u st,
    (stored_habit now st habitId = None ->
     Storage.updateHabit now w habitId u st = (false, st)) /\
    (forall h, stored_habit now st habitId = Some h ->
       fst (Storage.updateHabit now w habitId u st) =
       (validateHabit (Storage.merged h u) && w)) /\
    (fst (Storage.updateHabit now w habitId u st) = false ->
     snd (Storage.updateHabit now w habitId u st) = st) /\
    (fst (Storage.updateHabit now w habitId u st) = true ->
     exists l1 h l2,
       Storage.getHabits now st = l1 ++ h :: l2 /\
       stored_habit now st habitId = Some h /\
       (json_habit (Storage.merged h u) ->
        forall now',
          Storage.getHabits now' (snd (Storage.updateHabit now w habitId u st)) =
          l1 ++ Storage.merged h u :: l2)) /\
    (forall h,
       (Storage.u_id u = None -> id (Storage.merged h u) = id h) /\
       (Storage.u_name u = None -> name (Storage.merged h u) = name h) /\
       (Storage.u_frequency u = None ->
        frequency (Storage.merged h u) = frequency h) /\
       (Storage.u_targetTime u = None ->
        targetTime (Storage.merged h u) = targetTime h) /\
       (Storage.u_createdAt u = None ->
        createdAt (Storage.merged h u) = createdAt h) /\
       (Storage.u_completedDays u = None ->
        completedDays (Storage.merged h u) = completedDays h) /\
       (Storage.u_totalDays u = None ->
        totalDays (Storage.merged h u) = totalDays h) /\
       (Storage.u_completionHistory u = None ->
        completionHistory (Storage.merged h u) = completionHistory h) /\
       (Storage.u_isCompleted u = None ->
        isCompleted (Storage.merged h u) = isCompleted h) /\
       (Storage.u_lastUpdated u = None ->
        lastUpdated (Storage.merged h u) = lastUpdated h)).
Proof.
  intros now w habitId u st.
  destruct (updateHabit_result now w habitId u st)
    as [[Hnone Hres]|(l1 & h & l2 & Heq & Hsome & Hf & Hres)].
  - rewrite Hres. split; [reflexivity|].
    split; [intros h Hh; rewrite Hnone in Hh; discriminate|].
    split; [reflexivity|]. split; [discriminate|].
    intros h. unfold Storage.merged. simpl.
    repeat split; intros ->; reflexivity.
  - rewrite Hres. split; [intros Hn; rewrite Hsome in Hn; discriminate|].
    split.
    { intros h0 Hh0. rewrite Hsome in Hh0. injection Hh0 as <-.
      destruct (validateHabit (Storage.merged h u) && w); reflexivity. }
    split.
    { destruct (validateHabit (Storage.merged h u) && w); [discriminate | reflexivity]. }
    split.
    { destruct (validateHabit (Storage.merged h u)) eqn:Hv; [|discriminate].
      destruct w; [|discriminate]. intros _. exists l1, h, l2.
      split; [exact Heq|]. split; [exact Hsome|].
      intros _ now'. simpl snd. apply getHabits_setItem.
      pose proof (getHabits_valid now st) as Hvalid. rewrite Heq in Hvalid.
      eapply forallb_middle; eassumption. }
    intros h0. unfold Storage.merged. simpl.
    repeat split; intros ->; reflexivity.
Qed.

Lemma updateHabit_merges_witness :
  stored_habit 7 sample_store "h1" = Some sample_habit /\
  fst (Storage.updateHabit 7 true "h1" (rename_to "Write") sample_store) = true /\
  fst (Storage.updateHabit 7 true "h1" (rename_to EmptyString) sample_store) = false.
Proof.
  assert (H : stored_habit 7 sample_store "h1" = Some sample_habit) by reflexivity.
  split; [exact H|]. split.
  - rewrite (proj1 (proj2 (updateHabit_merges 7 true "h1" (rename_to "Write")
                             sample_store)) sample_habit H).
    reflexivity.
  - rewrite (proj1 (proj2 (updateHabit_merges 7 true "h1" (rename_to "")
                             sample_store)) sample_habit H).
    reflexivity.
Defined.

(** *** Unlocked achievements *)

Lemma includes_true (x : string) (l : list string) :
  Str.includes x l = true -> In x l.
Proof.
  unfold Str.includes. intros H. apply existsb_exists in H as (y & Hy & Heq).
  apply String.eqb_eq in Heq. subst y. exact Hy.
Qed.

(** X5.  [unlockAchievement] writes nothing when the identifier is
    already unlocked and otherwise appends it once at the end; a
    refused write leaves the list as it was.  After a success the
    identifier is unlocked, a list without repetition stays without
    repetition, and unlocking again changes nothing. *)
Theorem unlockAchievement_once :
  forall w a st,
    (In a (Unlocked.getUserAchievements st) ->
     Unlocked.unlockAchievement w a st = (true, st)) /\
    (~ In a (Unlocked.getUserAchievements st) ->
     fst (Unlocked.unlockAchievement w a st) = w /\
     Unlocked.getUserAchievements (snd (Unlocked.unlockAchievement w a st)) =
       if w then Unlocked.getUserAchievements st ++ [a]
       else Unlocked.getUserAchievements st) /\
    (fst (Unlocked.unlockAchievement w a st) = false ->
     snd (Unlocked.unlockAchievement w a st) = st) /\
    (fst (Unlocked.unlockAchievement w a st) = true ->
     In a (Unlocked.getUserAchievements (snd (Unlocked.unlockAchievement w a st))) /\
     (NoDup (Unlocked.getUserAchievements st) ->
      NoDup (Unlocked.getUserAchievements (snd (Unlocked.unlockAchievement w a st)))) /\
     forall w',
       Unlocked.unlockAchievement w' a (snd (Unlocked.unlockAchievement w a st)) =
       (true, snd (Unlocked.unlockAchievement w a st))).
Proof.
  intros w a st. unfold Unlocked.unlockAchievement. cbv zeta.
  destruct (Str.includes a (Unlocked.getUserAchievements st)) eqn:Hin; simpl negb; cbv iota.
  - apply includes_true in Hin. split; [reflexivity|].
    split; [intros Hn; contradiction|]. split; [discriminate|]. intros _.
    split; [exact Hin|]. split; [auto|].
    intros w'. simpl snd. rewrite (includes_In _ _ Hin). reflexivity.
  - assert (Hnot : ~ In a (Unlocked.getUserAchievements st)).
    { intros H. apply includes_In in H. congruence. }
    split; [intros H; contradiction|].
    unfold Unlocked.saveUserAchievements. destruct w; simpl.
    + split; [auto|]. split; [discriminate|]. intros _.
      split; [apply in_or_app; right; left; reflexivity|].
      split.
      * intros Hnd. apply NoDup_app; [exact Hnd | repeat constructor; intros [] |].
        intros x Hx [<-|[]]. contradiction.
      * intros w'. rewrite includes_In; [reflexivity|].
        apply in_or_app; right; left; reflexivity.
    + split; [auto|]. split; [reflexivity | discriminate].
Qed.

Lemma unlockAchievement_once_witness :
  Unlocked.getUserAchievements
    (snd (Unlocked.unlockAchievement true "first_steps" None)) =
  ["first_steps"%string].
Proof.
  assert (Hn : ~ In "first_steps"%string (Unlocked.getUserAchievements None))
    by (intros []).
  exact (proj2 (proj1 (proj2 (unlockAchievement_once true "first_steps" None)) Hn)).
Defined.

(** *** Adding and deleting *)

Lemma without_absent (habitId : string) (hs : list habit) :
  ~ In habitId (map id hs) -> without habitId hs = hs.
Proof.
  unfold without. induction hs as [|h r IH]; simpl; intros Hn; [reflexivity|].
  destruct (String.eqb_spec (id h) habitId) as [Heq|Hne]; simpl.
  - exfalso. apply Hn. left. exact Heq.
  - f_equal. apply IH. intros H. apply Hn. right. exact H.
Qed.

Lemma without_app (habitId : string) (l1 l2 : list habit) :
  without habitId (l1 ++ l2) = without habitId l1 ++ without habitId l2.
Proof. unfold without. apply filter_app. Qed.

(** X6.  A habit added under an identifier no stored habit carries is
    stored last, after the habits that were there, and deleting it
    again gives back the collection as it was before. *)
Theorem addHabit_then_deleteHabit :
  forall now now' fresh d st,
    validateHabitCreation d = true ->
    ~ In fresh (map id (Storage.getHabits now st)) ->
    let added := Storage.addHabit now true fresh (Some d) st in
    let deleted := Storage.deleteHabit now' true fresh (snd added) in
    fst added = Some (created now fresh d) /\
    (forall t, Storage.getHabits t (snd added) =
               Storage.getHabits now st ++ [created now fresh d]) /\
    fst deleted = true /\
    (forall t, Storage.getHabits t (snd deleted) = Storage.getHabits now st).
Proof.
  intros now now' fresh d st Hd Hfresh added deleted.
  assert (Hv : forallb validateHabit
                 (Storage.getHabits now st ++ [created now fresh d]) = true).
  { rewrite forallb_app, getHabits_valid. simpl. rewrite created_valid, Hd. reflexivity. }
  assert (Hadded : added =
    (Some (created now fresh d),
     Storage.setItem STORAGE_KEYS_HABITS
       (Storage.Envelope
          (mkStored (Some (Storage.getHabits now st ++ [created now fresh d]))
                    (Some now) (Some DEFAULT_VERSION))) st)).
  { subst added. unfold Storage.addHabit. cbv zeta.
    fold (created now fresh d). rewrite saveHabits_result, Hv. reflexivity. }
  assert (Hget : forall t, Storage.getHabits t (snd added) =
                           Storage.getHabits now st ++ [created now fresh d]).
  { intros t. rewrite Hadded. simpl snd. apply getHabits_setItem, Hv. }
  split; [rewrite Hadded; reflexivity|]. split; [exact Hget|].
  assert (Hstored : stored_habit now' (snd added) fresh = Some (created now fresh d)).
  { unfold stored_habit. rewrite Hget. apply find_middle.
    - apply without_absent in Hfresh. unfold without in Hfresh.
      revert Hfresh. generalize (Storage.getHabits now st).
      induction l as [|h r IH]; simpl; [reflexivity|].
      destruct (String.eqb (id h) fresh); simpl; intros H.
      + exfalso. pose proof (filter_length_le (fun h0 => negb (String.eqb (id h0) fresh)) r)
          as Hle. rewrite H in Hle. simpl in Hle. lia.
      + injection H as H. auto.
    - simpl. apply String.eqb_refl. }
  assert (Hwithout : without fresh (Storage.getHabits now' (snd added)) =
                     Storage.getHabits now st).
  { rewrite Hget, without_app, (without_absent _ _ Hfresh). unfold without. simpl.
    rewrite String.eqb_refl. simpl. apply app_nil_r. }
  subst deleted. rewrite deleteHabit_result, Hstored.
  split; [reflexivity|].
  intros t. simpl snd. rewrite Hwithout. apply getHabits_setItem, getHabits_valid.
Qed.

Lemma addHabit_then_deleteHabit_witness :
  Storage.getHabits 11
    (snd (Storage.deleteHabit 9 true "h3"
            (snd (Storage.addHabit 7 true "h3"
                    (Some (mkData (Some "Walk"%string) (Some "daily"%string) None))
                    sample_store)))) =
  Storage.getHabits 7 sample_store.
Proof.
  assert (Hd : validateHabitCreation
                 (mkData (Some "Walk"%string) (Some "daily"%string) None) = true)
    by reflexivity.
  assert (Hf : ~ In "h3"%string (map id (Storage.getHabits 7 sample_store))).
  { simpl. intros [H|[H|[]]]; discriminate. }
  exact (proj2 (proj2 (proj2 (addHabit_then_deleteHabit 7 9 "h3" _ sample_store Hd Hf)))
           11).
Defined.

(** *** Recalculation after an update *)

Lemma find_map_id (f : habit -> habit) (habitId : string) (l : list habit) :
  (forall h, id (f h) = id h) ->
  find (fun h => String.eqb (id h) habitId) (map f l) =
  option_map f (find (fun h => String.eqb (id h) habitId) l).
Proof.
  intros Hid. induction l as [|h r IH]; simpl; [reflexivity|].
  rewrite Hid. destruct (String.eqb (id h) habitId); [reflexivity | exact IH].
Qed.

Lemma recalculated_again (now : Z) (h : habit) :
  Storage.recalculated now (Storage.recalculated now h) = Storage.recalculated now h.
Proof. reflexivity. Qed.

Lemma recalculated_updated (now : Z) (target : bool) (h : habit) :
  Storage.recalculated now (Storage.updated_habit now target h) =
  Storage.updated_habit now target h.
Proof.
  unfold Storage.recalculated, Storage.updated_habit. cbv zeta.
  unfold Storage.history_or_empty, Storage.daysSinceCreation.
  cbn [completionHistory id name frequency targetTime createdAt].
  f_equal.
  rewrite find_first_entry.
  pose proof (updated_history_today now target h) as Ht.
  unfold entries_on in *. rewrite Ht. reflexivity.
Qed.

Lemma recalculateAllHabitsProgress_result (now : Z) (w : bool) (st : Storage.storage) :
  forallb validateHabit (map (Storage.recalculated now) (Storage.getHabits now st)) = true /\
  Storage.recalculateAllHabitsProgress now w st =
  if w
  then (true,
        Storage.setItem STORAGE_KEYS_HABITS
          (Storage.Envelope
             (mkStored (Some (map (Storage.recalculated now) (Storage.getHabits now st)))
                       (Some now) (Some DEFAULT_VERSION))) st)
  else (false, st).
Proof.
  assert (Hv : forallb validateHabit
                 (map (Storage.recalculated now) (Storage.getHabits now st)) = true).
  { pose proof (getHabits_valid now st) as Hvalid.
    rewrite forallb_forall in *. intros h' Hin.
    apply in_map_iff in Hin as (h & <- & Hin). apply recalculated_valid, Hvalid, Hin. }
  split; [exact Hv|].
  unfold Storage.recalculateAllHabitsProgress. cbv zeta.
  rewrite saveHabits_result, Hv. destruct w; reflexivity.
Qed.

(** X7.  On a stored collection whose habits all have a creation
    date, [recalculateAllHabitsProgress] is idempotent at one instant:
    a second run persists the collection the first one persisted.  It
    also agrees with [updateHabitCompletion]: run at the instant of a
    successful update, it leaves the updated habit exactly as the
    update wrote it. *)
Theorem recalculateAllHabitsProgress_fixpoint :
  (forall now st t,
     Forall dated (Storage.getHabits now st) ->
     let st1 := snd (Storage.recalculateAllHabitsProgress now true st) in
     Storage.getHabits t (snd (Storage.recalculateAllHabitsProgress now true st1)) =
     Storage.getHabits t st1) /\
  (forall now habitId target st t,
     Forall dated (Storage.getHabits now st) ->
     let st1 := snd (Storage.updateHabitCompletion now true habitId target st) in
     fst (Storage.updateHabitCompletion now true habitId target st) = true ->
     stored_habit t (snd (Storage.recalculateAllHabitsProgress now true st1)) habitId =
     stored_habit t st1 habitId /\
     stored_habit t st1 habitId <> None).
Proof.
  split.
  - intros now st t _ st1.
    destruct (recalculateAllHabitsProgress_result now true st1) as [Hv1 ->].
    destruct (recalculateAllHabitsProgress_result now true st) as [Hv0 Hr0].
    assert (Hget : forall t', Storage.getHabits t' st1 =
                     map (Storage.recalculated now) (Storage.getHabits now st)).
    { intros t'. subst st1. rewrite Hr0. simpl snd. apply getHabits_setItem, Hv0. }
    simpl snd. rewrite getHabits_setItem by exact Hv1.
    rewrite !Hget, map_map. apply map_ext. intros h. apply recalculated_again.
  - intros now habitId target st t _ st1 Hok.
    destruct (updateHabitCompletion_result now true habitId target st)
      as [[_ Hres]|(l1 & h & l2 & Heq & _ & Hid & Hf & Hv & Hres)];
      rewrite Hres in Hok; [discriminate|].
    assert (Hget : forall t', Storage.getHabits t' st1 =
                     l1 ++ Storage.updated_habit now target h :: l2).
    { intros t'. subst st1. rewrite Hres. simpl snd. apply getHabits_setItem, Hv. }
    assert (Hstored : forall t', stored_habit t' st1 habitId =
                                 Some (Storage.updated_habit now target h)).
    { intros t'. unfold stored_habit. rewrite Hget. apply find_middle; assumption. }
    destruct (recalculateAllHabitsProgress_result now true st1) as [Hv1 ->].
    simpl snd. rewrite Hstored. split; [|discriminate].
    unfold stored_habit at 1. rewrite getHabits_setItem by exact Hv1.
    rewrite find_map_id by reflexivity.
    fold (stored_habit now st1 habitId). rewrite Hstored. simpl.
    rewrite recalculated_updated. reflexivity.
Qed.

Lemma recalculateAllHabitsProgress_fixpoint_witness :
  Forall dated (Storage.getHabits 90000000 sample_store) /\
  stored_habit 0
    (snd (Storage.recalculateAllHabitsProgress 90000000 true
            (snd (Storage.updateHabitCompletion 90000000 true "h1" true sample_store))))
    "h1" =
  stored_habit 0
    (snd (Storage.updateHabitCompletion 90000000 true "h1" true sample_store)) "h1".
Proof.
  assert (Hd : Forall dated (Storage.getHabits 90000000 sample_store))
    by apply sample_store_dated.
  split; [exact Hd|].
  exact (proj1 (proj2 recalculateAllHabitsProgress_fixpoint
                  90000000 "h1"%string true sample_store 0 Hd eq_refl)).
Defined.

(** *** The history an update writes *)

Lemma oldest_first_sorted (l : list entry) :
  StronglySorted (fun a b => date a <= date b) (Arr.sort Storage.oldest_first l).
Proof.
  apply sort_sorted; cbv beta;
    unfold Storage.oldest_first, Progress.date_ms, Progress.MS_PER_DAY; intros; lia.
Qed.

Lemma set_nth_entries_other (day d : Z) (v : entry) (l : list entry) (i : nat) :
  Arr.findIndex (fun e => date e =? d) l = Some i -> date v = d -> day <> d ->
  entries_on day (Arr.set_nth i v l) = entries_on day l.
Proof.
  intros Hi Hv Hday.
  destruct (findIndex_Some _ _ _ Hi) as (l1 & x & l2 & -> & _ & Hx & _ & Hset).
  rewrite Hset. unfold entries_on. rewrite !filter_app. simpl.
  apply Z.eqb_eq in Hx.
  replace (date v =? day) with false by (symmetry; apply Z.eqb_neq; lia).
  replace (date x =? day) with false by (symmetry; apply Z.eqb_neq; lia).
  reflexivity.
Qed.

Lemma set_nth_dates (d : Z) (v : entry) (l : list entry) (i : nat) :
  Arr.findIndex (fun e => date e =? d) l = Some i -> date v = d ->
  map date (Arr.set_nth i v l) = map date l.
Proof.
  intros Hi Hv.
  destruct (findIndex_Some _ _ _ Hi) as (l1 & x & l2 & -> & _ & Hx & _ & Hset).
  rewrite Hset, !map_app. simpl. apply Z.eqb_eq in Hx. congruence.
Qed.

Lemma findIndex_absent (d : Z) (l : list entry) :
  Arr.findIndex (fun e => date e =? d) l = None -> ~ In d (map date l).
Proof.
  intros Hn Hin. apply findIndex_None in Hn.
  apply in_map_iff in Hin as (e & He & Hin).
  assert (H : In e (filter (fun e => date e =? d) l)).
  { apply filter_In. split; [exact Hin | apply Z.eqb_eq, He]. }
  rewrite Hn in H. exact H.
Qed.

(** X8.  The history a successful [updateHabitCompletion] stores for
    a habit with a creation date is in chronological order, keeps the
    entries of every other day as they were and in their order, and
    grows by one entry exactly when the history had none for today;
    dates that were unique stay unique. *)
Theorem updateHabitCompletion_history :
  forall now habitId target st h,
    stored_habit now st habitId = Some h ->
    dated h ->
    let st' := snd (Storage.updateHabitCompletion now true habitId target st) in
    let old := Storage.history_or_empty h in
    exists h' history',
      (forall t, stored_habit t st' habitId = Some h') /\
      completionHistory h' = Some history' /\
      StronglySorted (fun a b => date a <= date b) history' /\
      (forall day, day <> Storage.today now ->
         entries_on day history' = entries_on day old) /\
      length history' =
        (if is_nil (entries_on (Storage.today now) old)
         then S (length old) else length old) /\
      (NoDup (map date old) -> NoDup (map date history')).
Proof.
  intros now habitId target st h Hh _ st' old.
  destruct (updateHabitCompletion_result now true habitId target st)
    as [[Hnone _]|(l1 & h0 & l2 & Heq & Hsome & Hid & Hf & Hv & Hres)].
  { rewrite Hnone in Hh. discriminate. }
  rewrite Hsome in Hh. injection Hh as ->.
  exists (Storage.updated_habit now target h), (Storage.updated_history now target h).
  split.
  { intros t. subst st'. rewrite Hres. simpl snd. unfold stored_habit.
    rewrite getHabits_setItem by exact Hv. apply find_middle; assumption. }
  split; [reflexivity|].
  unfold Storage.updated_history. cbv zeta. fold old.
  split; [apply oldest_first_sorted|].
  set (today := Storage.today now).
  destruct (Arr.findIndex (fun e => date e =? today) old) as [i|] eqn:Hi.
  - split.
    { intros day Hday. rewrite entries_on_stable.
      apply (set_nth_entries_other day today); auto. }
    split.
    { rewrite (Permutation_length (sort_perm Storage.oldest_first _)).
      destruct (findIndex_Some _ _ _ Hi) as (k1 & x & k2 & Hold & _ & Hx & _ & Hset).
      rewrite Hset, Hold. unfold entries_on. rewrite filter_app. simpl. rewrite Hx.
      destruct (filter _ k1); simpl; rewrite !length_app; reflexivity. }
    intros Hnd.
    eapply Permutation_NoDup;
      [apply Permutation_map, Permutation_sym, (sort_perm Storage.oldest_first)|].
    rewrite (set_nth_dates today); auto.
  - split.
    { intros day Hday. rewrite entries_on_stable. unfold entries_on.
      rewrite filter_app. simpl.
      replace (today =? day) with false by (symmetry; apply Z.eqb_neq; lia).
      apply app_nil_r. }
    split.
    { rewrite (Permutation_length (sort_perm Storage.oldest_first _)).
      unfold entries_on. rewrite (findIndex_None _ _ Hi). simpl.
      rewrite length_app. simpl. lia. }
    intros Hnd.
    eapply Permutation_NoDup;
      [apply Permutation_map, Permutation_sym, (sort_perm Storage.oldest_first)|].
    rewrite map_app. simpl.
    eapply Permutation_NoDup; [apply Permutation_cons_append|].
    constructor; [apply findIndex_absent, Hi | exact Hnd].
Qed.

Lemma updateHabitCompletion_history_witness :
  stored_habit 90000000 sample_store "h1" = Some sample_habit /\
  createdAt sample_habit = Some 0 /\
  exists h' history',
    stored_habit 0
      (snd (Storage.updateHabitCompletion 90000000 true "h1" true sample_store)) "h1" =
      Some h' /\
    completionHistory h' = Some history' /\
    length history' = 2%nat.
Proof.
  assert (H1 : stored_habit 90000000 sample_store "h1" = Some sample_habit)
    by reflexivity.
  assert (H2 : dated sample_habit) by discriminate.
  split; [exact H1|]. split; [reflexivity|].
  destruct (updateHabitCompletion_history 90000000 "h1" true sample_store sample_habit
              H1 H2)
    as (h' & history' & Hs & Hc & _ & _ & Hlen & _).
  exists h', history'. split; [apply Hs|]. split; [exact Hc|]. exact Hlen.
Defined.

(** X9.  [updateHabitCompletion] succeeds exactly when a stored habit
    has the identifier and the store accepts the write.  When it fails
    the store is as it was, and it never touches another key. *)
Theorem updateHabitCompletion_fails_cleanly :
  forall now w habitId target st,
    fst (Storage.updateHabitCompletion now w habitId target st) =
      (match stored_habit now st habitId with Some _ => true | None => false end && w) /\
    (fst (Storage.updateHabitCompletion now w habitId target st) = false ->
     snd (Storage.updateHabitCompletion now w habitId target st) = st) /\
    (forall key, key <> STORAGE_KEYS_HABITS ->
     snd (Storage.updateHabitCompletion now w habitId target st) key = st key).
Proof.
  intros now w habitId target st.
  destruct (updateHabitCompletion_result now w habitId target st)
    as [[Hnone Hres]|(l1 & h & l2 & _ & Hsome & _ & _ & _ & Hres)]; rewrite Hres.
  - rewrite Hnone. repeat split.
  - rewrite Hsome. destruct w; simpl.
    + split; [reflexivity|]. split; [discriminate|].
      intros key Hk. unfold Storage.setItem.
      destruct (String.eqb_spec key STORAGE_KEYS_HABITS); [contradiction | reflexivity].
    + repeat split.
Qed.

Lemma updateHabitCompletion_fails_cleanly_witness :
  snd (Storage.updateHabitCompletion 7 false "h1" true sample_store) = sample_store.
Proof.
  exact (proj1 (proj2 (updateHabitCompletion_fails_cleanly 7 false "h1" true sample_store))
               eq_refl).
Defined.

(** ** Further properties of the streaks *)

Lemma sorted_perm_unique {A : Type} (R : A -> A -> Prop) (l1 : list A) :
  forall l2,
    StronglySorted R l1 -> StronglySorted R l2 -> Permutation l1 l2 ->
    (forall x y, In x l1 -> In y l1 -> R x y -> R y x -> x = y) ->
    l1 = l2.
Proof.
  induction l1 as [|x r1 IH]; intros l2 H1 H2 Hp Hanti.
  - apply Permutation_nil in Hp. subst. reflexivity.
  - destruct l2 as [|y r2]; [apply Permutation_sym, Permutation_nil in Hp; discriminate|].
    inversion H1 as [|? ? Hr1 Hall1]; subst. inversion H2 as [|? ? Hr2 Hall2]; subst.
    assert (Hxy : x = y).
    { assert (Hx : In x (y :: r2)) by (eapply Permutation_in; [exact Hp | left; reflexivity]).
      assert (Hy : In y (x :: r1))
        by (eapply Permutation_in; [apply Permutation_sym, Hp | left; reflexivity]).
      destruct Hx as [Hx|Hx]; [auto|]. destruct Hy as [Hy|Hy]; [auto|].
      rewrite Forall_forall in Hall1, Hall2.
      apply Hanti; [left; reflexivity | right; exact Hy | apply Hall1, Hy | apply Hall2, Hx]. }
    subst y. f_equal. apply IH; auto.
    + eapply Permutation_cons_inv, Hp.
    + intros a b Ha Hb. apply Hanti; right; assumption.
Qed.

Lemma date_injective (l : list entry) (a b : entry) :
  NoDup (map date l) -> In a l -> In b l -> date a = date b -> a = b.
Proof.
  induction l as [|e r IH]; simpl; intros Hnd Ha Hb Heq; [contradiction|].
  inversion Hnd as [|? ? Hnot Hnd']; subst.
  destruct Ha as [<-|Ha], Hb as [<-|Hb]; auto.
  - exfalso. apply Hnot. rewrite Heq. apply in_map, Hb.
  - exfalso. apply Hnot. rewrite <- Heq. apply in_map, Ha.
Qed.

Lemma sort_newest_first_perm (l l' : list entry) :
  Permutation l l' -> NoDup (map date l) ->
  Arr.sort Progress.newest_first l' = Arr.sort Progress.newest_first l.
Proof.
  intros Hp Hnd.
  apply (sorted_perm_unique (fun a b => date b <= date a)).
  - apply newest_first_sorted.
  - apply newest_first_sorted.
  - eapply perm_trans; [apply sort_perm|].
    eapply perm_trans; [apply Permutation_sym, Hp | apply Permutation_sym, sort_perm].
  - intros x y Hx Hy Hxy Hyx.
    assert (Hin : forall z, In z (Arr.sort Progress.newest_first l') -> In z l).
    { intros z Hz. eapply Permutation_in; [apply Permutation_sym, Hp|].
      eapply Permutation_in; [apply sort_perm | exact Hz]. }
    apply (date_injective l); auto. lia.
Qed.

Lemma calculateStreak_sorted (l : list entry) :
  Progress.calculateStreak (Some l) =
  Progress.mkStreak
    (Progress.current_loop 0 (Arr.sort Progress.newest_first l) 0)
    (snd (fold_left Progress.longest_step
            (rev (Arr.sort Progress.newest_first l)) (0, 0))).
Proof. destruct l; reflexivity. Qed.

(** X10.  When no two entries have the same date, [calculateStreak]
    does not depend on the order in which the history lists them.
    With two entries of one date it does: the entry listed first
    counts as the newer one. *)
Theorem calculateStreak_order_independent :
  (forall l l' : list entry,
     Permutation l l' -> NoDup (map date l) ->
     Progress.calculateStreak (Some l') = Progress.calculateStreak (Some l)) /\
  Progress.calculateStreak (Some [mkEntry 1 true; mkEntry 1 false]) <>
  Progress.calculateStreak (Some [mkEntry 1 false; mkEntry 1 true]).
Proof.
  split.
  - intros l l' Hp Hnd. rewrite !calculateStreak_sorted.
    rewrite (sort_newest_first_perm l l' Hp Hnd). reflexivity.
  - vm_compute. discriminate.
Qed.

Lemma calculateStreak_order_independent_witness :
  Progress.calculateStreak (Some (rev example2)) =
  Progress.calculateStreak (Some example2).
Proof.
  apply (proj1 calculateStreak_order_independent).
  - apply Permutation_rev.
  - vm_compute. repeat constructor; simpl; intuition discriminate.
Defined.

Lemma filter_perm {A : Type} (p : A -> bool) (l l' : list A) :
  Permutation l l' -> Permutation (filter p l) (filter p l').
Proof.
  induction 1 as [|x l l' _ IH|x y l|l l' l'' _ IH1 _ IH2]; simpl.
  - constructor.
  - destruct (p x); [apply perm_skip|]; exact IH.
  - destruct (p x), (p y); try apply Permutation_refl. apply perm_swap.
  - eapply perm_trans; eassumption.
Qed.

Lemma run_in_completed (l l1 seg l2 : list entry) :
  l = l1 ++ seg ++ l2 -> forallb completed seg = true ->
  run_length seg <= Storage.count_completed l.
Proof.
  intros -> Hseg. unfold run_length, Storage.count_completed.
  rewrite !filter_app, !length_app.
  assert (Hf : filter completed seg = seg).
  { clear - Hseg. induction seg as [|e r IH]; simpl in *; [reflexivity|].
    apply andb_prop in Hseg as [He Hr]. rewrite He. f_equal. auto. }
  rewrite Hf. lia.
Qed.

Lemma streak_current_le_longest (l : list entry) :
  0 <= Progress.currentStreak (Progress.calculateStreak (Some l)) <=
  Progress.longestStreak (Progress.calculateStreak (Some l)).
Proof.
  rewrite calculateStreak_sorted.
  cbn [Progress.currentStreak Progress.longestStreak].
  rewrite current_loop_newest.
  set (sorted := Arr.sort Progress.newest_first l).
  destruct (longest_fold_bounds (rev sorted) 0 0) as [Hlow Hruns]; [lia|].
  destruct sorted as [|e r] eqn:Hs; [lia|].
  destruct (completed e) eqn:He; [|lia].
  destruct (Hruns (rev r) [e] []) as [_ H]; [reflexivity | simpl; rewrite He; reflexivity|].
  unfold run_length in H. simpl in H. simpl rev. lia.
Qed.

(** X11.  For every history the two streaks of [calculateStreak] are
    ordered: the current streak is at least 0 and at most the longest
    streak, which is at most the number of completed entries.  The
    longest streak is 0 exactly when no entry is completed. *)
Theorem calculateStreak_bounds :
  forall l : list entry,
    let s := Progress.calculateStreak (Some l) in
    0 <= Progress.currentStreak s /\
    Progress.currentStreak s <= Progress.longestStreak s /\
    Progress.longestStreak s <= Storage.count_completed l /\
    Storage.count_completed l <= Z.of_nat (length l) /\
    (Progress.longestStreak s = 0 <-> forallb (fun e => negb (completed e)) l = true).
Proof.
  intros l s. subst s.
  split; [apply streak_current_le_longest|].
  split; [apply streak_current_le_longest|].
  rewrite calculateStreak_sorted.
  cbn [Progress.longestStreak].
  set (sorted := Arr.sort Progress.newest_first l).
  assert (Hperm : Permutation (rev sorted) l).
  { eapply perm_trans; [apply Permutation_sym, Permutation_rev | apply sort_perm]. }
  assert (Hcount : Storage.count_completed (rev sorted) = Storage.count_completed l).
  { unfold Storage.count_completed.
    rewrite (Permutation_length (filter_perm completed _ _ Hperm)). reflexivity. }
  destruct (longest_fold_bounds (rev sorted) 0 0) as [Hlow Hruns]; [lia|].
  pose proof (longest_fold_attained (rev sorted) 0 0) as Hatt.
  set (longest := snd (fold_left Progress.longest_step (rev sorted) (0, 0))) in *.
  assert (Hle : longest <= Storage.count_completed l).
  { rewrite <- Hcount.
    destruct Hatt as [->|(l1 & seg & l2 & Heq & Hseg & [->|[_ ->]])].
    - apply count_completed_nonneg.
    - eapply run_in_completed; eassumption.
    - pose proof (run_in_completed _ _ _ _ Heq Hseg). lia. }
  split; [exact Hle|].
  split; [unfold Storage.count_completed; pose proof (filter_length_le completed l); lia|].
  split.
  - intros Hzero. apply forallb_forall. intros e He.
    destruct (completed e) eqn:Hc; [|reflexivity]. exfalso.
    assert (Hin : In e (rev sorted))
      by (eapply Permutation_in; [apply Permutation_sym, Hperm | exact He]).
    apply in_split in Hin as (l1 & l2 & Heq).
    destruct (Hruns l1 [e] l2) as [_ H]; [exact Heq | simpl; rewrite Hc; reflexivity|].
    unfold run_length in H. simpl in H. lia.
  - intros Hnone.
    assert (Hc : Storage.count_completed l = 0).
    { unfold Storage.count_completed. clear - Hnone.
      induction l as [|e r IH]; simpl in *; [reflexivity|].
      apply andb_prop in Hnone as [He Hr]. apply negb_true_iff in He. rewrite He. auto. }
    lia.
Qed.

Lemma calculateStreak_bounds_witness :
  Progress.longestStreak (Progress.calculateStreak (Some example2)) <=
  Storage.count_completed example2.
Proof.
  exact (proj1 (proj2 (proj2 (calculateStreak_bounds example2)))).
Defined.

(** ** The weekly rate and the consistency score *)

Lemma fl_zero (q : Q) : (q == 0)%Q -> JS.fl q = JS.Fin 0.
Proof.
  intros H. unfold JS.fl. rewrite (proj1 (Qeq_alt _ _) H). reflexivity.
Qed.

Lemma div_zero_count (n : Z) : 0 < n -> JS.div (JS.of_Z 0) (JS.of_Z n) = JS.of_Z 0.
Proof.
  intros Hn. rewrite div_counts by exact Hn. apply fl_zero.
  unfold Qdiv. apply Qmult_0_l.
Qed.

Lemma div_same_count (n : Z) : 0 < n -> JS.div (JS.of_Z n) (JS.of_Z n) = JS.of_Z 1.
Proof.
  intros Hn. rewrite div_counts by exact Hn.
  assert (Hone : (inject_Z n / inject_Z n == 1)%Q).
  { apply Qmult_inv_r. intros H. rewrite (Zlt_Qlt 0 n) in Hn.
    rewrite H in Hn. apply (Qlt_irrefl _ Hn). }
  rewrite (fl_exact _ 1 0); [| rewrite Hone; reflexivity | lia | lia | lia].
  unfold JS.of_Z. f_equal. apply (Qred_complete _ _ Hone).
Qed.

(** X12.  For a whole number of weeks, when the start of the window is
    a time value of a [Date], [calculateWeeklyCompletionRate] looks
    only at the entries dated inside the window, which has no upper
    end: the rate is 100 when there is such an entry and all of them
    are completed, and 0 when none of them is completed or there is
    none.  When the start of the window is beyond the time values of a
    [Date], the rate is 0. *)
Theorem calculateWeeklyCompletionRate_window :
  forall now l weeksBack,
    let weeksAgo := now - weeksBack * 7 * 24 * 60 * 60 * 1000 in
    let recent := filter (fun e => weeksAgo <=? date e * 86400000) l in
    (Progress.valid_time weeksAgo = true ->
     Progress.calculateWeeklyCompletionRate now (Some l) weeksBack =
       Progress.calculateWeeklyCompletionRate now (Some recent) weeksBack /\
     (recent <> [] -> forallb completed recent = true ->
      Progress.calculateWeeklyCompletionRate now (Some l) weeksBack = JS.of_Z 100) /\
     (forallb (fun e => negb (completed e)) recent = true ->
      Progress.calculateWeeklyCompletionRate now (Some l) weeksBack = JS.of_Z 0)) /\
    (Progress.valid_time weeksAgo = false ->
     Progress.calculateWeeklyCompletionRate now (Some l) weeksBack = JS.of_Z 0).
Proof.
  intros now l weeksBack weeksAgo recent. split.
  2:{ intros Hinvalid. unfold Progress.calculateWeeklyCompletionRate.
      destruct l as [|e0 r0]; [reflexivity|]. cbv zeta.
      fold weeksAgo. rewrite Hinvalid. reflexivity. }
  intros Hvalid.
  assert (Hshape : forall l0,
    filter (fun e => weeksAgo <=? date e * 86400000) l0 = recent ->
    Progress.calculateWeeklyCompletionRate now (Some l0) weeksBack =
    match recent with
    | [] => JS.of_Z 0
    | _ => JS.round (JS.mul (JS.div (JS.of_nat (length (filter completed recent)))
                                    (JS.of_nat (length recent)))
                            (JS.of_Z 100))
    end).
  { intros l0 Hl0. unfold Progress.calculateWeeklyCompletionRate.
    destruct l0 as [|e0 r0]; [simpl in Hl0; rewrite <- Hl0; reflexivity|].
    cbv zeta. fold weeksAgo. rewrite Hvalid.
    unfold Progress.date_ms, Progress.MS_PER_DAY.
    change (1000 * 60 * 60 * 24) with 86400000. rewrite Hl0. reflexivity. }
  split.
  - rewrite (Hshape l eq_refl), (Hshape recent); [reflexivity|].
    subst recent. clear. induction l as [|e r IH]; simpl; [reflexivity|].
    destruct (weeksAgo <=? date e * 86400000) eqn:He;
      simpl; [rewrite He; f_equal|]; exact IH.
  - rewrite (Hshape l eq_refl). split.
    + intros Hne Hall. destruct recent as [|e r] eqn:Hr; [contradiction|].
      assert (Hf : filter completed (e :: r) = e :: r).
      { clear - Hall. induction (e :: r) as [|x s IH]; simpl in *; [reflexivity|].
        apply andb_prop in Hall as [Hx Hs]. rewrite Hx. f_equal. auto. }
      rewrite Hf. unfold JS.of_nat. rewrite div_same_count by (simpl; lia).
      vm_compute. reflexivity.
    + intros Hnone. destruct recent as [|e r] eqn:Hr; [reflexivity|].
      assert (Hf : filter completed (e :: r) = []).
      { clear - Hnone. induction (e :: r) as [|x s IH]; simpl in *; [reflexivity|].
        apply andb_prop in Hnone as [Hx Hs]. apply negb_true_iff in Hx. rewrite Hx. auto. }
      rewrite Hf. unfold JS.of_nat. cbn [length]. change (Z.of_nat 0) with 0.
      rewrite div_zero_count by (simpl; lia).
      vm_compute. reflexivity.
Qed.

Lemma calculateWeeklyCompletionRate_window_witness :
  Progress.valid_time (30 * 86400000 - 1 * 7 * 24 * 60 * 60 * 1000) = true /\
  Progress.calculateWeeklyCompletionRate (30 * 86400000)
    (Some [mkEntry 1 false; mkEntry 29 true; mkEntry 30 true]) 1 = JS.of_Z 100.
Proof.
  assert (Hv : Progress.valid_time (30 * 86400000 - 1 * 7 * 24 * 60 * 60 * 1000) = true)
    by reflexivity.
  split; [exact Hv|].
  apply (proj1 (proj2 (proj1 (calculateWeeklyCompletionRate_window (30 * 86400000)
                         [mkEntry 1 false; mkEntry 29 true; mkEntry 30 true] 1) Hv))).
  - vm_compute. discriminate.
  - vm_compute. reflexivity.
Defined.

Local Open Scope Q_scope.

(** The weighted sum of [calculateConsistencyScore] is at most 72 on
    two rates between 0 and 100 and a streak of 0 or 1. *)
Lemma weighted_score_cap (p w cs : Z) :
  (0 <= p <= 100)%Z -> (0 <= w <= 100)%Z -> (cs = 0 \/ cs = 1)%Z ->
  exists s,
    JS.round
      (JS.add
         (JS.add (JS.mul (JS.of_Z p) (JS.lit (4 # 10)))
                 (JS.mul (JS.of_Z w) (JS.lit (3 # 10))))
         (JS.mul (JS.min (JS.mul (JS.of_Z cs) (JS.of_Z 5)) (JS.of_Z 30))
                 (JS.lit (3 # 10)))) = JS.of_Z s /\
    (0 <= s <= 72)%Z.
Proof.
  intros Hp Hw Hcs.
  assert (L4 : JS.lit (4 # 10) = JS.Fin (3602879701896397 # 9007199254740992))
    by (vm_compute; reflexivity).
  assert (L3 : JS.lit (3 # 10) = JS.Fin (5404319552844595 # 18014398509481984))
    by (vm_compute; reflexivity).
  rewrite L4, L3.
  destruct (mul_below (inject_Z p) (3602879701896397 # 9007199254740992)
              (inject_Z 100) 40) as (r1 & H1 & H10 & H11);
    [rewrite <- (Zle_Qle 0); lia | rewrite <- Zle_Qle; lia | discriminate
     | vm_compute; reflexivity |].
  destruct (mul_below (inject_Z w) (5404319552844595 # 18014398509481984)
              (inject_Z 100) 30) as (r2 & H2 & H20 & H21);
    [rewrite <- (Zle_Qle 0); lia | rewrite <- Zle_Qle; lia | discriminate
     | vm_compute; reflexivity |].
  assert (H3 : exists r3,
    JS.mul (JS.min (JS.mul (JS.of_Z cs) (JS.of_Z 5)) (JS.of_Z 30))
           (JS.Fin (5404319552844595 # 18014398509481984)) = JS.Fin r3 /\
    0 <= r3 /\ r3 <= 3 # 2).
  { destruct Hcs as [->| ->]; eexists; (split; [vm_compute; reflexivity|]);
      split; discriminate. }
  destruct H3 as (r3 & H3 & H30 & H31).
  unfold JS.of_Z at 1 2. rewrite H1, H2, H3.
  destruct (add_below r1 r2 40 30 70 H10 H11 H20 H21) as (r12 & H12 & H120 & H121);
    [vm_compute; reflexivity|].
  rewrite H12.
  destruct (add_below r12 r3 70 (3 # 2) (143 # 2) H120 H121 H30 H31)
    as (r & Hr & Hr0 & Hr1); [vm_compute; reflexivity|].
  rewrite Hr.
  destruct (round_below r 72 Hr0) as (s & Hs & Hs0).
  { eapply Qle_trans; [exact Hr1 | discriminate]. }
  exists s. split; [exact Hs | lia].
Qed.

Local Close Scope Q_scope.

(** X13.  On a habit whose counters are integers that are not
    negative, the score of [calculateConsistencyScore] is an integer
    from 0 to 72, because the current streak it weighs is 0 or 1: the
    rating is never ['Excellent'] nor ['Great'].  The bound is
    reached by a habit completed on its only day. *)
Theorem calculateConsistencyScore_cap :
  (forall now h c t,
     0 <= c -> 0 <= t ->
     completedDays h = Some (JS.of_Z c) -> totalDays h = Some (JS.of_Z t) ->
     (exists s,
        Progress.score (Progress.calculateConsistencyScore now (Some h)) = JS.of_Z s /\
        0 <= s <= 72) /\
     Progress.rating (Progress.calculateConsistencyScore now (Some h)) <>
       "Excellent"%string /\
     Progress.rating (Progress.calculateConsistencyScore now (Some h)) <>
       "Great"%string) /\
  Progress.calculateConsistencyScore 0 (Some (plain_habit_done "h")) =
    Progress.mkConsistency (JS.of_Z 72) "Good".
Proof.
  split; [|vm_compute; reflexivity].
  intros now h c t Hc Ht Hcd Htd.
  unfold Progress.calculateConsistencyScore.
  destruct (completionHistory h) as [[|e l]|] eqn:Hh;
    try (cbn [Progress.score Progress.rating];
         split; [exists 0; split; [reflexivity | lia]|]; split; discriminate).
  cbv zeta.
  destruct (completion_percentage_range h c t Hc Ht Hcd Htd) as (p & -> & Hp).
  destruct (weekly_rate_range now (Some (e :: l)) 4) as (w & -> & Hw).
  destruct (weighted_score_cap p w _ Hp Hw (current_streak_flag (Some (e :: l))))
    as (s & -> & Hs).
  cbn [Progress.score Progress.rating]. unfold JS.geb. rewrite !leb_of_Z.
  split; [exists s; split; [reflexivity | lia]|].
  replace (90 <=? s) with false by (symmetry; apply Z.leb_gt; lia).
  replace (75 <=? s) with false by (symmetry; apply Z.leb_gt; lia).
  destruct (60 <=? s); [split; discriminate|].
  destruct (40 <=? s); split; discriminate.
Qed.

Lemma calculateConsistencyScore_cap_witness :
  exists s,
    Progress.score (Progress.calculateConsistencyScore 0 (Some sample_habit)) =
      JS.of_Z s /\
    0 <= s <= 72.
Proof.
  assert (H0 : 0 <= 0) by lia. assert (H1 : 0 <= 1) by lia.
  exact (proj1 (proj1 calculateConsistencyScore_cap 0 sample_habit 0 1
                  H0 H1 eq_refl eq_refl)).
Defined.

(** ** Further properties of the achievements *)

Lemma catalog_ids_distinct : NoDup (map Achievements.id Achievements.ACHIEVEMENTS).
Proof.
  unfold Achievements.ACHIEVEMENTS. cbn [map Achievements.id].
  repeat (constructor; [cbn [In]; intuition discriminate|]). constructor.
Qed.

Lemma find_by_id (l : list Achievements.achievement) (a : Achievements.achievement) :
  NoDup (map Achievements.id l) -> In a l ->
  find (fun x => String.eqb (Achievements.id x) (Achievements.id a)) l = Some a.
Proof.
  induction l as [|b r IH]; simpl; intros Hnd Hin; [contradiction|].
  inversion Hnd as [|? ? Hnot Hnd']; subst.
  destruct Hin as [->|Hin]; [rewrite String.eqb_refl; reflexivity|].
  destruct (String.eqb_spec (Achievements.id b) (Achievements.id a)) as [Heq|_].
  - exfalso. apply Hnot. rewrite Heq. apply in_map, Hin.
  - apply IH; assumption.
Qed.

Lemma getAchievement_In (i : string) (a : Achievements.achievement) :
  Achievements.getAchievement i = Some a <->
  In a Achievements.ACHIEVEMENTS /\ Achievements.id a = i.
Proof.
  unfold Achievements.getAchievement. split.
  - intros H. apply find_some in H as [Hin Heq]. apply String.eqb_eq in Heq. auto.
  - intros [Hin <-]. apply find_by_id; [apply catalog_ids_distinct | exact Hin].
Qed.

Lemma filter_map_ids (c : Achievements.achievement -> bool) (cur : list string)
    (l : list Achievements.achievement) :
  map Achievements.id (filter (fun a => c a && locked cur a) l) =
  filter (fun i => negb (Str.includes i cur)) (map Achievements.id (filter c l)).
Proof.
  unfold locked. induction l as [|a r IH]; simpl; [reflexivity|].
  destruct (c a); simpl; [|exact IH].
  destruct (Str.includes (Achievements.id a) cur); simpl; [|f_equal]; exact IH.
Qed.

Lemma filtered_ids_distinct (c : Achievements.achievement -> bool)
    (catalog : list Achievements.achievement) :
  NoDup (map Achievements.id catalog) ->
  NoDup (map Achievements.id (filter c catalog)).
Proof.
  induction catalog as [|a r IH]; simpl; intros Hnd; [constructor|].
  inversion Hnd as [|? ? Hnot Hnd']; subst.
  destruct (c a); simpl; [|auto].
  constructor; [|auto]. intros Hin. apply Hnot.
  apply in_map_iff in Hin as (x & Hx & Hin). apply filter_In in Hin as [Hin _].
  rewrite <- Hx. apply in_map, Hin.
Qed.

(** X14.  [checkAchievements] reports as new exactly the achievements
    of the catalog whose condition holds on the statistics and whose
    identifier is not among the current ones: they are the unlocked
    identifiers, in catalog order, without the current ones.  No
    identifier is reported twice, every reported identifier is found
    by [getAchievement] with a condition that holds, and
    [getAchievement] finds every achievement of the catalog under its
    own identifier. *)
Theorem checkAchievements_new_and_unlocked :
  forall habits cur,
    let r := Achievements.checkAchievements habits cur in
    let stats := Achievements.calculateUserStats habits in
    (forall a,
       In a (Achievements.newAchievements r) <->
       In a Achievements.ACHIEVEMENTS /\ Achievements.condition a stats = true /\
       ~ In (Achievements.id a) cur) /\
    map Achievements.id (Achievements.newAchievements r) =
      filter (fun i => negb (Str.includes i cur)) (Achievements.allUnlocked r) /\
    NoDup (Achievements.allUnlocked r) /\
    (forall i, In i (Achievements.allUnlocked r) <->
       exists a, Achievements.getAchievement i = Some a /\
                 Achievements.condition a stats = true) /\
    (forall a, In a Achievements.ACHIEVEMENTS ->
       Achievements.getAchievement (Achievements.id a) = Some a).
Proof.
  intros habits cur r stats. subst r. rewrite checkAchievements_filter. cbv zeta.
  fold stats.
  cbn [Achievements.newAchievements Achievements.allUnlocked].
  split.
  { intros a. rewrite filter_In, andb_true_iff, negb_true_iff.
    split.
    - intros (Hin & Hc & Hn). repeat split; auto.
      intros H. apply includes_In in H. congruence.
    - intros (Hin & Hc & Hn). repeat split; auto.
      destruct (Str.includes (Achievements.id a) cur) eqn:Hi; [|reflexivity].
      exfalso. apply Hn. unfold Str.includes in Hi.
      apply existsb_exists in Hi as (y & Hy & Heq). apply String.eqb_eq in Heq.
      subst y. exact Hy. }
  split; [apply (filter_map_ids (fun a => Achievements.condition a stats))|].
  split; [apply filtered_ids_distinct, catalog_ids_distinct|].
  split.
  { intros i. rewrite in_map_iff. split.
    - intros (a & Hid & Hin). apply filter_In in Hin as [Hin Hc].
      exists a. split; [apply getAchievement_In; auto | exact Hc].
    - intros (a & Hget & Hc). apply getAchievement_In in Hget as [Hin Hid].
      exists a. split; [exact Hid | apply filter_In; auto]. }
  intros a Hin. apply getAchievement_In. auto.
Qed.

Lemma checkAchievements_new_and_unlocked_witness :
  In "first_steps"%string
     (Achievements.allUnlocked (Achievements.checkAchievements [other_habit] [])).
Proof.
  assert (H : exists a,
    Achievements.getAchievement "first_steps" = Some a /\
    Achievements.condition a (Achievements.calculateUserStats [other_habit]) = true)
    by (eexists; split; [reflexivity | vm_compute; reflexivity]).
  exact (proj2 (proj1 (proj2 (proj2 (proj2
           (checkAchievements_new_and_unlocked [other_habit] []))))
           "first_steps"%string) H).
Defined.

(** *** The statistics *)

Lemma tally_habit_fields (t : Achievements.tally) (h : habit) :
  Achievements.t_longestStreak (Achievements.tally_habit t h) =
    Z.max (Achievements.t_longestStreak t) (Progress.longestStreak (habit_streaks h)) /\
  Achievements.t_currentStreak (Achievements.tally_habit t h) =
    Z.max (Achievements.t_currentStreak t) (Progress.currentStreak (habit_streaks h)) /\
  Achievements.t_perfectWeeks (Achievements.tally_habit t h) =
    Achievements.t_perfectWeeks t + (if perfect_week h then 1 else 0).
Proof.
  unfold Achievements.tally_habit, habit_streaks, perfect_week. cbv zeta.
  destruct (falsy_str (targetTime h)); [|destruct (JS.ltb _ _); [|destruct (JS.geb _ _)]];
    cbn [Achievements.t_longestStreak Achievements.t_currentStreak
         Achievements.t_perfectWeeks];
    (split; [reflexivity|]; split; [reflexivity|]);
    (destruct (completionHistory h) as [l|]; [destruct (_ && _)|]; lia).
Qed.

Lemma tally_fold (hs : list habit) :
  forall t,
    Achievements.t_longestStreak (fold_left Achievements.tally_habit hs t) =
      fold_left Z.max (map (fun h => Progress.longestStreak (habit_streaks h)) hs)
                (Achievements.t_longestStreak t) /\
    Achievements.t_currentStreak (fold_left Achievements.tally_habit hs t) =
      fold_left Z.max (map (fun h => Progress.currentStreak (habit_streaks h)) hs)
                (Achievements.t_currentStreak t) /\
    Achievements.t_perfectWeeks (fold_left Achievements.tally_habit hs t) =
      Achievements.t_perfectWeeks t + Z.of_nat (length (filter perfect_week hs)).
Proof.
  induction hs as [|h r IH]; intros t; simpl fold_left; simpl map; simpl filter.
  - repeat split; simpl; lia.
  - destruct (IH (Achievements.tally_habit t h)) as (H1 & H2 & H3).
    destruct (tally_habit_fields t h) as (F1 & F2 & F3).
    rewrite H1, H2, H3, F1, F2, F3. repeat split.
    destruct (perfect_week h); simpl length; lia.
Qed.

Lemma fold_max_bounds (l : list Z) :
  forall a,
    a <= fold_left Z.max l a /\
    (forall x, In x l -> x <= fold_left Z.max l a) /\
    (fold_left Z.max l a = a \/ In (fold_left Z.max l a) l).
Proof.
  induction l as [|y r IH]; intros a; simpl.
  - split; [lia|]. split; [intros x []|left; reflexivity].
  - destruct (IH (Z.max a y)) as (H1 & H2 & H3).
    split; [lia|]. split.
    + intros x [<-|Hx]; [lia | apply H2, Hx].
    + destruct H3 as [H3|H3]; [|right; right; exact H3].
      rewrite H3. destruct (Z.max_spec a y) as [[_ ->]|[_ ->]]; [right; left|left];
        reflexivity.
Qed.

Lemma calculateUserStats_fields (habits : list habit) :
  Achievements.totalHabits (Achievements.calculateUserStats habits) =
    Z.of_nat (length habits) /\
  Achievements.longestStreak (Achievements.calculateUserStats habits) =
    fold_left Z.max (map (fun h => Progress.longestStreak (habit_streaks h)) habits) 0 /\
  Achievements.currentStreak (Achievements.calculateUserStats habits) =
    fold_left Z.max (map (fun h => Progress.currentStreak (habit_streaks h)) habits) 0 /\
  Achievements.perfectWeeks (Achievements.calculateUserStats habits) =
    Z.of_nat (length (filter perfect_week habits)).
Proof.
  destruct habits as [|h r]; [repeat split|].
  unfold Achievements.calculateUserStats. cbv zeta.
  cbn [Achievements.totalHabits Achievements.longestStreak Achievements.currentStreak
       Achievements.perfectWeeks].
  destruct (tally_fold (h :: r)
              (Achievements.mkTally (JS.of_Z 0) 0 0 (JS.of_Z 0) 0 (JS.of_Z 0) (JS.of_Z 0)))
    as (H1 & H2 & H3).
  rewrite H1, H2, H3. repeat split.
Qed.

(** X15.  The statistics of [calculateUserStats]: [totalHabits] is the
    number of habits, [longestStreak] is the largest longest streak of
    a habit (0 without habits), [currentStreak] is 0 or 1 and never
    above [longestStreak], and [perfectWeeks] counts the habits whose
    history has at least seven entries of which the last seven are
    completed. *)
Theorem calculateUserStats_aggregates :
  forall habits,
    let s := Achievements.calculateUserStats habits in
    Achievements.totalHabits s = Z.of_nat (length habits) /\
    (forall h, In h habits ->
       Progress.longestStreak (habit_streaks h) <= Achievements.longestStreak s) /\
    (Achievements.longestStreak s = 0 \/
     exists h, In h habits /\
       Achievements.longestStreak s = Progress.longestStreak (habit_streaks h)) /\
    (Achievements.currentStreak s = 0 \/ Achievements.currentStreak s = 1) /\
    Achievements.currentStreak s <= Achievements.longestStreak s /\
    Achievements.perfectWeeks s = Z.of_nat (length (filter perfect_week habits)).
Proof.
  intros habits s. subst s.
  destruct (calculateUserStats_fields habits) as (H1 & H2 & H3 & H4).
  rewrite H1, H2, H3, H4. clear H1 H2 H3 H4.
  set (longs := map (fun h => Progress.longestStreak (habit_streaks h)) habits).
  set (currs := map (fun h => Progress.currentStreak (habit_streaks h)) habits).
  destruct (fold_max_bounds longs 0) as (L1 & L2 & L3).
  destruct (fold_max_bounds currs 0) as (C1 & C2 & C3).
  split; [reflexivity|].
  split.
  { intros h Hin. apply L2. subst longs.
    apply (in_map (fun h => Progress.longestStreak (habit_streaks h))), Hin. }
  split.
  { destruct L3 as [L3|L3]; [left; exact L3|right].
    subst longs. apply in_map_iff in L3 as (h & Hh & Hin). exists h. auto. }
  assert (Hc : fold_left Z.max currs 0 = 0 \/
               exists h, In h habits /\
                 fold_left Z.max currs 0 = Progress.currentStreak (habit_streaks h)).
  { destruct C3 as [C3|C3]; [left; exact C3|right].
    subst currs. apply in_map_iff in C3 as (h & Hh & Hin). exists h. auto. }
  split.
  { destruct Hc as [Hc|(h & _ & ->)]; [left; exact Hc|].
    apply current_streak_flag. }
  split; [|reflexivity].
  destruct Hc as [->|(h & Hin & ->)]; [exact L1|].
  eapply Z.le_trans; [apply streak_current_le_longest|].
  apply L2. subst longs.
  apply (in_map (fun h => Progress.longestStreak (habit_streaks h))), Hin.
Qed.

Lemma calculateUserStats_aggregates_witness :
  Progress.longestStreak (habit_streaks sample_habit) <=
  Achievements.longestStreak
    (Achievements.calculateUserStats [other_habit; sample_habit]).
Proof.
  apply (proj1 (proj2 (calculateUserStats_aggregates [other_habit; sample_habit]))).
  right. left. reflexivity.
Defined.

(** *** Thresholds *)

Lemma unlocked_condition (habits : list habit) (cur : list string) (i : string)
    (a : Achievements.achievement) :
  Achievements.getAchievement i = Some a ->
  (In i (Achievements.allUnlocked (Achievements.checkAchievements habits cur)) <->
   Achievements.condition a (Achievements.calculateUserStats habits) = true).
Proof.
  intros Hget. rewrite checkAchievements_filter. cbv zeta.
  cbn [Achievements.allUnlocked]. rewrite in_map_iff. split.
  - intros (b & Hid & Hin). apply filter_In in Hin as [Hin Hc].
    assert (Hb : Achievements.getAchievement i = Some b)
      by (apply getAchievement_In; auto).
    rewrite Hget in Hb. injection Hb as ->. exact Hc.
  - intros Hc. apply getAchievement_In in Hget as [Hin Hid].
    exists a. split; [exact Hid | apply filter_In; auto].
Qed.

Lemma geb_trans_of_Z (a : JS.number) (n m : Z) :
  m <= n -> JS.geb a (JS.of_Z n) = true -> JS.geb a (JS.of_Z m) = true.
Proof.
  intros Hmn. unfold JS.geb, JS.leb, JS.of_Z. destruct a as [| | |q]; auto.
  intros H. apply Qle_bool_iff in H. apply Qle_bool_iff.
  eapply Qle_trans; [|exact H]. rewrite <- Zle_Qle. exact Hmn.
Qed.

(** X16.  What unlocks an achievement, read off the conditions of the
    catalog: ['habit_collector'] needs five habits, ['week_warrior'] a
    habit whose longest streak is at least 7, ['perfectionist'] a
    habit whose last seven entries are completed.  A higher threshold
    on the same statistic implies the lower one, and without habits
    nothing is unlocked. *)
Theorem checkAchievements_thresholds :
  forall habits cur,
    let u := Achievements.allUnlocked (Achievements.checkAchievements habits cur) in
    (In "habit_collector"%string u <-> 5 <= Z.of_nat (length habits)) /\
    (In "week_warrior"%string u <->
     exists h, In h habits /\ 7 <= Progress.longestStreak (habit_streaks h)) /\
    (In "perfectionist"%string u <->
     exists h, In h habits /\ perfect_week h = true) /\
    (In "streak_legend"%string u -> In "month_master"%string u) /\
    (In "month_master"%string u -> In "week_warrior"%string u) /\
    (In "dedication_master"%string u -> In "first_steps"%string u) /\
    (habits = [] -> u = []).
Proof.
  intros habits cur u. subst u.
  pose proof (unlocked_condition habits cur "habit_collector" _ eq_refl) as Hcollector.
  pose proof (unlocked_condition habits cur "week_warrior" _ eq_refl) as Hweek.
  pose proof (unlocked_condition habits cur "perfectionist" _ eq_refl) as Hperfect.
  pose proof (unlocked_condition habits cur "streak_legend" _ eq_refl) as Hlegend.
  pose proof (unlocked_condition habits cur "month_master" _ eq_refl) as Hmonth.
  pose proof (unlocked_condition habits cur "dedication_master" _ eq_refl) as Hmaster.
  pose proof (unlocked_condition habits cur "first_steps" _ eq_refl) as Hfirst.
  cbn [Achievements.condition] in *.
  destruct (calculateUserStats_fields habits) as (H1 & H2 & _ & H4).
  rewrite H1 in Hcollector. rewrite H4 in Hperfect.
  split; [rewrite Hcollector; apply Z.leb_le|].
  split.
  { rewrite Hweek, Z.leb_le, H2.
    destruct (fold_max_bounds
                (map (fun h => Progress.longestStreak (habit_streaks h)) habits) 0)
      as (_ & L2 & L3).
    split.
    - intros H7. destruct L3 as [L3|L3]; [lia|].
      apply in_map_iff in L3 as (h & Hh & Hin). exists h. split; [exact Hin | lia].
    - intros (h & Hin & H7). eapply Z.le_trans; [exact H7|]. apply L2.
      apply (in_map (fun h => Progress.longestStreak (habit_streaks h))), Hin. }
  split.
  { rewrite Hperfect, Z.leb_le. split.
    - intros Hone. destruct (filter perfect_week habits) as [|h r] eqn:Hf;
        [simpl in Hone; lia|].
      assert (Hin : In h (filter perfect_week habits)) by (rewrite Hf; left; reflexivity).
      apply filter_In in Hin. exists h. exact Hin.
    - intros (h & Hin & Hp).
      assert (Hf : In h (filter perfect_week habits)) by (apply filter_In; auto).
      destruct (filter perfect_week habits); [contradiction | simpl; lia]. }
  split; [rewrite Hlegend, Hmonth, !Z.leb_le; lia|].
  split; [rewrite Hmonth, Hweek, !Z.leb_le; lia|].
  split; [rewrite Hmaster, Hfirst; apply geb_trans_of_Z; lia|].
  intros ->. rewrite checkAchievements_filter. reflexivity.
Qed.

Lemma checkAchievements_thresholds_witness :
  Achievements.allUnlocked (Achievements.checkAchievements [] ["night_owl"%string]) = [].
Proof.
  exact (proj2 (proj2 (proj2 (proj2 (proj2 (proj2
           (checkAchievements_thresholds [] ["night_owl"%string])))))) eq_refl).
Defined.

(** *** Progress towards the locked achievements *)

Lemma progress_fold (stats : Achievements.user_stats) (unlocked : list string)
    (l : list Achievements.achievement) :
  forall acc,
    fold_left (Achievements.progress_one stats unlocked) l acc =
    acc ++ map (progress_of stats) (filter (locked unlocked) l).
Proof.
  induction l as [|a r IH]; intros acc; [simpl; rewrite app_nil_r; reflexivity|].
  cbn [fold_left filter]. rewrite IH. unfold Achievements.progress_one, locked.
  destruct (Str.includes (Achievements.id a) unlocked); cbn [negb map]; [reflexivity|].
  unfold progress_of at 2.
  destruct (Achievements.progress_values stats (Achievements.id a)) as [c t].
  rewrite <- app_assoc. reflexivity.
Qed.

Local Open Scope Q_scope.

Lemma fl_at_least (x : Q) (n : Z) :
  (0 <= n < 2 ^ 53)%Z -> inject_Z n <= x ->
  JS.fl x = JS.PInf \/ exists r, JS.fl x = JS.Fin r /\ inject_Z n <= r.
Proof.
  intros Hn Hx.
  assert (H0 : 0 <= inject_Z n) by (rewrite <- (Zle_Qle 0); lia).
  pose proof (fl_mono (inject_Z n) x H0 Hx) as Hm.
  rewrite (fl_integer n Hn) in Hm. unfold JS.of_Z in Hm.
  destruct (JS.fl x) as [| | |r]; try discriminate; [left; reflexivity|].
  right. exists r. split; [reflexivity | apply Qle_bool_iff, Hm].
Qed.

(** A current value that reaches a positive target shows as 100. *)
Lemma progress_full (c : JS.number) (k : Z) :
  (0 < k < 2 ^ 53)%Z -> JS.geb c (JS.of_Z k) = true ->
  JS.min (JS.round (JS.mul (JS.div c (JS.of_Z k)) (JS.of_Z 100))) (JS.of_Z 100) =
  JS.of_Z 100.
Proof.
  intros Hk Hge. unfold JS.geb, JS.leb, JS.of_Z in Hge.
  assert (Hk0 : 0 < inject_Z k) by (rewrite <- (Zlt_Qlt 0); lia).
  assert (Hsign : JS.sign_pos (inject_Z k) = true).
  { unfold JS.sign_pos. apply Qle_bool_iff. lra. }
  assert (Hnz : Qeq_bool (inject_Z k) 0 = false).
  { destruct (Qeq_bool (inject_Z k) 0) eqn:He; [|reflexivity].
    apply Qeq_bool_iff in He. lra. }
  assert (Hinf : JS.min (JS.round (JS.mul JS.PInf (JS.of_Z 100))) (JS.of_Z 100) =
                 JS.of_Z 100) by reflexivity.
  assert (Hfin : forall r, 1 <= r ->
    JS.min (JS.round (JS.mul (JS.Fin r) (JS.of_Z 100))) (JS.of_Z 100) = JS.of_Z 100).
  { intros r Hr. unfold JS.mul, JS.of_Z at 1.
    destruct (fl_at_least (r * inject_Z 100) 100) as [->|(r' & -> & Hr')].
    - lia.
    - change (inject_Z 100) with 100. lra.
    - reflexivity.
    - unfold JS.round. rewrite min_of_Z. f_equal. f_equal.
      assert (H100 : (100 <= Qfloor (r' + (1 # 2)))%Z).
      { rewrite <- (Qfloor_Z 100). apply Qfloor_resp_le. lra. }
      lia. }
  destruct c as [| | |q]; try discriminate.
  - unfold JS.div, JS.of_Z. unfold JS.inf_of. rewrite Hsign. exact Hinf.
  - apply Qle_bool_iff in Hge. unfold JS.div, JS.of_Z at 1. rewrite Hnz.
    destruct (fl_at_least (q / inject_Z k) 1) as [->|(r & -> & Hr)].
    + lia.
    + change (inject_Z 1) with 1. apply Qle_shift_div_l; [exact Hk0 | lra].
    + exact Hinf.
    + apply Hfin. exact Hr.
Qed.

Local Close Scope Q_scope.

(** Every achievement of the catalog has a case in the [switch], whose
    target is the threshold of its condition. *)
Lemma progress_values_condition (stats : Achievements.user_stats)
    (a : Achievements.achievement) :
  In a Achievements.ACHIEVEMENTS ->
  exists c k,
    Achievements.progress_values stats (Achievements.id a) = (c, JS.of_Z k) /\
    0 < k < 2 ^ 53 /\
    Achievements.condition a stats = JS.geb c (JS.of_Z k).
Proof.
  intros Hin. unfold Achievements.ACHIEVEMENTS in Hin. cbn [In] in Hin.
  repeat (destruct Hin as [<-|Hin]); [..|contradiction];
    eexists; eexists; (split; [reflexivity|]);
    (split; [split; reflexivity|]);
    cbn [Achievements.condition]; unfold JS.geb; rewrite ?leb_of_Z; reflexivity.
Qed.

(** X17.  [getAchievementProgress] lists exactly the achievements of
    the catalog whose identifier is not among the unlocked ones, each
    once.  Every achievement of the catalog has its case in the
    [switch], with the threshold of its condition as target: the
    condition holds exactly when the current value reaches the target,
    and the progress of such an achievement is 100. *)
Theorem getAchievementProgress_locked :
  forall habits unlocked,
    let stats := Achievements.calculateUserStats habits in
    let ps := Achievements.getAchievementProgress habits unlocked in
    Permutation (map Achievements.p_achievement ps)
                (filter (locked unlocked) Achievements.ACHIEVEMENTS) /\
    forall p, In p ps ->
      let a := Achievements.p_achievement p in
      In a Achievements.ACHIEVEMENTS /\
      ~ In (Achievements.id a) unlocked /\
      p = progress_of stats a /\
      Achievements.condition a stats =
        JS.geb (Achievements.currentValue p) (Achievements.targetValue p) /\
      (Achievements.condition a stats = true ->
       Achievements.progressPercentage p = JS.of_Z 100).
Proof.
  intros habits unlocked stats ps. subst ps.
  unfold Achievements.getAchievementProgress. cbv zeta. fold stats.
  rewrite progress_fold. rewrite app_nil_l.
  set (lockedOnes := filter (locked unlocked) Achievements.ACHIEVEMENTS).
  assert (Hperm : Permutation
            (Arr.sort Achievements.closest_first (map (progress_of stats) lockedOnes))
            (map (progress_of stats) lockedOnes)) by apply sort_perm.
  assert (Hproj : forall l, map Achievements.p_achievement (map (progress_of stats) l) = l).
  { induction l as [|a r IH]; simpl; [reflexivity|]. rewrite IH. f_equal.
    unfold progress_of.
    destruct (Achievements.progress_values stats (Achievements.id a)). reflexivity. }
  split.
  { rewrite <- (Hproj lockedOnes) at 2. apply Permutation_map, Hperm. }
  intros p Hp. set (a := Achievements.p_achievement p).
  assert (Hin : In p (map (progress_of stats) lockedOnes))
    by (eapply Permutation_in; [exact Hperm | exact Hp]).
  apply in_map_iff in Hin as (b & Hb & Hin).
  subst lockedOnes. apply filter_In in Hin as [Hcat Hlocked].
  assert (Hab : a = b).
  { subst a. rewrite <- Hb. unfold progress_of.
    destruct (Achievements.progress_values stats (Achievements.id b)). reflexivity. }
  rewrite Hab. clear a Hab.
  split; [exact Hcat|].
  split.
  { intros H. apply includes_In in H. unfold locked in Hlocked.
    rewrite H in Hlocked. discriminate. }
  split; [symmetry; exact Hb|].
  rewrite <- Hb. unfold progress_of.
  destruct (progress_values_condition stats b Hcat) as (c & k & -> & Hk & Hcond).
  cbn [Achievements.currentValue Achievements.targetValue
       Achievements.progressPercentage].
  split; [exact Hcond|].
  intros Hc. apply progress_full; [exact Hk | rewrite <- Hcond; exact Hc].
Qed.

Lemma getAchievementProgress_locked_witness :
  exists p,
    In p (Achievements.getAchievementProgress [other_habit] []) /\
    Achievements.progressPercentage p = JS.of_Z 100.
Proof.
  assert (H : exists p,
    In p (Achievements.getAchievementProgress [other_habit] []) /\
    Achievements.condition (Achievements.p_achievement p)
      (Achievements.calculateUserStats [other_habit]) = true).
  { vm_compute. eexists. split; [left; reflexivity | reflexivity]. }
  destruct H as (p & Hin & Hc). exists p. split; [exact Hin|].
  exact (proj2 (proj2 (proj2 (proj2
           (proj2 (getAchievementProgress_locked [other_habit] []) p Hin)))) Hc).
Defined.

(** ** Further properties of the integrity check *)

Lemma indexOf_app_absent (x : string) (p r : list string) :
  ~ In x p -> Str.indexOf x (p ++ x :: r) = Some (length p).
Proof.
  induction p as [|y p IH]; simpl; intros Hn.
  - rewrite String.eqb_refl. reflexivity.
  - destruct (String.eqb_spec y x) as [->|_]; [exfalso; apply Hn; left; reflexivity|].
    rewrite IH; [reflexivity|]. intros H. apply Hn. right. exact H.
Qed.

Lemma indexOf_app_present (x : string) (p l : list string) :
  In x p -> exists i, Str.indexOf x (p ++ l) = Some i /\ (i < length p)%nat.
Proof.
  induction p as [|y p IH]; simpl; intros Hin; [contradiction|].
  destruct (String.eqb_spec y x) as [->|Hne].
  - exists O. split; [reflexivity | lia].
  - destruct Hin as [Heq|Hin]; [contradiction|].
    destruct (IH Hin) as (i & -> & Hi). exists (S i). split; [reflexivity | lia].
Qed.

Lemma duplicates_from_nil (l : list string) :
  forall p,
    Synchronizer.duplicates_from (p ++ l) (length p) l = [] <->
    NoDup l /\ forall x, In x l -> ~ In x p.
Proof.
  induction l as [|x r IH]; intros p; simpl.
  - split; [intros _; split; [constructor | intros x []] | reflexivity].
  - assert (Hshift : p ++ x :: r = (p ++ [x]) ++ r) by (rewrite <- app_assoc; reflexivity).
    assert (Hlen : S (length p) = length (p ++ [x])) by (rewrite length_app; simpl; lia).
    destruct (in_dec string_dec x p) as [Hin|Hnot].
    + destruct (indexOf_app_present x p (x :: r) Hin) as (i & -> & Hi).
      replace (i =? length p)%nat with false by (symmetry; apply Nat.eqb_neq; lia).
      split; [discriminate|]. intros [_ H]. exfalso. apply (H x); [left; reflexivity | exact Hin].
    + rewrite (indexOf_app_absent x p r Hnot), Nat.eqb_refl.
      rewrite Hshift, Hlen, IH. split.
      * intros [Hnd Hout]. split.
        -- constructor; [|exact Hnd]. intros Hx. apply (Hout x Hx).
           apply in_or_app. right. left. reflexivity.
        -- intros y [<-|Hy]; [exact Hnot|]. intros Hp. apply (Hout y Hy).
           apply in_or_app. left. exact Hp.
      * intros [Hnd Hout]. inversion Hnd as [|? ? Hx Hnd']; subst. split; [exact Hnd'|].
        intros y Hy Hp. apply in_app_or in Hp as [Hp|[<-|[]]].
        -- apply (Hout y); [right; exact Hy | exact Hp].
        -- contradiction.
Qed.

Lemma for_each_types (f : nat -> habit -> list Synchronizer.issue)
    (P : Synchronizer.issue -> Prop) :
  (forall k h i, In i (f k h) -> P i) ->
  forall hs k i, In i (Synchronizer.for_each_indexed f k hs) -> P i.
Proof.
  intros Hf hs. induction hs as [|h r IH]; intros k i; simpl; [intros []|].
  intros Hin. apply in_app_or in Hin as [Hin|Hin]; [eapply Hf, Hin | eapply IH, Hin].
Qed.

Lemma required_fields_issue (k : nat) (h : habit) (i : Synchronizer.issue) :
  In i (Synchronizer.required_fields k h) ->
  per_habit_issue i /\
  (Synchronizer.type i = "missing_name"%string -> name_error (name h) = true) /\
  (Synchronizer.type i = "invalid_frequency"%string ->
   frequency_error (frequency h) = true).
Proof.
  unfold Synchronizer.required_fields, per_habit_issue. intros Hin.
  destruct (String.eqb (id h) ""), (name_error (name h)), (frequency_error (frequency h));
    simpl in Hin; intuition (subst; simpl; auto; try discriminate).
Qed.

Lemma consistency_issues_issue (k : nat) (h : habit) (i : Synchronizer.issue) :
  In i (Synchronizer.consistency_issues k h) ->
  per_habit_issue i /\
  Synchronizer.type i <> "missing_name"%string /\
  Synchronizer.type i <> "invalid_frequency"%string.
Proof.
  unfold Synchronizer.consistency_issues, per_habit_issue. intros Hin.
  apply in_app_or in Hin as [Hin|Hin].
  - destruct (JS.gtb _ _); simpl in Hin; [|contradiction].
    destruct Hin as [<-|[]]. simpl. split; [auto 10|]. split; discriminate.
  - destruct (completionHistory h) as [l|]; [|contradiction].
    cbv zeta in Hin. destruct (JS.gtb _ _); simpl in Hin; [|contradiction].
    destruct Hin as [<-|[]]. simpl. split; [auto 10|]. split; discriminate.
Qed.

Lemma required_fields_of_valid (hs : list habit) :
  forall k i,
    forallb validateHabit hs = true ->
    In i (Synchronizer.for_each_indexed Synchronizer.required_fields k hs) ->
    Synchronizer.type i <> "missing_name"%string /\
    Synchronizer.type i <> "invalid_frequency"%string.
Proof.
  induction hs as [|h r IH]; intros k i Hvalid Hin; simpl in Hin; [contradiction|].
  simpl in Hvalid. apply andb_prop in Hvalid as [Hh Hr].
  apply in_app_or in Hin as [Hin|Hin]; [|apply (IH (S k) i Hr Hin)].
  rewrite validateHabit_fields, !andb_true_iff in Hh.
  destruct Hh as [[[[Hn Hf] _] _] _].
  apply negb_true_iff in Hn, Hf.
  destruct (required_fields_issue k h i Hin) as (_ & Hname & Hfreq).
  split; intros Hty; [apply Hname in Hty | apply Hfreq in Hty]; congruence.
Qed.

Lemma severity_counts (l : list Synchronizer.issue) :
  Forall (fun i => Synchronizer.severity i = "critical" \/
                   Synchronizer.severity i = "high" \/
                   Synchronizer.severity i = "medium" \/
                   Synchronizer.severity i = "low")%string l ->
  Synchronizer.count_severity "critical" l + Synchronizer.count_severity "high" l +
  Synchronizer.count_severity "medium" l + Synchronizer.count_severity "low" l =
  Z.of_nat (length l).
Proof.
  unfold Synchronizer.count_severity.
  induction 1 as [|i r Hi _ IH]; [reflexivity|].
  cbn [filter length].
  destruct Hi as [->|[->|[->| ->]]]; simpl String.eqb; cbv iota; cbn [length]; lia.
Qed.

(** X18.  [validateDataIntegrity] reports a ['duplicate_ids'] issue
    exactly when two habits share an identifier; the collection is
    valid exactly when no issue is reported; the four counts of the
    summary add up to the number of issues.  On habits that pass
    [validateHabit], as every stored collection does, no
    ['missing_name'] and no ['invalid_frequency'] issue is raised. *)
Theorem validateDataIntegrity_report :
  forall habits,
    let v := Synchronizer.validateDataIntegrity habits in
    let s := Synchronizer.validationSummary v in
    (Synchronizer.isValid v = true <-> Synchronizer.issues v = []) /\
    ((exists i, In i (Synchronizer.issues v) /\
                Synchronizer.type i = "duplicate_ids"%string) <->
     ~ NoDup (map id habits)) /\
    Synchronizer.totalHabits s = Z.of_nat (length habits) /\
    Synchronizer.criticalIssues s + Synchronizer.highIssues s +
      Synchronizer.mediumIssues s + Synchronizer.lowIssues s =
      Z.of_nat (length (Synchronizer.issues v)) /\
    (forallb validateHabit habits = true ->
     forall i, In i (Synchronizer.issues v) ->
       Synchronizer.type i <> "missing_name"%string /\
       Synchronizer.type i <> "invalid_frequency"%string).
Proof.
  intros habits v s. subst s v.
  unfold Synchronizer.validateDataIntegrity. cbv zeta.
  cbn [Synchronizer.isValid Synchronizer.issues Synchronizer.validationSummary
       Synchronizer.totalHabits Synchronizer.criticalIssues Synchronizer.highIssues
       Synchronizer.mediumIssues Synchronizer.lowIssues].
  set (ids := map id habits).
  set (dups := Synchronizer.duplicates_from ids 0 ids).
  set (required := Synchronizer.for_each_indexed Synchronizer.required_fields 0 habits).
  set (consistency :=
         Synchronizer.for_each_indexed Synchronizer.consistency_issues 0 habits).
  assert (Hdups : dups = [] <-> NoDup ids).
  { subst dups. rewrite (duplicates_from_nil ids []). split; [intros [H _]; exact H|].
    intros H. split; [exact H | intros x _ []]. }
  assert (Hreq : forall i, In i required -> per_habit_issue i).
  { intros i. apply (for_each_types Synchronizer.required_fields). intros k h j Hj.
    apply (required_fields_issue k h j Hj). }
  assert (Hcons : forall i, In i consistency -> per_habit_issue i).
  { intros i. apply (for_each_types Synchronizer.consistency_issues). intros k h j Hj.
    apply (consistency_issues_issue k h j Hj). }
  split.
  { destruct (_ ++ _); simpl; split; auto; discriminate. }
  split.
  { split.
    - intros (i & Hin & Hty) Hnd. apply Hdups in Hnd. rewrite Hnd in Hin. simpl in Hin.
      apply in_app_or in Hin as [Hin|Hin]; [apply Hreq in Hin | apply Hcons in Hin];
        unfold per_habit_issue in Hin; rewrite Hty in Hin;
        intuition discriminate.
    - intros Hnd. destruct dups as [|d ds] eqn:Hd; [exfalso; apply Hnd, Hdups; reflexivity|].
      eexists. split; [left; reflexivity | reflexivity]. }
  split; [reflexivity|].
  split.
  { apply severity_counts. apply Forall_forall. intros i Hin.
    apply in_app_or in Hin as [Hin|Hin].
    - destruct dups; [contradiction|]. destruct Hin as [<-|[]]. simpl. auto.
    - apply in_app_or in Hin as [Hin|Hin]; [apply Hreq in Hin | apply Hcons in Hin];
        unfold per_habit_issue in Hin; intuition auto. }
  intros Hvalid i Hin.
  apply in_app_or in Hin as [Hin|Hin].
  { destruct dups; [contradiction|]. destruct Hin as [<-|[]]. simpl. split; discriminate. }
  apply in_app_or in Hin as [Hin|Hin].
  - apply (required_fields_of_valid habits 0 i Hvalid Hin).
  - apply (for_each_types Synchronizer.consistency_issues
             (fun j => Synchronizer.type j <> "missing_name"%string /\
                       Synchronizer.type j <> "invalid_frequency"%string))
      with (hs := habits) (k := 0%nat); [|exact Hin].
    intros k h j Hj. apply (consistency_issues_issue k h j Hj).
Qed.

Lemma validateDataIntegrity_report_witness :
  exists i,
    In i (Synchronizer.issues
            (Synchronizer.validateDataIntegrity [plain_habit "a"; plain_habit "a"])) /\
    Synchronizer.type i = "duplicate_ids"%string.
Proof.
  apply (proj2 (proj1 (proj2
           (validateDataIntegrity_report [plain_habit "a"; plain_habit "a"])))).
  intros H. inversion H as [|? ? Hnot _]; subst. apply Hnot. left. reflexivity.
Defined.

(** *** What the repair keeps *)

Lemma repaired_from_refl (h : habit) : repaired_from h h.
Proof. unfold repaired_from. auto 10. Qed.

Lemma repaired_from_trans (a b c : habit) :
  repaired_from a b -> repaired_from b c -> repaired_from a c.
Proof.
  unfold repaired_from.
  intros (A1 & A2 & A3 & A4 & A5 & A6 & A7 & A8) (B1 & B2 & B3 & B4 & B5 & B6 & B7 & B8).
  repeat split; try congruence.
  destruct B8 as [B8|B8]; [|right; exact B8].
  destruct A8 as [A8|A8]; [left | right]; congruence.
Qed.

Lemma Forall2_same {A : Type} (R : A -> A -> Prop) (l : list A) :
  (forall x, R x x) -> Forall2 R l l.
Proof. intros HR. induction l; constructor; auto. Qed.

Lemma Forall2_chain {A : Type} (R : A -> A -> Prop) :
  (forall x y z, R x y -> R y z -> R x z) ->
  forall l1 l2 l3, Forall2 R l1 l2 -> Forall2 R l2 l3 -> Forall2 R l1 l3.
Proof.
  intros HR l1 l2 l3 H12. revert l3.
  induction H12 as [|x y r1 r2 Hxy _ IH]; intros l3 H23; inversion H23; subst;
    constructor; eauto.
Qed.

Lemma set_nth_repaired (l : list habit) :
  forall k h v,
    nth_error l k = Some h -> repaired_from h v ->
    Forall2 repaired_from l (Arr.set_nth k v l).
Proof.
  induction l as [|x r IH]; intros [|k] h v Hk Hv; simpl in *; try discriminate.
  - injection Hk as ->. constructor; [exact Hv|].
    apply Forall2_same, repaired_from_refl.
  - constructor; [apply repaired_from_refl | eapply IH; eassumption].
Qed.

Lemma set_nth_lookup {A : Type} (l : list A) :
  forall k v j,
    (k < length l)%nat ->
    nth_error (Arr.set_nth k v l) j = if (j =? k)%nat then Some v else nth_error l j.
Proof.
  induction l as [|x r IH]; intros [|k] v [|j] Hk; simpl in *; try lia; try reflexivity.
  apply IH. lia.
Qed.

Section RepairFacts.
Variable uuid : nat -> string.

Lemma regenerate_frame (ids : list string) (l : list habit) :
  forall index calls,
    Forall2 repaired_from l (fst (Synchronizer.regenerate uuid ids index l calls)).
Proof.
  induction l as [|h r IH]; intros index calls; simpl; [constructor|].
  destruct (Str.includes (id h) ids && (0 <? index)%nat).
  - specialize (IH (S index) (S calls)).
    destruct (Synchronizer.regenerate uuid ids (S index) r (S calls)) as [r' c'].
    simpl in *. constructor; [|exact IH]. unfold repaired_from. simpl. auto 10.
  - specialize (IH (S index) calls).
    destruct (Synchronizer.regenerate uuid ids (S index) r calls) as [r' c'].
    simpl in *. constructor; [apply repaired_from_refl | exact IH].
Qed.

Lemma habit_at_Some (d : Synchronizer.issue_data) (l : list habit) (k : nat) (h : habit) :
  Synchronizer.habit_at d l = Some (k, h) ->
  Synchronizer.data_index d = Some k /\ nth_error l k = Some h.
Proof.
  unfold Synchronizer.habit_at.
  destruct (Synchronizer.data_index d) as [i|]; [|discriminate].
  destruct (nth_error l i) as [x|] eqn:Hx; [|discriminate].
  intros H. injection H as <- <-. auto.
Qed.

Lemma fix_issue_frame (fh : list habit) (c : nat) (i : Synchronizer.issue)
    (fh' : list habit) (c' : nat) :
  Synchronizer.fix_issue uuid (fh, c) i = Some (fh', c') ->
  Forall2 repaired_from fh fh'.
Proof.
  unfold Synchronizer.fix_issue. cbv beta iota zeta.
  destruct (String.eqb (Synchronizer.type i) "duplicate_ids").
  { destruct (Synchronizer.data i); try discriminate.
    intros H. injection H as H.
    pose proof (regenerate_frame ids fh 0 c) as Hf. rewrite H in Hf. exact Hf. }
  destruct (String.eqb (Synchronizer.type i) "missing_id").
  { destruct (Synchronizer.habit_at (Synchronizer.data i) fh) as [[k h]|] eqn:Hat;
      intros H; injection H as <- <-; [|apply Forall2_same, repaired_from_refl].
    apply habit_at_Some in Hat as [_ Hk].
    apply (set_nth_repaired fh k h); [exact Hk|]. unfold repaired_from. simpl. auto 10. }
  destruct (String.eqb (Synchronizer.type i) "invalid_frequency").
  { destruct (Synchronizer.habit_at (Synchronizer.data i) fh) as [[k h]|] eqn:Hat;
      intros H; injection H as <- <-; [|apply Forall2_same, repaired_from_refl].
    apply habit_at_Some in Hat as [_ Hk].
    apply (set_nth_repaired fh k h); [exact Hk|]. unfold repaired_from. simpl. auto 10. }
  destruct (String.eqb (Synchronizer.type i) "inconsistent_progress").
  { destruct (Synchronizer.habit_at (Synchronizer.data i) fh) as [[k h]|] eqn:Hat.
    - destruct (completionHistory h) as [l|] eqn:Hh;
        intros H; injection H as <- <-; [|apply Forall2_same, repaired_from_refl].
      apply habit_at_Some in Hat as [_ Hk].
      apply (set_nth_repaired fh k h); [exact Hk|]. unfold repaired_from. simpl. auto 10.
    - intros H; injection H as <- <-. apply Forall2_same, repaired_from_refl. }
  intros H; injection H as <- <-. apply Forall2_same, repaired_from_refl.
Qed.

Lemma fix_loop_frame (l : list Synchronizer.issue) :
  forall fh c fh' c',
    Synchronizer.fix_loop uuid (fh, c) l = Some (fh', c') ->
    Forall2 repaired_from fh fh'.
Proof.
  induction l as [|i r IH]; intros fh c fh' c'; cbn [Synchronizer.fix_loop].
  - intros H. injection H as <- <-. apply Forall2_same, repaired_from_refl.
  - destruct (Synchronizer.fix_issue uuid (fh, c) i) as [[fh1 c1]|] eqn:Hi;
      [|discriminate].
    intros Hr. eapply (Forall2_chain repaired_from repaired_from_trans).
    + eapply fix_issue_frame, Hi.
    + eapply IH, Hr.
Qed.

Lemma fixDataIntegrity_frame_all (habits : list habit) (l : list Synchronizer.issue) :
  Forall2 repaired_from habits (Synchronizer.fixDataIntegrity uuid habits l).
Proof.
  unfold Synchronizer.fixDataIntegrity.
  destruct (Synchronizer.fix_loop uuid (habits, O) l) as [[fh c]|] eqn:Hl.
  - eapply fix_loop_frame, Hl.
  - apply Forall2_same, repaired_from_refl.
Qed.

(** The frequency of a habit is acceptable. *)
Lemma frequency_kept_ok (h h' : habit) :
  repaired_from h h' -> frequency_error (frequency h) = false ->
  frequency_error (frequency h') = false.
Proof.
  intros (_ & _ & _ & _ & _ & _ & _ & [Hf|Hf]) Hok; rewrite Hf; [exact Hok | reflexivity].
Qed.

Lemma Forall2_lookup {A : Type} (R : A -> A -> Prop) (l1 l2 : list A) :
  Forall2 R l1 l2 ->
  forall k y, nth_error l2 k = Some y -> exists x, nth_error l1 k = Some x /\ R x y.
Proof.
  induction 1 as [|a b r1 r2 Hab _ IH]; intros [|k] y Hy; simpl in *; try discriminate.
  - injection Hy as <-. eauto.
  - apply IH, Hy.
Qed.

Lemma fix_issue_frequency (fh : list habit) (c k : nat) (sev hid : string)
    (f : option string) :
  exists fh' c',
    Synchronizer.fix_issue uuid (fh, c)
      (Synchronizer.mkIssue "invalid_frequency" sev
         (Synchronizer.InvalidFrequency k hid f)) = Some (fh', c') /\
    forall h', nth_error fh' k = Some h' -> frequency_error (frequency h') = false.
Proof.
  unfold Synchronizer.fix_issue, Synchronizer.habit_at. simpl.
  destruct (nth_error fh k) as [h|] eqn:Hk.
  - do 2 eexists. split; [reflexivity|]. intros h' Hh'.
    rewrite set_nth_lookup in Hh' by (apply nth_error_Some; congruence).
    rewrite Nat.eqb_refl in Hh'. injection Hh' as <-. reflexivity.
  - do 2 eexists. split; [reflexivity|]. intros h' Hh'. congruence.
Qed.

Lemma fix_loop_frequency (l : list Synchronizer.issue) :
  forall fh c,
    (forall i, In i l -> Synchronizer.type i = "duplicate_ids"%string ->
       exists ids, Synchronizer.data i = Synchronizer.DuplicateIds ids) ->
    exists fh' c',
      Synchronizer.fix_loop uuid (fh, c) l = Some (fh', c') /\
      forall k h',
        nth_error fh' k = Some h' ->
        (exists h, nth_error fh k = Some h /\ frequency_error (frequency h) = false) \/
        (exists sev hid f,
           In (Synchronizer.mkIssue "invalid_frequency" sev
                 (Synchronizer.InvalidFrequency k hid f)) l) ->
        frequency_error (frequency h') = false.
Proof.
  induction l as [|i r IH]; intros fh c Hshape.
  - exists fh, c. split; [reflexivity|].
    intros k h' Hh' [(h & Hh & Hok)|(sev & hid & f & [])]. congruence.
  - assert (Hstep : exists fh1 c1, Synchronizer.fix_issue uuid (fh, c) i = Some (fh1, c1)).
    { destruct (Synchronizer.fix_issue uuid (fh, c) i) as [[fh1 c1]|] eqn:Hi; [eauto|].
      exfalso. unfold Synchronizer.fix_issue in Hi.
      destruct (String.eqb_spec (Synchronizer.type i) "duplicate_ids") as [Hty|_].
      - destruct (Hshape i (or_introl eq_refl) Hty) as (ids & Hd). rewrite Hd in Hi.
        discriminate.
      - repeat match type of Hi with
               | (if ?b then _ else _) = None => destruct b
               | match ?x with _ => _ end = None => destruct x
               end; discriminate. }
    destruct Hstep as (fh1 & c1 & Hi).
    destruct (IH fh1 c1) as (fh' & c' & Hloop & Hfreq).
    { intros j Hj. apply Hshape. right. exact Hj. }
    exists fh', c'. split; [cbn [Synchronizer.fix_loop]; rewrite Hi; exact Hloop|].
    pose proof (fix_issue_frame _ _ _ _ _ Hi) as Hframe.
    intros k h' Hh' Hcase. apply (Hfreq k h' Hh').
    destruct (nth_error fh1 k) as [h1|] eqn:Hk1.
    + destruct (Forall2_lookup _ _ _ Hframe k h1 Hk1) as (h & Hh & Hkeep).
      destruct Hcase as [(h0 & Hh0 & Hok)|(sev & hid & f & [Heq|Hin])].
      * left. exists h1. split; [reflexivity|].
        rewrite Hh in Hh0. injection Hh0 as <-. eapply frequency_kept_ok; eassumption.
      * left. exists h1. split; [reflexivity|]. subst i.
        destruct (fix_issue_frequency fh c k sev hid f) as (fh2 & c2 & Hi2 & Hok).
        rewrite Hi in Hi2. injection Hi2 as <- <-. apply Hok, Hk1.
      * right. eauto.
    + exfalso.
      pose proof (fix_loop_frame _ _ _ _ _ Hloop) as Hframe'.
      destruct (Forall2_lookup _ _ _ Hframe' k h' Hh') as (x & Hx & _). congruence.
Qed.

Lemma invalid_frequency_reported (hs : list habit) :
  forall k0 k h,
    nth_error hs k = Some h -> frequency_error (frequency h) = true ->
    In (Synchronizer.mkIssue "invalid_frequency" "medium"
          (Synchronizer.InvalidFrequency (k0 + k) (id h) (frequency h)))
       (Synchronizer.for_each_indexed Synchronizer.required_fields k0 hs).
Proof.
  induction hs as [|x r IH]; intros k0 [|k] h Hk Hf; simpl in Hk; try discriminate.
  - injection Hk as ->. simpl. apply in_or_app. left.
    unfold Synchronizer.required_fields. rewrite Hf, Nat.add_0_r.
    apply in_or_app. right. apply in_or_app. right. left. reflexivity.
  - simpl. apply in_or_app. right.
    replace (k0 + S k)%nat with (S k0 + k)%nat by lia. apply IH; assumption.
Qed.

End RepairFacts.

(** X19.  Whatever the issues, [fixDataIntegrity] returns as many
    habits as it was given, in their order, and changes of a habit at
    most its identifier, its [completedDays] and its frequency, which
    it keeps or sets to ['daily'].  Run on the issues that
    [validateDataIntegrity] reports for the same habits, it leaves
    every habit with a frequency of ['daily'] or ['weekly']; without
    issues it returns the habits as they are. *)
Theorem fixDataIntegrity_frame :
  forall uuid habits,
    (forall l, Forall2 repaired_from habits (Synchronizer.fixDataIntegrity uuid habits l)) /\
    (forall l, length (Synchronizer.fixDataIntegrity uuid habits l) = length habits) /\
    Synchronizer.fixDataIntegrity uuid habits [] = habits /\
    Forall (fun h => frequency_error (frequency h) = false)
      (Synchronizer.fixDataIntegrity uuid habits
         (Synchronizer.issues (Synchronizer.validateDataIntegrity habits))).
Proof.
  intros uuid habits.
  split; [apply fixDataIntegrity_frame_all|].
  split.
  { intros l. symmetry. eapply Forall2_length, fixDataIntegrity_frame_all. }
  split; [reflexivity|].
  unfold Synchronizer.fixDataIntegrity.
  set (l := Synchronizer.issues (Synchronizer.validateDataIntegrity habits)).
  destruct (fix_loop_frequency uuid l habits O) as (fh' & c' & Hloop & Hfreq).
  { subst l. unfold Synchronizer.validateDataIntegrity. cbv zeta.
    cbn [Synchronizer.issues]. intros i Hin Hty.
    apply in_app_or in Hin as [Hin|Hin].
    - destruct (Synchronizer.duplicates_from _ _ _) as [|d ds]; [contradiction|].
      destruct Hin as [<-|[]]. eexists. reflexivity.
    - exfalso. apply in_app_or in Hin as [Hin|Hin].
      + apply (for_each_types Synchronizer.required_fields per_habit_issue) in Hin.
        * unfold per_habit_issue in Hin. rewrite Hty in Hin. intuition discriminate.
        * intros k h j Hj. apply (required_fields_issue k h j Hj).
      + apply (for_each_types Synchronizer.consistency_issues per_habit_issue) in Hin.
        * unfold per_habit_issue in Hin. rewrite Hty in Hin. intuition discriminate.
        * intros k h j Hj. apply (consistency_issues_issue k h j Hj). }
  rewrite Hloop. apply Forall_forall. intros h' Hin.
  apply In_nth_error in Hin as (k & Hk).
  apply (Hfreq k h' Hk).
  pose proof (fix_loop_frame uuid l habits O fh' c' Hloop) as Hframe.
  destruct (Forall2_lookup _ _ _ Hframe k h' Hk) as (h & Hh & _).
  destruct (frequency_error (frequency h)) eqn:Hf.
  - right. exists "medium"%string, (id h), (frequency h).
    subst l. unfold Synchronizer.validateDataIntegrity. cbv zeta.
    cbn [Synchronizer.issues]. apply in_or_app. right. apply in_or_app. left.
    apply (invalid_frequency_reported habits 0 k h Hh Hf).
  - left. exists h. auto.
Qed.

Lemma fixDataIntegrity_frame_witness :
  Forall (fun h => frequency_error (frequency h) = false)
    (Synchronizer.fixDataIntegrity (fun _ => "u"%string) [shouting_habit]
       (Synchronizer.issues (Synchronizer.validateDataIntegrity [shouting_habit]))) /\
  frequency_error (frequency shouting_habit) = true.
Proof.
  split; [|reflexivity].
  exact (proj2 (proj2 (proj2 (fixDataIntegrity_frame (fun _ => "u"%string)
                                [shouting_habit])))).
Defined.

(** ** Change detection *)

Lemma find_unique (hs : list habit) (h : habit) :
  NoDup (map id hs) -> In h hs ->
  find (fun x => String.eqb (id x) (id h)) hs = Some h.
Proof.
  induction hs as [|b r IH]; simpl; intros Hnd Hin; [contradiction|].
  inversion Hnd as [|? ? Hnot Hnd']; subst.
  destruct Hin as [->|Hin]; [rewrite String.eqb_refl; reflexivity|].
  destruct (String.eqb_spec (id b) (id h)) as [Heq|_].
  - exfalso. apply Hnot. rewrite Heq. apply in_map, Hin.
  - apply IH; assumption.
Qed.

Lemma modified_fold (old : list habit) (l : list habit) :
  forall acc,
    fold_left (Synchronizer.modified_one old) l acc =
    acc ++ flat_map (modification_of old) l.
Proof.
  induction l as [|n r IH]; intros acc; simpl; [rewrite app_nil_r; reflexivity|].
  rewrite IH. unfold Synchronizer.modified_one, modification_of.
  destruct (find _ old) as [o|]; [|reflexivity].
  destruct (Synchronizer.isModified o n); [|reflexivity].
  rewrite <- app_assoc. reflexivity.
Qed.

Lemma eqb_number_refl (x : JS.number) : x <> JS.NaN -> JS.eqb x x = true.
Proof.
  destruct x as [| | |q]; intros H; try reflexivity; [contradiction|].
  simpl. apply Qeq_bool_iff. reflexivity.
Qed.

Lemma counter_same (c : option JS.number) :
  c <> Some JS.NaN -> Synchronizer.counter_differs c c = false.
Proof.
  destruct c as [x|]; simpl; intros H; [|reflexivity].
  rewrite eqb_number_refl; [reflexivity|]. intros ->. apply H. reflexivity.
Qed.

Lemma string_same (s : option string) : Synchronizer.string_differs s s = false.
Proof. destruct s as [x|]; simpl; [rewrite String.eqb_refl|]; reflexivity. Qed.

Lemma not_includes (x : string) (l : list string) :
  Str.includes x l = false <-> ~ In x l.
Proof.
  split.
  - intros H Hin. apply includes_In in Hin. congruence.
  - intros H. destruct (Str.includes x l) eqn:Hi; [|reflexivity].
    exfalso. apply H. unfold Str.includes in Hi.
    apply existsb_exists in Hi as (y & Hy & Heq). apply String.eqb_eq in Heq.
    subst y. exact Hy.
Qed.

(** X20.  [detectChanges] reports as added the new habits whose
    identifier no old habit has, as removed the old habits whose
    identifier no new habit has, and as modified the new habits whose
    first old namesake differs in name, completion flag or one of the
    two counters; added and removed are mirror images.  It reports no
    change between a collection and itself when the identifiers are
    distinct and no counter is NaN, and it does not see a change of
    another property such as the frequency or the history. *)
Theorem detectChanges_report :
  forall old new,
    let c := Synchronizer.detectChanges old new in
    (forall h, In h (Synchronizer.added c) <-> In h new /\ ~ In (id h) (map id old)) /\
    (forall h, In h (Synchronizer.removed c) <-> In h old /\ ~ In (id h) (map id new)) /\
    Synchronizer.added c = Synchronizer.removed (Synchronizer.detectChanges new old) /\
    Synchronizer.modified c = flat_map (modification_of old) new /\
    Synchronizer.totalChanges (Synchronizer.changeSummary c) =
      Z.of_nat (length (Synchronizer.added c) + length (Synchronizer.removed c) +
                length (Synchronizer.modified c)) /\
    (Synchronizer.hasChanges c = false <->
     Synchronizer.totalChanges (Synchronizer.changeSummary c) = 0) /\
    (old = new -> NoDup (map id old) -> Forall counters_comparable old ->
     Synchronizer.hasChanges c = false) /\
    (forall h h',
       old = [h] -> new = [h'] ->
       id h' = id h -> name h' = name h -> isCompleted h' = isCompleted h ->
       completedDays h' = completedDays h -> totalDays h' = totalDays h ->
       counters_comparable h ->
       Synchronizer.hasChanges c = false).
Proof.
  intros old new c. subst c. unfold Synchronizer.detectChanges. cbv zeta.
  cbn [Synchronizer.added Synchronizer.removed Synchronizer.modified
       Synchronizer.hasChanges Synchronizer.changeSummary Synchronizer.totalChanges].
  rewrite modified_fold, app_nil_l.
  split.
  { intros h. rewrite filter_In, negb_true_iff, not_includes. reflexivity. }
  split.
  { intros h. rewrite filter_In, negb_true_iff, not_includes. reflexivity. }
  split; [reflexivity|].
  split; [reflexivity|].
  split; [lia|].
  split.
  { destruct (filter _ new), (filter _ old), (flat_map _ new); simpl; split;
      intros H; try reflexivity; try discriminate; lia. }
  assert (Hnone : forall hs : list habit,
            filter (fun h => negb (Str.includes (id h) (map id hs))) hs = []).
  { intros hs.
    assert (H : forall l, (forall x, In x l -> In x hs) ->
              filter (fun h => negb (Str.includes (id h) (map id hs))) l = []).
    { induction l as [|x r IH]; intros Hsub; simpl; [reflexivity|].
      rewrite includes_In by (apply in_map, Hsub; left; reflexivity).
      simpl. apply IH. intros y Hy. apply Hsub. right. exact Hy. }
    apply H. auto. }
  split.
  { intros <- Hnd Hcmp. rewrite Hnone.
    assert (Hmod : flat_map (modification_of old) old = []).
    { assert (H : forall l, (forall x, In x l -> In x old) ->
                flat_map (modification_of old) l = []).
      { induction l as [|x r IH]; intros Hsub; simpl; [reflexivity|].
        rewrite IH by (intros y Hy; apply Hsub; right; exact Hy).
        unfold modification_of.
        rewrite (find_unique old x Hnd) by (apply Hsub; left; reflexivity).
        rewrite Forall_forall in Hcmp.
        destruct (Hcmp x (Hsub x (or_introl eq_refl))) as [Hc Ht].
        unfold Synchronizer.isModified.
        rewrite string_same, eqb_reflx, (counter_same _ Hc), (counter_same _ Ht).
        reflexivity. }
      apply H. auto. }
    rewrite Hmod. reflexivity. }
  intros h h' -> -> Hid Hname Hflag Hc Ht [Hcn Htn].
  simpl. unfold modification_of. simpl.
  rewrite Hid, String.eqb_refl. simpl.
  unfold Synchronizer.isModified.
  rewrite Hname, Hflag, Hc, Ht, string_same, eqb_reflx,
    (counter_same _ Hcn), (counter_same _ Htn).
  reflexivity.
Qed.

Lemma detectChanges_report_witness :
  Synchronizer.hasChanges
    (Synchronizer.detectChanges [sample_habit]
       [Synchronizer.with_frequency sample_habit "weekly"]) = false.
Proof.
  apply (proj2 (proj2 (proj2 (proj2 (proj2 (proj2 (proj2
           (detectChanges_report [sample_habit]
              [Synchronizer.with_frequency sample_habit "weekly"])))))))
           sample_habit (Synchronizer.with_frequency sample_habit "weekly"));
    try reflexivity.
  split; discriminate.
Defined.

(** ** The full synchronization *)

(** X21.  While a synchronization is in progress, [performFullSync]
    without [force] refuses, touching neither the state, the store
    nor the listeners.  Otherwise it reports success, also when the
    store refused a write, ends with the flag cleared and the time of
    synchronization set, and notifies a start, the progress steps in
    rising order and a completion.  The habits it returns are the
    ones loaded before the repair: they pass [validateHabit], they
    are what the store holds afterwards when the check found no
    issue, and they are the recalculated habits when the
    recalculation was asked for and written and every stored habit
    has a creation date.  No other key of the store is touched. *)
Theorem performFullSync_outcome :
  forall uuid now force recalculate wRecalculate wSave s st,
    let o := Synchronizer.performFullSync uuid now force recalculate
               wRecalculate wSave s st in
    (Synchronizer.syncInProgress s = true -> force = false ->
     o = (Synchronizer.mkSyncResult false "Sync already in progress" None, s, st, [])) /\
    (Synchronizer.syncInProgress s = false \/ force = true ->
     Synchronizer.success (outcome_result o) = true /\
     outcome_state o = Synchronizer.mkSyncState false (Some now) /\
     hd_error (outcome_events o) = Some Synchronizer.SyncStarted /\
     progress_steps (outcome_events o) =
       (if recalculate then [25] else []) ++ [50; 75; 100] /\
     (forall key, key <> STORAGE_KEYS_HABITS -> outcome_store o key = st key) /\
     exists d,
       Synchronizer.syncData (outcome_result o) = Some d /\
       Synchronizer.dataSyncTime d = now /\
       Synchronizer.dataIssues d =
         Synchronizer.issues
           (Synchronizer.validateDataIntegrity (Synchronizer.syncedHabits d)) /\
       last (outcome_events o) Synchronizer.SyncStarted =
         Synchronizer.SyncCompleted
           (Z.of_nat (length (Synchronizer.syncedHabits d))) now
           (Synchronizer.dataIssues d) /\
       forallb validateHabit (Synchronizer.syncedHabits d) = true /\
       (Synchronizer.dataIssues d = [] ->
        forall t, Storage.getHabits t (outcome_store o) =
                  Storage.getHabits t
                    (if recalculate
                     then snd (Storage.recalculateAllHabitsProgress now wRecalculate st)
                     else st)) /\
       (recalculate = true -> wRecalculate = true ->
        Forall dated (Storage.getHabits now st) ->
        Synchronizer.syncedHabits d =
          map (Storage.recalculated now) (Storage.getHabits now st)) /\
       (recalculate = false ->
        Synchronizer.syncedHabits d = Storage.getHabits now st)).
Proof.
  intros uuid now force recalculate wRecalculate wSave s st o. subst o.
  unfold Synchronizer.performFullSync.
  split.
  { intros -> ->. reflexivity. }
  intros Hgo.
  replace (Synchronizer.syncInProgress s && negb force) with false
    by (destruct Hgo as [-> | ->]; [reflexivity | rewrite andb_false_r; reflexivity]).
  cbv zeta.
  set (st1 := if recalculate
              then snd (Storage.recalculateAllHabitsProgress now wRecalculate st)
              else st).
  set (habits := Storage.getHabits now st1).
  set (v := Synchronizer.validateDataIntegrity habits).
  unfold outcome_result, outcome_state, outcome_store, outcome_events.
  cbn [fst snd Synchronizer.success Synchronizer.syncData].
  assert (Hkeys1 : forall key, key <> STORAGE_KEYS_HABITS -> st1 key = st key).
  { intros key Hk. subst st1. destruct recalculate; [|reflexivity].
    unfold Storage.recalculateAllHabitsProgress. cbv zeta.
    apply saveHabits_other_keys, Hk. }
  split; [reflexivity|]. split; [reflexivity|]. split; [reflexivity|].
  split; [destruct recalculate; reflexivity|].
  split.
  { intros key Hk. destruct (Synchronizer.isValid v); [apply Hkeys1, Hk|].
    rewrite saveHabits_other_keys by exact Hk. apply Hkeys1, Hk. }
  eexists. split; [reflexivity|].
  cbn [Synchronizer.dataSyncTime Synchronizer.dataIssues Synchronizer.syncedHabits].
  split; [reflexivity|]. split; [reflexivity|].
  split; [destruct recalculate; reflexivity|].
  split; [apply getHabits_valid|].
  split.
  { intros Hnone t.
    assert (Hvalid : Synchronizer.isValid v = true).
    { subst v. unfold Synchronizer.validateDataIntegrity in *. cbv zeta in *.
      cbn [Synchronizer.isValid Synchronizer.issues] in *. rewrite Hnone. reflexivity. }
    rewrite Hvalid. reflexivity. }
  split.
  - intros -> -> _. subst habits st1.
    destruct (recalculateAllHabitsProgress_result now true st) as [Hv ->].
    simpl snd. apply getHabits_setItem, Hv.
  - intros ->. reflexivity.
Qed.

Lemma performFullSync_outcome_witness :
  Synchronizer.performFullSync (fun _ => "u"%string) 7 false true true true
    (Synchronizer.mkSyncState true None) sample_store =
  (Synchronizer.mkSyncResult false "Sync already in progress" None,
   Synchronizer.mkSyncState true None, sample_store, []).
Proof.
  exact (proj1 (performFullSync_outcome (fun _ => "u"%string) 7 false true true true
                  (Synchronizer.mkSyncState true None) sample_store)
               eq_refl eq_refl).
Defined.

(** ** The streak of days of the tips *)

Lemma set_add_spec (d : Z) (s : list Z) :
  NoDup s ->
  NoDup (Tips.set_add d s) /\ forall x, In x (Tips.set_add d s) <-> x = d \/ In x s.
Proof.
  intros Hnd. unfold Tips.set_add.
  destruct (existsb (Z.eqb d) s) eqn:He.
  - apply existsb_exists in He as (y & Hy & Heq). apply Z.eqb_eq in Heq. subst y.
    split; [exact Hnd|]. intros x. split; [auto|]. intros [->|H]; assumption.
  - assert (Hnot : ~ In d s).
    { intros Hin. apply Bool.not_true_iff_false in He. apply He.
      apply existsb_exists. exists d. split; [exact Hin | apply Z.eqb_refl]. }
    split.
    + apply NoDup_app; [exact Hnd | repeat constructor; intros [] |].
      intros x Hx [<-|[]]. contradiction.
    + intros x. rewrite in_app_iff. simpl. intuition.
Qed.

Lemma add_entries_spec (l : list entry) :
  forall s,
    NoDup s ->
    let s' := fold_left (fun s e => if completed e then Tips.set_add (date e) s else s) l s in
    NoDup s' /\
    forall x, In x s' <->
      In x s \/ exists e, In e l /\ completed e = true /\ date e = x.
Proof.
  induction l as [|e r IH]; intros s Hnd; simpl.
  - split; [exact Hnd|]. intros x. split; [auto|]. intros [H|(e & [] & _)]. exact H.
  - destruct (completed e) eqn:He.
    + destruct (set_add_spec (date e) s Hnd) as [Hnd' Hin'].
      destruct (IH _ Hnd') as [Hnd2 Hin2]. split; [exact Hnd2|].
      intros x. rewrite Hin2, Hin'. split.
      * intros [[->|H]|(e0 & H0 & Hc & Hd)]; [right; exists e; auto | left; exact H|].
        right. exists e0. auto.
      * intros [H|(e0 & [<-|H0] & Hc & Hd)]; [left; right; exact H | left; left; auto|].
        right. exists e0. auto.
    + destruct (IH _ Hnd) as [Hnd2 Hin2]. split; [exact Hnd2|].
      intros x. rewrite Hin2. split.
      * intros [H|(e0 & H0 & Hc & Hd)]; [left; exact H|]. right. exists e0. auto.
      * intros [H|(e0 & [<-|H0] & Hc & Hd)]; [left; exact H | congruence|].
        right. exists e0. auto.
Qed.

Lemma all_dates_spec (habits : list habit) :
  forall s,
    NoDup s ->
    NoDup (fold_left Tips.add_completed habits s) /\
    forall x, In x (fold_left Tips.add_completed habits s) <->
      In x s \/ completed_on habits x.
Proof.
  induction habits as [|h r IH]; intros s Hnd; simpl.
  - split; [exact Hnd|]. intros x. split; [auto|].
    intros [H|(h & l & e & [] & _)]. exact H.
  - assert (Hstep : NoDup (Tips.add_completed s h) /\
              forall x, In x (Tips.add_completed s h) <->
                In x s \/ exists l e, completionHistory h = Some l /\ In e l /\
                                      completed e = true /\ date e = x).
    { unfold Tips.add_completed. destruct (completionHistory h) as [l|].
      - destruct (add_entries_spec l s Hnd) as [H1 H2]. split; [exact H1|].
        intros x. rewrite H2. split.
        + intros [H|(e & He & Hc & Hd)]; [left; exact H|]. right. exists l, e. auto.
        + intros [H|(l0 & e & Hl & He & Hc & Hd)]; [left; exact H|].
          injection Hl as <-. right. exists e. auto.
      - split; [exact Hnd|]. intros x. split; [auto|].
        intros [H|(l0 & e & Hl & _)]; [exact H | discriminate]. }
    destruct Hstep as [Hnd1 Hin1]. destruct (IH _ Hnd1) as [Hnd2 Hin2].
    split; [exact Hnd2|]. intros x. rewrite Hin2, Hin1. unfold completed_on. split.
    + intros [[H|(l & e & Hl & He & Hc & Hd)]|(h0 & l & e & Hh & Hrest)].
      * left. exact H.
      * right. exists h, l, e. split; [left; reflexivity | auto].
      * right. exists h0, l, e. split; [right; exact Hh | exact Hrest].
    + intros [H|(h0 & l & e & [<-|Hh] & Hrest)].
      * left. left. exact H.
      * left. right. exists l, e. exact Hrest.
      * right. exists h0, l, e. auto.
Qed.

Lemma latest_first_sorted (l : list Z) :
  StronglySorted (fun a b => b <= a) (Arr.sort Tips.latest_first l).
Proof.
  apply sort_sorted; cbv beta;
    unfold Tips.latest_first, Progress.MS_PER_DAY; intros; lia.
Qed.

Lemma sorted_strict (l : list Z) :
  StronglySorted (fun a b => b <= a) l -> NoDup l ->
  StronglySorted (fun a b => b < a) l.
Proof.
  induction 1 as [|x r Hr IH Hall]; intros Hnd; [constructor|].
  inversion Hnd as [|? ? Hnot Hnd']; subst.
  constructor; [apply IH, Hnd'|].
  rewrite Forall_forall in *. intros y Hy. specialize (Hall y Hy).
  assert (y <> x) by (intros ->; contradiction). lia.
Qed.

Lemma day_difference (a b : Z) :
  (a * Progress.MS_PER_DAY - b * Progress.MS_PER_DAY) / Progress.MS_PER_DAY = a - b.
Proof.
  unfold Progress.MS_PER_DAY. change (1000 * 60 * 60 * 24) with 86400000.
  replace (a * 86400000 - b * 86400000) with ((a - b) * 86400000) by lia.
  apply Z.div_mul. lia.
Qed.

Lemma count_back_run (rest : list Z) :
  forall previous streak,
    StronglySorted (fun a b => b < a) (previous :: rest) ->
    let k := Tips.count_back previous rest streak in
    streak <= k /\
    (forall j, 0 <= j <= k - streak -> In (previous - j) (previous :: rest)) /\
    ~ In (previous - (k - streak) - 1) (previous :: rest).
Proof.
  induction rest as [|d r IH]; intros previous streak Hs; cbn [Tips.count_back].
  - cbv zeta. split; [lia|]. split.
    + intros j Hj. left. lia.
    + intros [H|[]]. lia.
  - inversion Hs as [|? ? Hs' Hall]; subst.
    rewrite day_difference.
    assert (Hd : d < previous) by (inversion Hall; assumption).
    destruct (Z.eqb_spec (previous - d) 1) as [Hone|Hgap].
    + destruct (IH d (streak + 1) Hs') as (Hk & Hrun & Hend).
      cbv zeta in *. set (k := Tips.count_back d r (streak + 1)) in *.
      split; [lia|]. split.
      * intros j Hj. destruct (Z.eq_dec j 0) as [->|Hj0]; [left; lia|].
        right. replace (previous - j) with (d - (j - 1)) by lia. apply Hrun. lia.
      * intros [H|H]; [lia|]. apply Hend.
        replace (d - (k - (streak + 1)) - 1) with (previous - (k - streak) - 1) by lia.
        exact H.
    + cbv zeta. split; [lia|]. split.
      * intros j Hj. left. lia.
      * replace (previous - (streak - streak) - 1) with (previous - 1) by lia.
        intros [H|[H|H]]; [lia | lia|].
        inversion Hs' as [|? ? _ Hall']; subst.
        rewrite Forall_forall in Hall'. specialize (Hall' _ H). lia.
Qed.

Lemma calculateCurrentStreak_sorted (now : Z) (habits : list habit) :
  Tips.calculateCurrentStreak now habits =
  let sorted := Arr.sort Tips.latest_first (fold_left Tips.add_completed habits []) in
  if existsb (Z.eqb (Storage.today now)) sorted then
    match sorted with
    | first :: rest => Tips.count_back first rest 1
    | [] => 1
    end
  else 0.
Proof.
  unfold Tips.calculateCurrentStreak. destruct habits as [|h r]; [reflexivity|].
  destruct (fold_left Tips.add_completed (h :: r) []); reflexivity.
Qed.

(** X22.  [calculateCurrentStreak] is 0 unless some habit has a
    completed entry dated today.  Otherwise it is the number of
    consecutive days with a completed entry that end at the latest
    completed date on record: this is the run that ends today when no
    completed entry is dated after today. *)
Theorem calculateCurrentStreak_run :
  forall now habits,
    let k := Tips.calculateCurrentStreak now habits in
    (~ completed_on habits (Storage.today now) -> k = 0) /\
    (completed_on habits (Storage.today now) ->
     exists latest,
       completed_on habits latest /\
       (forall d, completed_on habits d -> d <= latest) /\
       ((forall d, completed_on habits d -> d <= Storage.today now) ->
        latest = Storage.today now) /\
       1 <= k /\
       (forall j, 0 <= j < k -> completed_on habits (latest - j)) /\
       ~ completed_on habits (latest - k)).
Proof.
  intros now habits k. subst k.
  destruct (all_dates_spec habits [] (NoDup_nil Z)) as [Hnd Hin].
  assert (Hdates : forall x, In x (fold_left Tips.add_completed habits []) <->
                             completed_on habits x).
  { intros x. rewrite Hin. split; [intros [[]|H]; exact H | auto]. }
  clear Hin.
  rewrite calculateCurrentStreak_sorted. cbv zeta.
  set (allDates := fold_left Tips.add_completed habits []) in *.
  set (sorted := Arr.sort Tips.latest_first allDates).
  assert (Hperm : Permutation sorted allDates) by apply sort_perm.
  assert (Hmem : forall x, In x sorted <-> completed_on habits x).
  { intros x. rewrite <- Hdates. split; apply Permutation_in;
      [exact Hperm | apply Permutation_sym, Hperm]. }
  assert (Hstrict : StronglySorted (fun a b => b < a) sorted).
  { apply sorted_strict; [apply latest_first_sorted|].
    eapply Permutation_NoDup; [apply Permutation_sym, Hperm | exact Hnd]. }
  assert (Htoday : existsb (Z.eqb (Storage.today now)) sorted = true <->
                   completed_on habits (Storage.today now)).
  { rewrite <- Hmem, existsb_exists. split.
    - intros (y & Hy & Heq). apply Z.eqb_eq in Heq. subst y. exact Hy.
    - intros H. exists (Storage.today now). split; [exact H | apply Z.eqb_refl]. }
  clearbody sorted. clear Hperm.
  split.
  - intros Hnot. destruct (existsb _ sorted) eqn:He; [|reflexivity].
    exfalso. apply Hnot, Htoday. reflexivity.
  - intros Hyes. rewrite (proj2 Htoday Hyes).
    destruct sorted as [|first rest] eqn:Hsorted.
    { exfalso. apply Hmem in Hyes. destruct Hyes. }
    destruct (count_back_run rest first 1 Hstrict) as (Hk & Hrun & Hend).
    cbv zeta in *. set (k := Tips.count_back first rest 1) in *.
    assert (Hmax : forall d, completed_on habits d -> d <= first).
    { intros d Hd. apply Hmem in Hd. destruct Hd as [<-|Hd]; [lia|].
      inversion Hstrict as [|? ? _ Hlt]; subst. rewrite Forall_forall in Hlt.
      specialize (Hlt d Hd). lia. }
    exists first.
    split; [apply Hmem; left; reflexivity|].
    split; [exact Hmax|].
    split.
    { intros Hpast. apply Z.le_antisymm; [|apply Hmax, Hyes].
      apply Hpast, Hmem. left. reflexivity. }
    split; [exact Hk|].
    split.
    + intros j Hj. apply Hmem, Hrun. lia.
    + intros H. apply Hmem in H. apply Hend.
      replace (first - (k - 1) - 1) with (first - k) by lia. exact H.
Qed.

Lemma calculateCurrentStreak_run_witness :
  Tips.calculateCurrentStreak (5 * 86400000) [three_days_habit] = 3.
Proof.
  assert (Hyes : completed_on [three_days_habit] (Storage.today (5 * 86400000))).
  { exists three_days_habit, [mkEntry 1 true; mkEntry 3 true; mkEntry 4 true; mkEntry 5 true],
      (mkEntry 5 true).
    split; [left; reflexivity|]. split; [reflexivity|].
    split; [right; right; right; left; reflexivity|]. split; reflexivity. }
  destruct (proj2 (calculateCurrentStreak_run (5 * 86400000) [three_days_habit]) Hyes)
    as (latest & _ & _ & _ & Hk & _).
  reflexivity.
Defined.

(** ** The key-value layer *)

(** X23.  The three generic operations of the store: a value that was
    set, and that a JSON text holds as it is, is what
    [getStorageData] returns, whatever the default; a
    key that was deleted, that has no item or whose item does not
    parse gives the default; [updateStorageData] stores the image of
    the current value, or of the empty object when there is none; a
    refused write changes nothing, and no operation touches another
    key. *)
Theorem storage_round_trip :
  forall key value default st,
    (json_document value ->
     Storage.getStorageData key default
       (snd (Storage.setStorageData true key value st)) = value) /\
    Storage.getStorageData key default
      (snd (Storage.deleteStorageData true key st)) = default /\
    (st key = None \/ st key = Some Storage.Garbled ->
     Storage.getStorageData key default st = default) /\
    (forall f,
       json_document (f (Storage.getStorageData key empty_object st)) ->
       Storage.getStorageData key default
         (snd (Storage.updateStorageData true key f st)) =
       f (Storage.getStorageData key empty_object st)) /\
    (forall f,
       Storage.setStorageData false key value st = (false, st) /\
       Storage.deleteStorageData false key st = (false, st) /\
       Storage.updateStorageData false key f st = (false, st)) /\
    (forall w f other,
       other <> key ->
       snd (Storage.setStorageData w key value st) other = st other /\
       snd (Storage.deleteStorageData w key st) other = st other /\
       snd (Storage.updateStorageData w key f st) other = st other).
Proof.
  intros key value default st.
  unfold Storage.updateStorageData, Storage.setStorageData, Storage.deleteStorageData,
    Storage.getStorageData, Storage.setItem, Storage.removeItem. cbv zeta. simpl.
  rewrite String.eqb_refl.
  split; [reflexivity|]. split; [reflexivity|].
  split; [intros [-> | ->]; reflexivity|].
  split; [reflexivity|].
  split; [intros f; repeat split|].
  intros w f other Hne.
  destruct w; simpl; repeat split;
    destruct (String.eqb_spec other key); try contradiction; reflexivity.
Qed.

Lemma storage_round_trip_witness :
  Storage.getStorageData STORAGE_KEYS_HABITS Storage.Other empty_store = Storage.Other.
Proof.
  exact (proj1 (proj2 (proj2 (storage_round_trip STORAGE_KEYS_HABITS Storage.Other
                                Storage.Other empty_store)))
               (or_introl eq_refl)).
Defined.

(** X24.  [clearAllHabits] succeeds exactly when the store accepts
    the write.  Afterwards no habit is stored: every identifier is
    unknown, so completing, updating or deleting a habit fails.
    Deleting the item of the habits key has the same effect on
    [getHabits]. *)
Theorem clearAllHabits_empties :
  forall now w st,
    fst (Storage.clearAllHabits now w st) = w /\
    (w = false -> snd (Storage.clearAllHabits now w st) = st) /\
    (w = true ->
     forall t,
       Storage.getHabits t (snd (Storage.clearAllHabits now w st)) = [] /\
       forall w' habitId target u,
         fst (Storage.updateHabitCompletion t w' habitId target
                (snd (Storage.clearAllHabits now w st))) = false /\
         fst (Storage.updateHabit t w' habitId u
                (snd (Storage.clearAllHabits now w st))) = false /\
         fst (Storage.deleteHabit t w' habitId
                (snd (Storage.clearAllHabits now w st))) = false) /\
    (forall t, Storage.getHabits t
                 (snd (Storage.deleteStorageData true STORAGE_KEYS_HABITS st)) = []).
Proof.
  intros now w st. unfold Storage.clearAllHabits. rewrite saveHabits_result.
  simpl forallb. simpl andb.
  split; [destruct w; reflexivity|].
  split; [intros ->; reflexivity|].
  split; [|intros t; reflexivity].
  intros -> t. simpl snd.
  assert (Hget : forall t', Storage.getHabits t'
            (Storage.setItem STORAGE_KEYS_HABITS
               (Storage.Envelope (mkStored (Some DEFAULT_HABITS) (Some now)
                                           (Some DEFAULT_VERSION))) st) = [])
    by (intros t'; apply getHabits_setItem; reflexivity).
  split; [apply Hget|].
  intros w' habitId target u.
  unfold Storage.updateHabitCompletion, Storage.updateHabit, Storage.deleteHabit.
  cbv zeta. rewrite Hget. repeat split.
Qed.

Lemma clearAllHabits_empties_witness :
  Storage.getHabits 9 (snd (Storage.clearAllHabits 7 true sample_store)) = [].
Proof.
  exact (proj1 (proj1 (proj2 (proj2 (clearAllHabits_empties 7 true sample_store)))
                  eq_refl 9)).
Defined.

(** ** A new habit *)

(** X25.  The habit [addHabit] builds and the habit
    [createDefaultHabit] builds agree when a frequency is given and
    the target time is not the empty string.  [createDefaultHabit] passes
    [validateHabit] exactly when the name is acceptable and the
    frequency, ['daily'] when none is given, is ['daily'] or
    ['weekly'].  Such a new habit starts from nothing: completion 0,
    both streaks 0, weekly rate 0 and a consistency score of 0 rated
    ['No Data']. *)
Theorem createDefaultHabit_fresh :
  forall now fresh name frequency targetTime,
    let h := createDefaultHabit now fresh name frequency targetTime in
    validateHabit h =
      (negb (name_error name) &&
       negb (frequency_error
               (match frequency with Some f => Some f | None => Some "daily"%string end))) /\
    (frequency = None -> validateHabit h = negb (name_error name)) /\
    (forall f, frequency = Some f -> targetTime <> Some EmptyString ->
       h = created now fresh (mkData name (Some f) targetTime)) /\
    Progress.calculateCompletionPercentage (Some h) = JS.of_Z 0 /\
    Progress.calculateStreak (completionHistory h) = Progress.mkStreak 0 0 /\
    (forall t weeksBack,
       Progress.calculateWeeklyCompletionRate t (completionHistory h) weeksBack =
       JS.of_Z 0) /\
    (forall t, Progress.calculateConsistencyScore t (Some h) =
               Progress.mkConsistency (JS.of_Z 0) "No Data").
Proof.
  intros now fresh name frequency targetTime h. subst h.
  split.
  { rewrite validateHabit_fields. unfold createDefaultHabit.
    cbn [Types.name Types.frequency completedDays totalDays completionHistory].
    rewrite (counter_nonneg 0) by lia. rewrite !andb_true_r. reflexivity. }
  split.
  { intros ->. rewrite validateHabit_fields. unfold createDefaultHabit.
    cbn [Types.name Types.frequency completedDays totalDays completionHistory].
    rewrite (counter_nonneg 0) by lia. rewrite !andb_true_r. reflexivity. }
  split.
  { intros f -> Htt. unfold createDefaultHabit, created, Storage.or_null.
    cbn [dataName dataFrequency dataTargetTime].
    destruct targetTime as [[|c r]|]; [contradiction | reflexivity | reflexivity]. }
  repeat split.
Qed.

Lemma createDefaultHabit_fresh_witness :
  validateHabit (createDefaultHabit 0 "u" (Some "Read"%string) None None) = true.
Proof.
  rewrite (proj1 (proj2 (createDefaultHabit_fresh 0 "u" (Some "Read"%string) None None))
             eq_refl).
  reflexivity.
Defined.

(** ** The incremental refresh *)

(** X26.  [performIncrementalRefresh] always succeeds and returns the
    stored habits; it notifies the listeners exactly when it reports
    changes.  Called with the habits that were just saved, whose
    identifiers are distinct and whose counters are finite, it
    reports no change; called without habits in memory, it reports a
    change exactly when the store holds a habit. *)
Theorem performIncrementalRefresh_outcome :
  forall now currentHabits st,
    let r := fst (Synchronizer.performIncrementalRefresh now currentHabits st) in
    let events := snd (Synchronizer.performIncrementalRefresh now currentHabits st) in
    Synchronizer.refreshSuccess r = true /\
    Synchronizer.refreshData r = Storage.getHabits now st /\
    (Synchronizer.refreshHasChanges r = true <-> events <> []) /\
    (Synchronizer.refreshHasChanges r = false <->
     Synchronizer.refreshChanges r = None) /\
    (currentHabits = [] ->
     Synchronizer.refreshHasChanges r = negb (is_nil (Storage.getHabits now st))) /\
    (forall t w st0,
       Storage.saveHabits t w currentHabits st0 = (true, st) ->
       NoDup (map id currentHabits) -> Forall json_habit currentHabits ->
       Synchronizer.performIncrementalRefresh now currentHabits st =
       (Synchronizer.mkRefreshResult true false None currentHabits, [])).
Proof.
  intros now currentHabits st r events. subst r events.
  unfold Synchronizer.performIncrementalRefresh. cbv zeta.
  split; [destruct (Synchronizer.hasChanges _); reflexivity|].
  split; [destruct (Synchronizer.hasChanges _); reflexivity|].
  split.
  { destruct (Synchronizer.hasChanges _); simpl; split; intros H; try reflexivity;
      try discriminate; contradiction. }
  split.
  { destruct (Synchronizer.hasChanges _); simpl; split; intros H; try reflexivity;
      discriminate. }
  split.
  { intros ->. unfold Synchronizer.detectChanges. cbv zeta.
    cbn [Synchronizer.hasChanges map]. rewrite modified_fold.
    destruct (Storage.getHabits now st) as [|h l]; [reflexivity|].
    cbn [filter Str.includes existsb negb is_nil]. reflexivity. }
  intros t w st0 Hsave Hnd Hjson.
  assert (Hcmp : Forall counters_comparable currentHabits).
  { eapply Forall_impl; [|exact Hjson]. intros h [Hc Ht]. unfold counters_comparable.
    split; intros E; [rewrite E in Hc | rewrite E in Ht]; contradiction. }
  rewrite saveHabits_result in Hsave.
  destruct (forallb validateHabit currentHabits) eqn:Hv; [|discriminate].
  destruct w; [|discriminate]. simpl in Hsave. injection Hsave as <-.
  rewrite (getHabits_setItem t now currentHabits st0 Hv).
  unfold Synchronizer.detectChanges. cbv zeta.
  cbn [Synchronizer.hasChanges Synchronizer.changeSummary].
  rewrite modified_fold, app_nil_l.
  assert (Hnone : filter (fun h => negb (Str.includes (id h) (map id currentHabits)))
                         currentHabits = []).
  { assert (H : forall l, (forall x, In x l -> In x currentHabits) ->
              filter (fun h => negb (Str.includes (id h) (map id currentHabits))) l = []).
    { induction l as [|x r IH]; intros Hsub; simpl; [reflexivity|].
      rewrite includes_In by (apply in_map, Hsub; left; reflexivity).
      simpl. apply IH. intros y Hy. apply Hsub. right. exact Hy. }
    apply H. auto. }
  assert (Hmod : flat_map (modification_of currentHabits) currentHabits = []).
  { assert (H : forall l, (forall x, In x l -> In x currentHabits) ->
              flat_map (modification_of currentHabits) l = []).
    { induction l as [|x r IH]; intros Hsub; simpl; [reflexivity|].
      rewrite IH by (intros y Hy; apply Hsub; right; exact Hy).
      unfold modification_of.
      rewrite (find_unique currentHabits x Hnd) by (apply Hsub; left; reflexivity).
      rewrite Forall_forall in Hcmp.
      destruct (Hcmp x (Hsub x (or_introl eq_refl))) as [Hc Ht].
      unfold Synchronizer.isModified.
      rewrite string_same, eqb_reflx, (counter_same _ Hc), (counter_same _ Ht).
      reflexivity. }
    apply H. auto. }
  rewrite Hnone, Hmod. reflexivity.
Qed.

Lemma performIncrementalRefresh_outcome_witness :
  Synchronizer.performIncrementalRefresh 9 [sample_habit]
    (snd (Storage.saveHabits 7 true [sample_habit] empty_store)) =
  (Synchronizer.mkRefreshResult true false None [sample_habit], []).
Proof.
  apply (proj2 (proj2 (proj2 (proj2 (proj2
           (performIncrementalRefresh_outcome 9 [sample_habit]
              (snd (Storage.saveHabits 7 true [sample_habit] empty_store)))))))
           7 true empty_store).
  - reflexivity.
  - repeat constructor. intros [].
  - constructor; [split; exact I | constructor].
Defined.
